(** * A verified model of the accounts HTTP client

    The development embeds [accounts_client.go] (the three operations
    [Fetch], [Create], [Delete], the client factory and the helpers they
    share) together with the parts of the Go libraries the client calls:
    [uuid.Parse], [url.ParseRequestURI] and [encoding/json].

    Conventions.
    - A Go [string] and a Go [[]byte] are both byte sequences and are
      modelled by [string] (a list of 8-bit [ascii]).  The client never
      compares a byte slice with [nil], so the nil and the empty byte slice
      are identified; for the [[]string] fields of the resource the
      distinction is kept ([option (list string)]).
    - A Go pointer that may be [nil] is an [option].
    - A Go [int] / [int64] is a [Z].
    - A call returning [(value, error)] returns a pair of options, since Go
      allows both to be nil or both to be set.
    - Effects (calls of the transport primitives, closing a body, a
      run-time panic) are recorded by the monad [Go]. *)

From Stdlib Require Import ZArith Lia List Ascii String Bool DecimalString.
From Stdlib Require Import Decimal DecimalFacts DecimalPos DecimalN DecimalZ.
From stdpp Require Import gmap strings.
Import ListNotations.

Set Warnings "-register-all".

Local Open Scope Z_scope.

(** ** Bytes and strings *)

Definition code (c : ascii) : Z := Z.of_N (N_of_ascii c).

Definition byte_of (z : Z) : ascii := ascii_of_N (Z.to_N z).

Definition between (lo hi : ascii) (c : ascii) : bool :=
  (code lo <=? code c) && (code c <=? code hi).

Definition is_lower (c : ascii) : bool := between "a" "z" c.
Definition is_upper (c : ascii) : bool := between "A" "Z" c.
Definition is_letter (c : ascii) : bool := is_lower c || is_upper c.
Definition is_digit (c : ascii) : bool := between "0" "9" c.

Definition ishex (c : ascii) : bool :=
  is_digit c || between "a" "f" c || between "A" "F" c.

Definition unhex (c : ascii) : Z :=
  if is_digit c then code c - code "0"
  else if between "a" "f" c then code c - code "a" + 10
  else if between "A" "F" c then code c - code "A" + 10
  else 0.

Definition to_upper (c : ascii) : ascii :=
  if is_lower c then byte_of (code c - 32) else c.

Definition to_lower (c : ascii) : ascii :=
  if is_upper c then byte_of (code c + 32) else c.

Fixpoint string_map (f : ascii -> ascii) (s : string) : string :=
  match s with
  | EmptyString => EmptyString
  | String c r => String (f c) (string_map f r)
  end.

Fixpoint string_forall (p : ascii -> bool) (s : string) : bool :=
  match s with
  | EmptyString => true
  | String c r => p c && string_forall p r
  end.

(** [strings.HasPrefix s p]. *)
Definition HasPrefix (s p : string) : bool := String.prefix p s.

(** [s[n:]] and [s[:n]] for [n <= len(s)]. *)
Fixpoint drop (n : nat) (s : string) : string :=
  match n, s with
  | O, _ => s
  | S n', String _ r => drop n' r
  | S _, EmptyString => EmptyString
  end.

Fixpoint take (n : nat) (s : string) : string :=
  match n, s with
  | O, _ => EmptyString
  | S n', String c r => String c (take n' r)
  | S _, EmptyString => EmptyString
  end.

(** [strings.Cut s sep] for a one-byte separator: the text before the first
    [sep], the text after it, and whether [sep] was found. *)
Fixpoint Cut (s : string) (sep : ascii) : string * string * bool :=
  match s with
  | EmptyString => (EmptyString, EmptyString, false)
  | String c r =>
      if Ascii.eqb c sep then (EmptyString, r, true)
      else let '(b, a, found) := Cut r sep in (String c b, a, found)
  end.

(** [strings.LastIndex s sep >= 0] and the two sides of the last [sep]. *)
Fixpoint CutLast (s : string) (sep : ascii) : option (string * string) :=
  match s with
  | EmptyString => None
  | String c r =>
      match CutLast r sep with
      | Some (b, a) => Some (String c b, a)
      | None => if Ascii.eqb c sep then Some (EmptyString, r) else None
      end
  end.

Fixpoint Count (s : string) (sep : ascii) : nat :=
  match s with
  | EmptyString => O
  | String c r => (if Ascii.eqb c sep then 1 else 0)%nat + Count r sep
  end.

Fixpoint last_byte (s : string) : option ascii :=
  match s with
  | EmptyString => None
  | String c EmptyString => Some c
  | String _ r => last_byte r
  end.

Fixpoint drop_last (s : string) : string :=
  match s with
  | EmptyString => EmptyString
  | String _ EmptyString => EmptyString
  | String c r => String c (drop_last r)
  end.

(** The [%d] verb of [fmt.Sprintf] on an integer. *)
Definition fmt_d (z : Z) : string := NilZero.string_of_int (Z.to_int z).

(** ** Errors *)

(** Go [error] values the client can meet: errors made with [errors.New]
    (also used for the errors a test double returns) and the errors of the
    libraries, kept by kind. *)
Inductive error : Type :=
| errors_New (msg : string)
| json_SyntaxError (msg : string)
| json_UnmarshalTypeError (value : string) (field : string)
| url_Error (op : string) (rawURL : string) (msg : string)
| uuid_Error (msg : string).

(** [HTTPError] of the client. [Cause] and [ResponsePayload] are pointers
    or interface values that may be nil. *)
Record HTTPError : Type := mkHTTPError {
  Cause : option error;
  Message : string;
  StatusCode : Z;
  ResponsePayload : option string
}.

(** ** [uuid.Parse] (github.com/google/uuid) *)

Module uuid.

(** [xtob x1 x2]: two hex digits to a byte, as the library's table
    [xvalues] does (255 marks a byte that is not a hex digit). *)
Definition xtob (x1 x2 : ascii) : option Z :=
  if ishex x1 && ishex x2 then Some (unhex x1 * 16 + unhex x2) else None.

Fixpoint hex_pairs (n : nat) (s : string) : option (list Z) :=
  match n with
  | O => Some []
  | S n' =>
      match s with
      | String a (String b r) =>
          match xtob a b, hex_pairs n' r with
          | Some v, Some vs => Some (v :: vs)
          | _, _ => None
          end
      | _ => None
      end
  end.

Definition EqualFold (s t : string) : bool :=
  String.eqb (string_map to_lower s) (string_map to_lower t).

(** The 36 bytes [xxxxxxxx-xxxx-xxxx-xxxx-xxxxxxxxxxxx]; only the first 36
    bytes of [s] are looked at. *)
Definition parse36 (s : string) : error + list Z :=
  let dash (i : nat) := match String.get i s with Some "-"%char => true | _ => false end in
  if negb (dash 8%nat && dash 13%nat && dash 18%nat && dash 23%nat)
  then inl (uuid_Error "invalid UUID format")
  else
    match hex_pairs 4 s, hex_pairs 2 (drop 9 s), hex_pairs 2 (drop 14 s),
          hex_pairs 2 (drop 19 s), hex_pairs 6 (drop 24 s) with
    | Some a, Some b, Some c, Some d, Some e => inr (a ++ b ++ c ++ d ++ e)
    | _, _, _, _, _ => inl (uuid_Error "invalid UUID format")
    end.

(** [Parse]: the switch on [len(s)].  For the 38-byte form the library
    drops the first byte and reads the next 36, without looking at the
    two delimiters. *)
Definition Parse (s : string) : error + list Z :=
  match String.length s with
  | 36%nat => parse36 s
  | 45%nat =>
      if negb (EqualFold (take 9 s) "urn:uuid:")
      then inl (uuid_Error "invalid urn prefix")
      else parse36 (drop 9 s)
  | 38%nat => parse36 (drop 1 s)
  | 32%nat =>
      match hex_pairs 16 s with
      | Some u => inr u
      | None => inl (uuid_Error "invalid UUID format")
      end
  | _ => inl (uuid_Error "invalid UUID length")
  end.

End uuid.

(** [isValidUUID] of the client. *)
Definition isValidUUID (u : string) : bool :=
  match uuid.Parse u with
  | inl _ => false
  | inr _ => true
  end.

(** ** [url.ParseRequestURI] (net/url) *)

Module url.

(** The fields of [url.URL] that parsing fills in ([RawPath], [OmitHost]
    and the fragment, which [ParseRequestURI] never sets, are left out). *)
Record URL : Type := mkURL {
  Scheme : string;
  Opaque : string;
  User : option (string * option string);
  Host : string;
  Path : string;
  RawQuery : string;
  ForceQuery : bool
}.

Definition empty_URL : URL := mkURL "" "" None "" "" "" false.

(** [u.IsAbs()]. *)
Definition IsAbs (u : URL) : bool := negb (String.eqb (Scheme u) "").

Inductive encoding : Type :=
| encodePath | encodeHost | encodeZone | encodeUserPassword.

Definition host_mode (m : encoding) : bool :=
  match m with encodeHost | encodeZone => true | _ => false end.

Definition stringContainsCTLByte (s : string) : bool :=
  negb (string_forall (fun b => negb ((code b <? 32) || (code b =? 127))) s).

Definition one_of (cs : string) (c : ascii) : bool :=
  negb (string_forall (fun x => negb (Ascii.eqb x c)) cs).

(** [shouldEscape c encodeHost]. *)
Definition shouldEscapeHost (c : ascii) : bool :=
  if is_letter c || is_digit c then false
  else if one_of (String "034" "!$&'()*+,;=:[]<>") c then false
  else if one_of "-_.~" c then false
  else true.

(** [getScheme]: [inr (Some n)] when the scheme is the first [n] bytes
    and a colon follows, [inr None] when there is no scheme. *)
Fixpoint scheme_end (i : nat) (s : string) : error + option nat :=
  match s with
  | EmptyString => inr None
  | String c r =>
      if is_letter c then scheme_end (S i) r
      else if is_digit c || one_of "+-." c then
        match i with O => inr None | _ => scheme_end (S i) r end
      else if Ascii.eqb c ":" then
        match i with
        | O => inl (errors_New "missing protocol scheme")
        | _ => inr (Some i)
        end
      else inr None
  end.

Definition getScheme (rawURL : string) : error + (string * string) :=
  match scheme_end 0 rawURL with
  | inl e => inl e
  | inr (Some n) => inr (take n rawURL, drop (S n) rawURL)
  | inr None => inr (""%string, rawURL)
  end.

(** [unescape s mode]: the well-formedness pass and the decoding pass of
    the library in one traversal (the first ill-formed place decides the
    error in both). *)
Fixpoint unescape (mode : encoding) (s : string) : error + string :=
  match s with
  | EmptyString => inr EmptyString
  | String c r =>
      if Ascii.eqb c "%" then
        match r with
        | String h1 (String h2 r') =>
            if negb (ishex h1 && ishex h2) then inl (errors_New "invalid URL escape")
            else
              let is25 := Ascii.eqb h1 "2" && Ascii.eqb h2 "5" in
              let v := byte_of (unhex h1 * 16 + unhex h2) in
              let bad :=
                match mode with
                | encodeHost => (unhex h1 <? 8) && negb is25
                | encodeZone =>
                    negb is25 && negb (Ascii.eqb v " ") && shouldEscapeHost v
                | _ => false
                end in
              if bad then inl (errors_New "invalid URL escape")
              else
                match unescape mode r' with
                | inl e => inl e
                | inr t => inr (String v t)
                end
        | _ => inl (errors_New "invalid URL escape")
        end
      else if host_mode mode && (code c <? 128) && shouldEscapeHost c
      then inl (errors_New "invalid character in host name")
      else
        match unescape mode r with
        | inl e => inl e
        | inr t => inr (String c t)
        end
  end.

Definition validOptionalPort (port : string) : bool :=
  match port with
  | EmptyString => true
  | String c r => Ascii.eqb c ":" && string_forall is_digit r
  end.

(** [validUserinfo]: the loop ranges over runes; a byte above 127 starts
    a rune outside the allowed set. *)
Definition validUserinfo (s : string) : bool :=
  string_forall
    (fun r => is_letter r || is_digit r || one_of "-._:~!$&'()*+,;=%@" r) s.

(** [strings.Index s sub]. *)
Fixpoint Index (s sub : string) : option nat :=
  if String.prefix sub s then Some O
  else match s with
       | EmptyString => None
       | String _ r => option_map S (Index r sub)
       end.

Definition parseHost (host : string) : error + string :=
  if HasPrefix host "[" then
    match CutLast host "]" with
    | None => inl (errors_New "missing ']' in host")
    | Some (before, colonPort) =>
        if negb (validOptionalPort colonPort)
        then inl (errors_New "invalid port after host")
        else
          match Index before "%25" with
          | Some zone =>
              match unescape encodeHost (take zone host),
                    unescape encodeZone (drop zone before),
                    unescape encodeHost (String "]" colonPort) with
              | inl e, _, _ => inl e
              | _, inl e, _ => inl e
              | _, _, inl e => inl e
              | inr h1, inr h2, inr h3 => inr (h1 +:+ h2 +:+ h3)
              end
          | None => unescape encodeHost host
          end
    end
  else
    match CutLast host ":" with
    | Some (_, port) =>
        if negb (validOptionalPort (String ":" port))
        then inl (errors_New "invalid port after host")
        else unescape encodeHost host
    | None => unescape encodeHost host
    end.

Definition parseAuthority (authority : string)
  : error + (option (string * option string) * string) :=
  match CutLast authority "@" with
  | None =>
      match parseHost authority with
      | inl e => inl e
      | inr h => inr (None, h)
      end
  | Some (userinfo, hostpart) =>
      match parseHost hostpart with
      | inl e => inl e
      | inr h =>
          if negb (validUserinfo userinfo)
          then inl (errors_New "net/url: invalid userinfo")
          else
            let '(username, password, found) := Cut userinfo ":" in
            if negb found then
              match unescape encodeUserPassword userinfo with
              | inl e => inl e
              | inr u => inr (Some (u, None), h)
              end
            else
              match unescape encodeUserPassword username,
                    unescape encodeUserPassword password with
              | inl e, _ => inl e
              | _, inl e => inl e
              | inr u, inr p => inr (Some (u, Some p), h)
              end
      end
  end.

(** [parse rawURL viaRequest]. *)
Definition parse (rawURL : string) (viaRequest : bool) : error + URL :=
  if stringContainsCTLByte rawURL
  then inl (errors_New "net/url: invalid control character in URL")
  else if String.eqb rawURL "" && viaRequest then inl (errors_New "empty url")
  else if String.eqb rawURL "*" then inr (mkURL "" "" None "" "*" "" false)
  else
    match getScheme rawURL with
    | inl e => inl e
    | inr (scheme0, rest0) =>
        let scheme := string_map to_lower scheme0 in
        let '(rest, rawQuery, forceQuery) :=
          if (match last_byte rest0 with Some "?"%char => true | _ => false end)
             && Nat.eqb (Count rest0 "?") 1
          then (drop_last rest0, ""%string, true)
          else let '(b, a, _) := Cut rest0 "?" in (b, a, false) in
        let has_scheme := negb (String.eqb scheme "") in
        if negb (HasPrefix rest "/") && has_scheme
        then inr (mkURL scheme rest None "" "" rawQuery forceQuery)
        else if negb (HasPrefix rest "/") && viaRequest
        then inl (errors_New "invalid URI for request")
        else if negb (HasPrefix rest "/")
                && (let '(segment, _, _) := Cut rest "/" in one_of segment ":")
        then inl (errors_New "first path segment in URL cannot contain colon")
        else if (has_scheme || (negb viaRequest && negb (HasPrefix rest "///")))
                && HasPrefix rest "//"
        then
          let authority0 := drop 2 rest in
          let '(authority, path) :=
            match Index authority0 "/" with
            | Some i => (take i authority0, drop i authority0)
            | None => (authority0, ""%string)
            end in
          match parseAuthority authority with
          | inl e => inl e
          | inr (user, host) =>
              match unescape encodePath path with
              | inl e => inl e
              | inr p => inr (mkURL scheme "" user host p rawQuery forceQuery)
              end
          end
        else
          match unescape encodePath rest with
          | inl e => inl e
          | inr p => inr (mkURL scheme "" None "" p rawQuery forceQuery)
          end
    end.

Definition ParseRequestURI (rawURL : string) : error + URL :=
  match parse rawURL true with
  | inl e => inl (url_Error "parse" rawURL
                    (match e with errors_New m => m | _ => ""%string end))
  | inr u => inr u
  end.

End url.

(** [validateUrl] of the client. *)
Definition validateUrl (baseUrl : string) : option error :=
  match url.ParseRequestURI baseUrl with
  | inl _ => Some (errors_New "invalid URL provided")
  | inr _ => None
  end.

(** ** UTF-8 (unicode/utf8, unicode/utf16) *)

Module utf8.

Definition RuneError : Z := 65533.
Definition MaxRune : Z := 1114111.

(** The table [first] with [acceptRanges]: for a leading byte, the length
    of the sequence and the range allowed for the second byte. *)
Definition first (b0 : Z) : option (nat * Z * Z) :=
  if (194 <=? b0) && (b0 <=? 223) then Some (2%nat, 128, 191)
  else if b0 =? 224 then Some (3%nat, 160, 191)
  else if (225 <=? b0) && (b0 <=? 236) then Some (3%nat, 128, 191)
  else if b0 =? 237 then Some (3%nat, 128, 159)
  else if (238 <=? b0) && (b0 <=? 239) then Some (3%nat, 128, 191)
  else if b0 =? 240 then Some (4%nat, 144, 191)
  else if (241 <=? b0) && (b0 <=? 243) then Some (4%nat, 128, 191)
  else if b0 =? 244 then Some (4%nat, 128, 143)
  else None.

Definition in_range (lo hi b : Z) : bool := (lo <=? b) && (b <=? hi).

(** [DecodeRune p]: the rune and the number of bytes it takes;
    [(RuneError, 1)] on an ill-formed sequence, [(RuneError, 0)] on the
    empty input. *)
Definition DecodeRune (p : string) : Z * nat :=
  match p with
  | EmptyString => (RuneError, 0%nat)
  | String c0 r0 =>
      let p0 := code c0 in
      if p0 <? 128 then (p0, 1%nat)
      else
        match first p0 with
        | None => (RuneError, 1%nat)
        | Some (sz, lo, hi) =>
            match r0 with
            | EmptyString => (RuneError, 1%nat)
            | String c1 r1 =>
                let b1 := code c1 in
                if negb (in_range lo hi b1) then (RuneError, 1%nat)
                else
                  match sz with
                  | 2%nat =>
                      (Z.lor (Z.shiftl (Z.land p0 31) 6) (Z.land b1 63), 2%nat)
                  | _ =>
                      match r1 with
                      | EmptyString => (RuneError, 1%nat)
                      | String c2 r2 =>
                          let b2 := code c2 in
                          if negb (in_range 128 191 b2) then (RuneError, 1%nat)
                          else
                            match sz with
                            | 3%nat =>
                                (Z.lor (Z.lor (Z.shiftl (Z.land p0 15) 12)
                                              (Z.shiftl (Z.land b1 63) 6))
                                       (Z.land b2 63), 3%nat)
                            | _ =>
                                match r2 with
                                | EmptyString => (RuneError, 1%nat)
                                | String c3 _ =>
                                    let b3 := code c3 in
                                    if negb (in_range 128 191 b3) then (RuneError, 1%nat)
                                    else
                                      (Z.lor (Z.lor (Z.lor (Z.shiftl (Z.land p0 7) 18)
                                                           (Z.shiftl (Z.land b1 63) 12))
                                                    (Z.shiftl (Z.land b2 63) 6))
                                             (Z.land b3 63), 4%nat)
                                end
                            end
                      end
                  end
            end
        end
  end.

Definition cont (r : Z) (sh : Z) : ascii :=
  byte_of (Z.lor 128 (Z.land (Z.shiftr r sh) 63)).

Definition encode3 (r : Z) : string :=
  String (byte_of (Z.lor 224 (Z.shiftr r 12)))
    (String (cont r 6) (String (cont r 0) EmptyString)).

(** [EncodeRune r], for [0 <= r]. *)
Definition EncodeRune (r : Z) : string :=
  if r <=? 127 then String (byte_of r) EmptyString
  else if r <=? 2047 then
    String (byte_of (Z.lor 192 (Z.shiftr r 6))) (String (cont r 0) EmptyString)
  else if (MaxRune <? r) || ((55296 <=? r) && (r <=? 57343)) then encode3 RuneError
  else if r <=? 65535 then encode3 r
  else
    String (byte_of (Z.lor 240 (Z.shiftr r 18)))
      (String (cont r 12) (String (cont r 6) (String (cont r 0) EmptyString))).

(** [utf8.ValidString]; the fuel is the length of the string. *)
Fixpoint valid_fuel (fuel : nat) (s : string) : bool :=
  match s with
  | EmptyString => true
  | String _ _ =>
      match fuel with
      | O => false
      | S f =>
          let '(r, size) := DecodeRune s in
          if (r =? RuneError) && Nat.eqb size 1 then false
          else valid_fuel f (drop size s)
      end
  end.

Definition ValidString (s : string) : bool := valid_fuel (String.length s) s.

End utf8.

Module utf16.

Definition IsSurrogate (r : Z) : bool := (55296 <=? r) && (r <? 57344).

Definition DecodeRune (r1 r2 : Z) : Z :=
  if (55296 <=? r1) && (r1 <? 56320) && (56320 <=? r2) && (r2 <? 57344)
  then Z.lor (Z.shiftl (r1 - 55296) 10) (r2 - 56320) + 65536
  else utf8.RuneError.

End utf16.

(** ** JSON text (encoding/json: the scanner and the string decoder) *)

Module json.

(** A JSON document.  A number keeps its literal, an object keeps the
    order of its members and any repeated key. *)
Inductive value : Type :=
| JNull
| JBool (b : bool)
| JNumber (lit : string)
| JString (s : string)
| JArray (elems : list value)
| JObject (members : list (string * value)).

Definition isSpace (c : ascii) : bool :=
  (code c =? 32) || (code c =? 9) || (code c =? 13) || (code c =? 10).

Fixpoint skip_ws (s : string) : string :=
  match s with
  | String c r => if isSpace c then skip_ws r else s
  | EmptyString => EmptyString
  end.

Definition all_hex4 (a b c d : ascii) : bool :=
  ishex a && ishex b && ishex c && ishex d.

Definition cons2 (c : ascii) (x : option (string * string)) : option (string * string) :=
  match x with
  | Some (lit, rest) => Some (String c lit, rest)
  | None => None
  end.

(** The scanner inside a string literal (after the opening quote): the
    raw text up to the closing quote and what follows it.  Control bytes
    and unknown escapes are syntax errors. *)
Fixpoint scan_string (s : string) : option (string * string) :=
  match s with
  | EmptyString => None
  | String c r =>
      if Ascii.eqb c "034" then Some (EmptyString, r)
      else if Ascii.eqb c "092" then
        match r with
        | EmptyString => None
        | String e r1 =>
            if url.one_of (String "034" "bfnrt\/") e then cons2 c (cons2 e (scan_string r1))
            else if Ascii.eqb e "u" then
              match r1 with
              | String h1 (String h2 (String h3 (String h4 r2))) =>
                  if all_hex4 h1 h2 h3 h4
                  then cons2 c (cons2 e (cons2 h1 (cons2 h2 (cons2 h3 (cons2 h4
                         (scan_string r2))))))
                  else None
              | _ => None
              end
            else None
        end
      else if code c <? 32 then None
      else cons2 c (scan_string r)
  end.

(** [getu4 s]: the rune of a leading [\uXXXX], if there is one. *)
Definition getu4 (s : string) : option Z :=
  match s with
  | String "092" (String "u" (String h1 (String h2 (String h3 (String h4 _))))) =>
      if all_hex4 h1 h2 h3 h4
      then Some (((unhex h1 * 16 + unhex h2) * 16 + unhex h3) * 16 + unhex h4)
      else None
  | _ => None
  end.

Definition prepend (p : string) (x : option string) : option string :=
  match x with
  | Some t => Some (p +:+ t)
  | None => None
  end.

Definition simple_escape (e : ascii) : option ascii :=
  if url.one_of (String "034" "\/'") e then Some e
  else if Ascii.eqb e "b" then Some (byte_of 8)
  else if Ascii.eqb e "f" then Some (byte_of 12)
  else if Ascii.eqb e "n" then Some (byte_of 10)
  else if Ascii.eqb e "r" then Some (byte_of 13)
  else if Ascii.eqb e "t" then Some (byte_of 9)
  else None.

(** [unquoteBytes] on the text between the quotes: escapes are replaced,
    ill-formed UTF-8 is coerced to U+FFFD one byte at a time.  Every step
    consumes at least one byte, so the length of [s] is enough fuel. *)
Fixpoint unquote_fuel (fuel : nat) (s : string) : option string :=
  match s with
  | EmptyString => Some EmptyString
  | String c r =>
      match fuel with
      | O => None
      | S f =>
          if Ascii.eqb c "092" then
            match r with
            | EmptyString => None
            | String e r1 =>
                if Ascii.eqb e "u" then
                  match getu4 s with
                  | None => None
                  | Some rr =>
                      let s6 := drop 6 s in
                      if utf16.IsSurrogate rr then
                        let dec :=
                          match getu4 s6 with
                          | Some rr1 => utf16.DecodeRune rr rr1
                          | None => utf8.RuneError
                          end in
                        if negb (dec =? utf8.RuneError)
                        then prepend (utf8.EncodeRune dec) (unquote_fuel f (drop 6 s6))
                        else prepend (utf8.EncodeRune utf8.RuneError) (unquote_fuel f s6)
                      else prepend (utf8.EncodeRune rr) (unquote_fuel f s6)
                  end
                else
                  match simple_escape e with
                  | Some b => prepend (String b EmptyString) (unquote_fuel f r1)
                  | None => None
                  end
            end
          else if Ascii.eqb c "034" || (code c <? 32) then None
          else if code c <? 128 then prepend (String c EmptyString) (unquote_fuel f r)
          else
            let '(rr, size) := utf8.DecodeRune s in
            prepend (utf8.EncodeRune rr) (unquote_fuel f (drop size s))
      end
  end.

Definition unquote (s : string) : option string := unquote_fuel (String.length s) s.

(** The longest prefix of [s] made of bytes satisfying [p]. *)
Fixpoint span (p : ascii -> bool) (s : string) : string * string :=
  match s with
  | String c r =>
      if p c then let '(a, b) := span p r in (String c a, b) else (EmptyString, s)
  | EmptyString => (EmptyString, EmptyString)
  end.

(** The scanner on a number: an optional minus sign; then [0], or a
    non-zero digit and any digits; then optionally a dot and at least one
    digit; then optionally [e] or [E], an optional sign and at least one
    digit. *)
Definition scan_number (s : string) : option (string * string) :=
  let '(sign, s1) :=
    match s with
    | String "-" r => ("-"%string, r)
    | _ => (""%string, s)
    end in
  match s1 with
  | EmptyString => None
  | String c r =>
      let int_part :=
        if Ascii.eqb c "0" then Some (String c EmptyString, r)
        else if is_digit c then let '(ds, r') := span is_digit r in Some (String c ds, r')
        else None in
      match int_part with
      | None => None
      | Some (ip, r1) =>
          let frac :=
            match r1 with
            | String "." r2 =>
                let '(ds, r3) := span is_digit r2 in
                match ds with
                | EmptyString => None
                | _ => Some (String "." ds, r3)
                end
            | _ => Some (EmptyString, r1)
            end in
          match frac with
          | None => None
          | Some (fp, r4) =>
              let exp :=
                match r4 with
                | String e r5 =>
                    if Ascii.eqb e "e" || Ascii.eqb e "E" then
                      let '(sg, r6) :=
                        match r5 with
                        | String g r6 =>
                            if Ascii.eqb g "+" || Ascii.eqb g "-"
                            then (String g EmptyString, r6)
                            else (EmptyString, r5)
                        | EmptyString => (EmptyString, r5)
                        end in
                      let '(ds, r7) := span is_digit r6 in
                      match ds with
                      | EmptyString => None
                      | _ => Some (String e (sg +:+ ds), r7)
                      end
                    else Some (EmptyString, r4)
                | EmptyString => Some (EmptyString, r4)
                end in
              match exp with
              | None => None
              | Some (ep, r8) => Some (sign +:+ ip +:+ fp +:+ ep, r8)
              end
          end
      end
  end.

Definition maxNestingDepth : Z := 10000.

Definition scan_quoted (r : string) : option (string * string) :=
  match scan_string r with
  | Some (raw, r') =>
      match unquote raw with
      | Some str => Some (str, r')
      | None => None
      end
  | None => None
  end.

(** The recursive descent over a document.  [depth] is the number of
    arrays and objects already open. *)
Fixpoint parse_value (fuel : nat) (depth : Z) (s : string) {struct fuel}
  : option (value * string) :=
  match fuel with
  | O => None
  | S f =>
      match skip_ws s with
      | EmptyString => None
      | String c r =>
          if Ascii.eqb c "{" then
            if maxNestingDepth <? depth + 1 then None
            else
              match skip_ws r with
              | String "}" r' => Some (JObject [], r')
              | _ =>
                  match parse_members f (depth + 1) r with
                  | Some (ms, r') => Some (JObject ms, r')
                  | None => None
                  end
              end
          else if Ascii.eqb c "[" then
            if maxNestingDepth <? depth + 1 then None
            else
              match skip_ws r with
              | String "]" r' => Some (JArray [], r')
              | _ =>
                  match parse_elements f (depth + 1) r with
                  | Some (vs, r') => Some (JArray vs, r')
                  | None => None
                  end
              end
          else if Ascii.eqb c "034" then
            match scan_quoted r with
            | Some (str, r') => Some (JString str, r')
            | None => None
            end
          else if Ascii.eqb c "-" || is_digit c then
            match scan_number (String c r) with
            | Some (lit, r') => Some (JNumber lit, r')
            | None => None
            end
          else if HasPrefix (String c r) "true" then Some (JBool true, drop 4 (String c r))
          else if HasPrefix (String c r) "false" then Some (JBool false, drop 5 (String c r))
          else if HasPrefix (String c r) "null" then Some (JNull, drop 4 (String c r))
          else None
      end
  end
with parse_elements (fuel : nat) (depth : Z) (s : string) {struct fuel}
  : option (list value * string) :=
  match fuel with
  | O => None
  | S f =>
      match parse_value f depth s with
      | None => None
      | Some (v, r) =>
          match skip_ws r with
          | String "," r' =>
              match parse_elements f depth r' with
              | Some (vs, r'') => Some (v :: vs, r'')
              | None => None
              end
          | String "]" r' => Some ([v], r')
          | _ => None
          end
      end
  end
with parse_members (fuel : nat) (depth : Z) (s : string) {struct fuel}
  : option (list (string * value) * string) :=
  match fuel with
  | O => None
  | S f =>
      match skip_ws s with
      | String "034" r =>
          match scan_quoted r with
          | None => None
          | Some (key, r1) =>
              match skip_ws r1 with
              | String ":" r2 =>
                  match parse_value f depth r2 with
                  | None => None
                  | Some (v, r3) =>
                      match skip_ws r3 with
                      | String "," r4 =>
                          match parse_members f depth r4 with
                          | Some (ms, r5) => Some ((key, v) :: ms, r5)
                          | None => None
                          end
                      | String "}" r4 => Some ([(key, v)], r4)
                      | _ => None
                      end
                  end
              | _ => None
              end
          end
      | _ => None
      end
  end.

(** [checkValid] followed by the decoder's walk: the whole input is one
    value between optional white space. *)
Definition parse (data : string) : option value :=
  match parse_value (2 * String.length data + 2) 0 data with
  | Some (v, r) =>
      match skip_ws r with
      | EmptyString => Some v
      | _ => None
      end
  | None => None
  end.

End json.

(** ** The resource and its envelope *)

(** Modelled from the spec: the declarations of [AccountAttributes],
    [AccountData] and [Envelope] (models.go) are not part of the sources at
    hand.  The JSON names are those of the wire format in the spec; the Go
    names, types and order are those of the composite literals in the
    tests. *)
Record AccountAttributes : Type := mkAccountAttributes {
  AccountClassification : option string;
  AccountMatchingOptOut : option bool;
  AccountNumber : string;
  AlternativeNames : option (list string);
  BankID : string;
  BankIDCode : string;
  BaseCurrency : string;
  Bic : string;
  Country : option string;
  CustomerId : string;
  Iban : string;
  JointAccount : option bool;
  Name : option (list string);
  SecondaryIdentification : string;
  Status : option string;
  Switched : option bool
}.

(** Modelled from the spec: see [AccountAttributes].  The Go field [Type]
    is [Type_] here. *)
Record AccountData : Type := mkAccountData {
  Attributes : option AccountAttributes;
  ID : string;
  OrganisationID : string;
  Type_ : string;
  Version : option Z
}.

(** Modelled from the spec: [Envelope[AccountData]], the wrapper with the
    single member [data]. *)
Record Envelope : Type := mkEnvelope {
  Data : option AccountData
}.

Definition zero_AccountAttributes : AccountAttributes :=
  mkAccountAttributes None None "" None "" "" "" "" None "" "" None None "" None None.

Definition zero_AccountData : AccountData := mkAccountData None "" "" "" None.

Definition zero_Envelope : Envelope := mkEnvelope None.

(** ** Struct fields as [encoding/json] sees them *)

Module field.

(** The Go types of the fields. *)
Inductive kind : Type := KString | KPtrString | KPtrBool | KPtrInt64 | KStrings.

Definition go (k : kind) : Type :=
  match k with
  | KString => string
  | KPtrString => option string
  | KPtrBool => option bool
  | KPtrInt64 => option Z
  | KStrings => option (list string)
  end.

Definition zero (k : kind) : go k :=
  match k with
  | KString => ""%string
  | KPtrString => None
  | KPtrBool => None
  | KPtrInt64 => None
  | KStrings => None
  end.

(** The fields of [AccountAttributes], named by their JSON keys. *)
Inductive attr : Type :=
| account_classification | account_matching_opt_out | account_number
| alternative_names | bank_id | bank_id_code | base_currency | bic | country
| customer_id | iban | joint_account | name | secondary_identification
| status | switched.

Definition attrs : list attr :=
  [ account_classification; account_matching_opt_out; account_number;
    alternative_names; bank_id; bank_id_code; base_currency; bic; country;
    customer_id; iban; joint_account; name; secondary_identification;
    status; switched ].

Definition attr_name (f : attr) : string :=
  match f with
  | account_classification => "account_classification"
  | account_matching_opt_out => "account_matching_opt_out"
  | account_number => "account_number"
  | alternative_names => "alternative_names"
  | bank_id => "bank_id"
  | bank_id_code => "bank_id_code"
  | base_currency => "base_currency"
  | bic => "bic"
  | country => "country"
  | customer_id => "customer_id"
  | iban => "iban"
  | joint_account => "joint_account"
  | name => "name"
  | secondary_identification => "secondary_identification"
  | status => "status"
  | switched => "switched"
  end.

Definition attr_kind (f : attr) : kind :=
  match f with
  | account_classification | country | status => KPtrString
  | account_matching_opt_out | joint_account | switched => KPtrBool
  | alternative_names | name => KStrings
  | _ => KString
  end.

Definition attr_get (f : attr) : AccountAttributes -> go (attr_kind f) :=
  match f return AccountAttributes -> go (attr_kind f) with
  | account_classification => AccountClassification
  | account_matching_opt_out => AccountMatchingOptOut
  | account_number => AccountNumber
  | alternative_names => AlternativeNames
  | bank_id => BankID
  | bank_id_code => BankIDCode
  | base_currency => BaseCurrency
  | bic => Bic
  | country => Country
  | customer_id => CustomerId
  | iban => Iban
  | joint_account => JointAccount
  | name => Name
  | secondary_identification => SecondaryIdentification
  | status => Status
  | switched => Switched
  end.

Definition attr_set (f : attr) : go (attr_kind f) -> AccountAttributes -> AccountAttributes :=
  match f return go (attr_kind f) -> AccountAttributes -> AccountAttributes with
  | account_classification => fun x '(mkAccountAttributes _ b c d e f g h i j k l m n o p) =>
      mkAccountAttributes x b c d e f g h i j k l m n o p
  | account_matching_opt_out => fun x '(mkAccountAttributes a _ c d e f g h i j k l m n o p) =>
      mkAccountAttributes a x c d e f g h i j k l m n o p
  | account_number => fun x '(mkAccountAttributes a b _ d e f g h i j k l m n o p) =>
      mkAccountAttributes a b x d e f g h i j k l m n o p
  | alternative_names => fun x '(mkAccountAttributes a b c _ e f g h i j k l m n o p) =>
      mkAccountAttributes a b c x e f g h i j k l m n o p
  | bank_id => fun x '(mkAccountAttributes a b c d _ f g h i j k l m n o p) =>
      mkAccountAttributes a b c d x f g h i j k l m n o p
  | bank_id_code => fun x '(mkAccountAttributes a b c d e _ g h i j k l m n o p) =>
      mkAccountAttributes a b c d e x g h i j k l m n o p
  | base_currency => fun x '(mkAccountAttributes a b c d e f _ h i j k l m n o p) =>
      mkAccountAttributes a b c d e f x h i j k l m n o p
  | bic => fun x '(mkAccountAttributes a b c d e f g _ i j k l m n o p) =>
      mkAccountAttributes a b c d e f g x i j k l m n o p
  | country => fun x '(mkAccountAttributes a b c d e f g h _ j k l m n o p) =>
      mkAccountAttributes a b c d e f g h x j k l m n o p
  | customer_id => fun x '(mkAccountAttributes a b c d e f g h i _ k l m n o p) =>
      mkAccountAttributes a b c d e f g h i x k l m n o p
  | iban => fun x '(mkAccountAttributes a b c d e f g h i j _ l m n o p) =>
      mkAccountAttributes a b c d e f g h i j x l m n o p
  | joint_account => fun x '(mkAccountAttributes a b c d e f g h i j k _ m n o p) =>
      mkAccountAttributes a b c d e f g h i j k x m n o p
  | name => fun x '(mkAccountAttributes a b c d e f g h i j k l _ n o p) =>
      mkAccountAttributes a b c d e f g h i j k l x n o p
  | secondary_identification => fun x '(mkAccountAttributes a b c d e f g h i j k l m _ o p) =>
      mkAccountAttributes a b c d e f g h i j k l m x o p
  | status => fun x '(mkAccountAttributes a b c d e f g h i j k l m n _ p) =>
      mkAccountAttributes a b c d e f g h i j k l m n x p
  | switched => fun x '(mkAccountAttributes a b c d e f g h i j k l m n o _) =>
      mkAccountAttributes a b c d e f g h i j k l m n o x
  end.

(** [foldName]: the key under simple case folding.  ASCII letters go to
    upper case; the two runes outside ASCII that fold to an ASCII letter,
    U+017F (bytes C5 BF) and U+212A (bytes E2 84 AA), go to [S] and [K];
    every other rune folds to a rune outside ASCII and is kept as it is,
    since it can never match the ASCII name of a field. *)
Fixpoint foldName (s : string) : string :=
  match s with
  | EmptyString => EmptyString
  | String c r =>
      if code c <? 128 then String (to_upper c) (foldName r)
      else
        match r with
        | String c1 r1 =>
            if (code c =? 197) && (code c1 =? 191) then String "S" (foldName r1)
            else
              match r1 with
              | String c2 r2 =>
                  if (code c =? 226) && (code c1 =? 132) && (code c2 =? 170)
                  then String "K" (foldName r2)
                  else String c (foldName r)
              | EmptyString => String c (foldName r)
              end
        | EmptyString => String c EmptyString
        end
  end.

(** The field a key selects: the field with exactly that name, else the
    first field whose name is equal to the key under case folding. *)
Definition lookup {F : Type} (fields : list F) (fname : F -> string) (key : string)
  : option F :=
  match List.find (fun f => String.eqb (fname f) key) fields with
  | Some f => Some f
  | None => List.find (fun f => String.eqb (foldName (fname f)) (foldName key)) fields
  end.

End field.

(** ** [json.Unmarshal] and [json.Marshal] on the envelope *)

Module codec.

Import json field.

Definition describe (v : value) : string :=
  match v with
  | JNull => "null"
  | JBool _ => "bool"
  | JNumber _ => "number"
  | JString _ => "string"
  | JArray _ => "array"
  | JObject _ => "object"
  end.

Definition type_error (v : value) (fld : string) : error :=
  json_UnmarshalTypeError (describe v) fld.

Fixpoint digits_value (acc : Z) (s : string) : Z :=
  match s with
  | EmptyString => acc
  | String c r => digits_value (acc * 10 + (code c - code "0")) r
  end.

Definition nonempty (s : string) : bool :=
  match s with EmptyString => false | _ => true end.

(** [strconv.ParseInt lit 10 64] followed by the overflow check, on the
    literal of a JSON number: a fraction or an exponent is refused. *)
Definition parse_int64 (lit : string) : option Z :=
  let '(neg, ds) :=
    match lit with
    | String "-" r => (true, r)
    | _ => (false, lit)
    end in
  if nonempty ds && string_forall is_digit ds then
    let n := digits_value 0 ds in
    let z := if neg then - n else n in
    if (- 2 ^ 63 <=? z) && (z <=? 2 ^ 63 - 1) then Some z else None
  else None.

(** The elements of an array stored into a [[]string].  A [null] element
    leaves a fresh element at its zero value. *)
Fixpoint decode_strings (fld : string) (vs : list value) : error + list string :=
  match vs with
  | [] => inr []
  | v :: r =>
      match v, decode_strings fld r with
      | JString s, inr l => inr (s :: l)
      | JNull, inr l => inr (EmptyString :: l)
      | JString _, inl e | JNull, inl e => inl e
      | _, _ => inl (type_error v fld)
      end
  end.

(** Storing a JSON value into a field of kind [k] that holds [cur]:
    [null] clears a pointer or a slice and leaves a string alone; a value
    of the wrong JSON type is an [UnmarshalTypeError].  An array is stored
    into a slice as the package documents it: the slice is reset to length
    zero and the elements are appended, so what the slice held before (it
    holds something only when the key comes twice in the object) is not
    looked at. *)
Definition decode_kind (k : kind) (fld : string) (v : value) : go k -> error + go k :=
  match k return go k -> error + go k with
  | KString => fun cur =>
      match v with
      | JString s => inr s
      | JNull => inr cur
      | _ => inl (type_error v fld)
      end
  | KPtrString => fun _ =>
      match v with
      | JString s => inr (Some s)
      | JNull => inr None
      | _ => inl (type_error v fld)
      end
  | KPtrBool => fun _ =>
      match v with
      | JBool b => inr (Some b)
      | JNull => inr None
      | _ => inl (type_error v fld)
      end
  | KPtrInt64 => fun _ =>
      match v with
      | JNumber lit =>
          match parse_int64 lit with
          | Some z => inr (Some z)
          | None => inl (type_error v fld)
          end
      | JNull => inr None
      | _ => inl (type_error v fld)
      end
  | KStrings => fun _ =>
      match v with
      | JArray vs =>
          match decode_strings fld vs with
          | inr l => inr (Some l)
          | inl e => inl e
          end
      | JNull => inr None
      | _ => inl (type_error v fld)
      end
  end.

(** The members of an object stored into an [AccountAttributes], in the
    order of the document; a key that selects no field is skipped. *)
Fixpoint decode_attrs (ms : list (string * value)) (a : AccountAttributes)
  : error + AccountAttributes :=
  match ms with
  | [] => inr a
  | (key, v) :: ms' =>
      match lookup attrs attr_name key with
      | None => decode_attrs ms' a
      | Some f =>
          match decode_kind (attr_kind f) (attr_name f) v (attr_get f a) with
          | inl e => inl e
          | inr x => decode_attrs ms' (attr_set f x a)
          end
      end
  end.

(** A JSON value stored through a pointer to a struct: [null] makes the
    pointer nil, an object is decoded into the struct already there or
    into a new one. *)
Definition decode_ptr {T : Type} (fld : string) (zero : T)
    (decode_members : list (string * value) -> T -> error + T)
    (v : value) (cur : option T) : error + option T :=
  match v with
  | JNull => inr None
  | JObject ms =>
      match decode_members ms (default zero cur) with
      | inl e => inl e
      | inr t => inr (Some t)
      end
  | _ => inl (type_error v fld)
  end.

(** The fields of [AccountData]. *)
Inductive data_field : Type :=
| d_attributes | d_id | d_organisation_id | d_type | d_version.

Definition data_fields : list data_field :=
  [d_attributes; d_id; d_organisation_id; d_type; d_version].

Definition data_name (f : data_field) : string :=
  match f with
  | d_attributes => "attributes"
  | d_id => "id"
  | d_organisation_id => "organisation_id"
  | d_type => "type"
  | d_version => "version"
  end.

Definition decode_data_field (f : data_field) (v : value) (d : AccountData)
  : error + AccountData :=
  let '(mkAccountData at_ id_ org ty ver) := d in
  match f with
  | d_attributes =>
      match decode_ptr "attributes" zero_AccountAttributes decode_attrs v at_ with
      | inl e => inl e
      | inr x => inr (mkAccountData x id_ org ty ver)
      end
  | d_id =>
      match decode_kind KString "id" v id_ with
      | inl e => inl e
      | inr x => inr (mkAccountData at_ x org ty ver)
      end
  | d_organisation_id =>
      match decode_kind KString "organisation_id" v org with
      | inl e => inl e
      | inr x => inr (mkAccountData at_ id_ x ty ver)
      end
  | d_type =>
      match decode_kind KString "type" v ty with
      | inl e => inl e
      | inr x => inr (mkAccountData at_ id_ org x ver)
      end
  | d_version =>
      match decode_kind KPtrInt64 "version" v ver with
      | inl e => inl e
      | inr x => inr (mkAccountData at_ id_ org ty x)
      end
  end.

Fixpoint decode_data (ms : list (string * value)) (d : AccountData)
  : error + AccountData :=
  match ms with
  | [] => inr d
  | (key, v) :: ms' =>
      match lookup data_fields data_name key with
      | None => decode_data ms' d
      | Some f =>
          match decode_data_field f v d with
          | inl e => inl e
          | inr d' => decode_data ms' d'
          end
      end
  end.

Fixpoint decode_envelope (ms : list (string * value)) (e : Envelope)
  : error + Envelope :=
  match ms with
  | [] => inr e
  | (key, v) :: ms' =>
      match lookup ["data"%string] (fun n => n) key with
      | None => decode_envelope ms' e
      | Some _ =>
          match decode_ptr "data" zero_AccountData decode_data v (Data e) with
          | inl err => inl err
          | inr d => decode_envelope ms' (mkEnvelope d)
          end
      end
  end.

(** [json.Unmarshal data &responseEnvelope] for a nil
    [responseEnvelope *Envelope[AccountData]]: the error, or the pointer
    the call leaves in [responseEnvelope].  The literal [null] leaves the
    pointer nil and is no error. *)
Definition Unmarshal (data : string) : error + option Envelope :=
  match parse data with
  | None => inl (json_SyntaxError "invalid JSON input")
  | Some v => decode_ptr "" zero_Envelope decode_envelope v None
  end.

(** *** Marshalling *)

Definition hex_digit (z : Z) : ascii :=
  if z <? 10 then byte_of (code "0" + z) else byte_of (code "a" + (z - 10)).

(** [htmlSafeSet]: the ASCII bytes written as they are. *)
Definition htmlSafe (c : ascii) : bool :=
  (32 <=? code c) && negb (url.one_of (String "034" "\<>&") c).

(** What [appendString] (with [escapeHTML] set) writes for one ASCII
    byte: the byte itself when it is in [htmlSafeSet], else an escape. *)
Definition escape_byte (c : ascii) : string :=
  if htmlSafe c then String c EmptyString
  else if Ascii.eqb c "092" || Ascii.eqb c "034" then String "092" (String c EmptyString)
  else if code c =? 10 then "\n"
  else if code c =? 13 then "\r"
  else if code c =? 9 then "\t"
  else String "092" (String "u" (String "0" (String "0"
         (String (hex_digit (Z.shiftr (code c) 4))
            (String (hex_digit (Z.land (code c) 15)) EmptyString))))).

(** The body of [appendString]: what is written for the text [s] between
    the quotes.  Ill-formed UTF-8 is written as the escape of U+FFFD, one
    byte at a time; U+2028 and U+2029 are escaped; any other rune is
    copied. *)
Fixpoint escape_fuel (fuel : nat) (s : string) : string :=
match s with
| EmptyString => EmptyString
| String c r =>
    match fuel with
    | O => EmptyString
    | S f =>
        if code c <? 128 then escape_byte c +:+ escape_fuel f r
        else
          let '(rr, size) := utf8.DecodeRune s in
          if (rr =? utf8.RuneError) && Nat.eqb size 1
          then "\ufffd" +:+ escape_fuel f (drop size s)
          else if (rr =? 8232) || (rr =? 8233)
          then "\u202" +:+ String (hex_digit (Z.land rr 15)) (escape_fuel f (drop size s))
          else take size s +:+ escape_fuel f (drop size s)
    end
end.

Definition quote (s : string) : string :=
  String "034" (escape_fuel (String.length s) s +:+ String "034" EmptyString).

Fixpoint join (sep : string) (l : list string) : string :=
  match l with
  | [] => EmptyString
  | [x] => x
  | x :: r => x +:+ sep +:+ join sep r
  end.

(** The compact text of a document. *)
Fixpoint render (v : value) : string :=
  match v with
  | JNull => "null"
  | JBool true => "true"
  | JBool false => "false"
  | JNumber lit => lit
  | JString s => quote s
  | JArray vs => "[" +:+ join "," (List.map render vs) +:+ "]"
  | JObject ms =>
      "{" +:+ join "," (List.map (fun m => quote (fst m) +:+ ":" +:+ render (snd m)) ms)
      +:+ "}"
  end.

Definition encode_kind (k : kind) : go k -> value :=
  match k return go k -> value with
  | KString => fun s => JString s
  | KPtrString => fun p => match p with Some s => JString s | None => JNull end
  | KPtrBool => fun p => match p with Some b => JBool b | None => JNull end
  | KPtrInt64 => fun p => match p with Some z => JNumber (fmt_d z) | None => JNull end
  | KStrings => fun p =>
      match p with
      | Some l => JArray (List.map JString l)
      | None => JNull
      end
  end.

(** [isEmptyValue]: the empty string, the nil pointer, the slice of
    length zero. *)
Definition isEmptyValue (k : kind) : go k -> bool :=
  match k return go k -> bool with
  | KString => fun s => negb (nonempty s)
  | KPtrString => fun p => match p with None => true | _ => false end
  | KPtrBool => fun p => match p with None => true | _ => false end
  | KPtrInt64 => fun p => match p with None => true | _ => false end
  | KStrings => fun p => match p with Some (_ :: _) => false | _ => true end
  end.

Section Marshal.

(** Which JSON keys carry the [omitempty] option.  The struct tags are
    declared with the structs, outside the sources at hand. *)
Variable omitempty : string -> bool.

Definition member (key : string) (empty : bool) (v : value) : list (string * value) :=
  if omitempty key && empty then [] else [(key, v)].

Definition encode_attr (a : AccountAttributes) (f : attr) : list (string * value) :=
  member (attr_name f) (isEmptyValue (attr_kind f) (attr_get f a))
         (encode_kind (attr_kind f) (attr_get f a)).

Definition encode_attrs (a : AccountAttributes) : list (string * value) :=
  List.flat_map (encode_attr a) attrs.

Definition encode_data (d : AccountData) : list (string * value) :=
  member "attributes" (match Attributes d with None => true | _ => false end)
         (match Attributes d with
          | Some a => JObject (encode_attrs a)
          | None => JNull
          end)
  ++ member "id" (isEmptyValue KString (ID d)) (encode_kind KString (ID d))
  ++ member "organisation_id" (isEmptyValue KString (OrganisationID d))
            (encode_kind KString (OrganisationID d))
  ++ member "type" (isEmptyValue KString (Type_ d)) (encode_kind KString (Type_ d))
  ++ member "version" (isEmptyValue KPtrInt64 (Version d))
            (encode_kind KPtrInt64 (Version d)).

Definition encode_envelope (e : Envelope) : value :=
  JObject (member "data" (match Data e with None => true | _ => false end)
             (match Data e with
              | Some d => JObject (encode_data d)
              | None => JNull
              end)).

(** [json.Marshal] on an [Envelope[AccountData]]: no value of this type
    makes it fail. *)
Definition Marshal (e : Envelope) : string * option error :=
  (render (encode_envelope e), None).

End Marshal.

End codec.

(** ** The effects of an operation *)

(** What the transport hands back: a response body is a stream that
    yields its bytes and then ends or fails. *)
Record Body : Type := mkBody {
  body_data : string;
  body_err : option error
}.

(** [http.Response], restricted to what the client reads.  A response
    carries a body, as every response of [net/http] does ([Client.Get],
    [Client.Post] and [Client.Do] return a non-nil [Body] with every
    response, also with one that has no content).  A response whose [Body]
    is nil, which only a hand-written primitive can return and on which
    [resp.Body.Close()] panics, is outside the model. *)
Record Response : Type := mkResponse {
  resp_StatusCode : Z;
  Header : gmap string (list string);
  RespBody : Body
}.

(** [http.Request] as [http.NewRequest] builds it. *)
Record Request : Type := mkRequest {
  Method : string;
  URL : string
}.

(** [h.Get key] for a key in canonical form (the client only asks for
    [Content-Type]): the first value stored under the key, else the empty
    string. *)
Definition Header_Get (h : gmap string (list string)) (key : string) : string :=
  match h !! key with
  | Some (v :: _) => v
  | _ => ""%string
  end.

(** [io.ReadAll]. *)
Definition io_ReadAll (b : Body) : string * option error := (body_data b, body_err b).

(** The observable steps of an operation, in the order they happen. *)
Inductive event : Type :=
| CallGet (url : string)
| CallPost (url contentType body : string)
| CallNewRequest (method url : string)
| CallDo (req : option Request)
| CallReadInput (b : Body)
| CallSerialize (e : Envelope)
| CloseBody (b : Body).

(** An operation either returns or panics (a nil pointer is dereferenced,
    a nil function is called). *)
Inductive outcome (A : Type) : Type :=
| Returned (a : A)
| Panicked.
Arguments Returned {A} a.
Arguments Panicked {A}.

(** The monad of operations: the trace of events and the outcome. *)
Definition Go (A : Type) : Type := list event * outcome A.

Definition ret {A : Type} (a : A) : Go A := ([], Returned a).

Definition panic {A : Type} : Go A := ([], Panicked).

Definition emit (e : event) : Go unit := ([e], Returned tt).

Definition bind {A B : Type} (m : Go A) (k : A -> Go B) : Go B :=
  match m with
  | (t, Returned a) => let '(t', r) := k a in (t ++ t', r)
  | (t, Panicked) => (t, Panicked)
  end.

Notation "'do' x <- m ; k" := (bind m (fun x => k))
  (at level 10, x name, m at level 100, k at level 200, only parsing).
Notation "'do' ' p <- m ; k" := (bind m (fun x => let 'p := x in k))
  (at level 10, p pattern, m at level 100, k at level 200, only parsing).

(** [if resp != nil { defer resp.Body.Close() }] around the rest of the
    function: the body is closed when the function is left, by a return or
    by a panic.  The body is there (see [Response]), so closing it does not
    panic. *)
Definition defer_Close {A : Type} (resp : option Response) (m : Go A) : Go A :=
  match resp with
  | Some r => let '(t, o) := m in (t ++ [CloseBody (RespBody r)], o)
  | None => m
  end.

Definition trace {A : Type} (m : Go A) : list event := fst m.
Definition result {A : Type} (m : Go A) : outcome A := snd m.

(** ** The client *)

Definition servicePath : string := "v1/organisation/accounts".
Definition jsonContentType : string := "application/json".
Definition contentType : string := "Content-Type".

Definition StatusOK : Z := 200.
Definition StatusCreated : Z := 201.
Definition StatusNoContent : Z := 204.
Definition MethodDelete : string := "DELETE".

(** The transport primitives.  A primitive is a function of the client's
    configuration; its result pair is whatever the function returns. *)
Definition ReadInputStream : Type := Body -> string * option error.
Definition HttpGet : Type := string -> option Response * option error.
Definition HttpPost : Type := string -> string -> string -> option Response * option error.
Definition NewRequest : Type := string -> string -> option string -> option Request * option error.
Definition DoRequest : Type := option Request -> option Response * option error.
Definition Serialize : Type := Envelope -> string * option error.

(** [*http.Client]: what its methods [Get], [Post] and [Do] answer. *)
Record http_Client : Type := mkhttp_Client {
  client_Get : HttpGet;
  client_Post : HttpPost;
  client_Do : DoRequest
}.

(** [httpAccountsClientImpl].  A function field may be nil until [init]
    has run. *)
Record httpAccountsClientImpl : Type := mkClient {
  host : string;
  client : http_Client;
  readInput : option ReadInputStream;
  doHttpGet : option HttpGet;
  doHttpPost : option HttpPost;
  createNewRequest : option NewRequest;
  doRequest : option DoRequest;
  serialize : option Serialize
}.

(** Calling a function field: a nil function panics, otherwise the call is
    recorded and its result returned. *)
Definition call {F A : Type} (fn : option F) (ev : event) (apply : F -> A) : Go A :=
  match fn with
  | None => panic
  | Some f => do _ <- emit ev; ret (apply f)
  end.

Definition unexpectedStatusCode (expected actual : Z) (operation : string)
    (respPayload : option string) : HTTPError :=
  {| Cause := None;
     Message := "Unexpected response code returned for " +:+ operation
                +:+ " operation, expected " +:+ fmt_d expected
                +:+ ", got " +:+ fmt_d actual;
     StatusCode := actual;
     ResponsePayload := respPayload |}.

Definition readPayload (hac : httpAccountsClientImpl) (resp : option Response)
  : Go (option string * option HTTPError) :=
  match resp with
  | None => panic
  | Some r =>
      do '(responseData, err) <-
        call (readInput hac) (CallReadInput (RespBody r)) (fun f => f (RespBody r));
      match err with
      | Some e =>
          ret (None, Some {| Cause := Some e;
                             Message := "Error processing response body";
                             StatusCode := 0;
                             ResponsePayload := None |})
      | None => ret (Some responseData, None)
      end
  end.

Definition deserializeToResponseEnvelope (responseData : option string)
  : Go (option Envelope * option HTTPError) :=
  match responseData with
  | None => panic
  | Some data =>
      match codec.Unmarshal data with
      | inl err =>
          ret (None, Some {| Cause := Some err;
                             Message := "Error deserializing json";
                             StatusCode := 0;
                             ResponsePayload := responseData |})
      | inr responseEnvelope => ret (responseEnvelope, None)
      end
  end.

Definition accountDataOrError (responseEnvelope : option Envelope)
    (responseData : option string) : Go (option AccountData * option HTTPError) :=
  match responseEnvelope with
  | None => panic
  | Some env =>
      match Data env with
      | None =>
          ret (None, Some {| Cause := None;
                             Message := "Got an empty object after deserialization, json payload was an empty object?";
                             StatusCode := 0;
                             ResponsePayload := responseData |})
      | Some d => ret (Some d, None)
      end
  end.

(** [resp.StatusCode] and [resp.Header]: a nil [resp] panics. *)
Definition deref {A : Type} (p : option A) : Go A :=
  match p with
  | Some a => ret a
  | None => panic
  end.

Definition Fetch (hac : httpAccountsClientImpl) (id : string)
  : Go (option AccountData * option HTTPError) :=
  if negb (isValidUUID id) then
    ret (None, Some {| Cause := None; Message := "id must be a valid uuid";
                       StatusCode := 0; ResponsePayload := None |})
  else
    let path := host hac +:+ "/" +:+ servicePath +:+ "/" +:+ id in
    do '(resp, err) <- call (doHttpGet hac) (CallGet path) (fun f => f path);
    match err with
    | Some e =>
        ret (None, Some {| Cause := Some e; Message := "Error placing a Get Http request";
                           StatusCode := 0; ResponsePayload := None |})
    | None =>
        defer_Close resp (
          do '(responseData, httpErr) <- readPayload hac resp;
          match httpErr with
          | Some he => ret (None, Some he)
          | None =>
              do r <- deref resp;
              if negb (resp_StatusCode r =? StatusOK) then
                ret (None, Some (unexpectedStatusCode StatusOK (resp_StatusCode r) "Get" responseData))
              else
                let cType := Header_Get (Header r) contentType in
                if negb (HasPrefix cType jsonContentType) then
                  ret (None, Some {| Cause := None;
                                     Message := "Unexpected  " +:+ contentType +:+ ", expecting "
                                                +:+ jsonContentType +:+ ", got " +:+ cType;
                                     StatusCode := resp_StatusCode r;
                                     ResponsePayload := responseData |})
                else
                  do '(responseEnvelope, httpErr) <- deserializeToResponseEnvelope responseData;
                  match httpErr with
                  | Some he => ret (None, Some he)
                  | None => accountDataOrError responseEnvelope responseData
                  end
          end)
    end.

Definition Create (hac : httpAccountsClientImpl) (account : option AccountData)
  : Go (option AccountData * option HTTPError) :=
  let requestEnvelope := {| Data := account |} in
  do '(requestData, err) <-
    call (serialize hac) (CallSerialize requestEnvelope) (fun f => f requestEnvelope);
  match err with
  | Some e =>
      ret (None, Some {| Cause := Some e; Message := "Unable to serialize payload";
                         StatusCode := 0; ResponsePayload := None |})
  | None =>
      let url := host hac +:+ "/" +:+ servicePath in
      do '(resp, err) <-
        call (doHttpPost hac) (CallPost url jsonContentType requestData)
             (fun f => f url jsonContentType requestData);
      defer_Close resp (
        match err with
        | Some e =>
            ret (None, Some {| Cause := Some e; Message := "Error placing a Post Http request";
                               StatusCode := 0; ResponsePayload := None |})
        | None =>
            do '(responseData, httpErr) <- readPayload hac resp;
            match httpErr with
            | Some he => ret (None, Some he)
            | None =>
                do r <- deref resp;
                if negb (resp_StatusCode r =? StatusCreated) then
                  ret (None, Some (unexpectedStatusCode StatusCreated (resp_StatusCode r)
                                     "Post" responseData))
                else
                  do '(responseEnvelope, httpErr) <- deserializeToResponseEnvelope responseData;
                  match httpErr with
                  | Some he => ret (None, Some he)
                  | None => accountDataOrError responseEnvelope responseData
                  end
            end
        end)
  end.

Definition Delete (hac : httpAccountsClientImpl) (id : string) (version : Z)
  : Go (option HTTPError) :=
  if negb (isValidUUID id) then
    ret (Some {| Cause := None; Message := "id must be a valid uuid";
                 StatusCode := 0; ResponsePayload := None |})
  else
    let fullPath := host hac +:+ "/" +:+ servicePath +:+ "/" +:+ id
                    +:+ "?version=" +:+ fmt_d version in
    do '(req, err) <-
      call (createNewRequest hac) (CallNewRequest MethodDelete fullPath)
           (fun f => f MethodDelete fullPath None);
    match err with
    | Some e =>
        ret (Some {| Cause := Some e; Message := "Error preparing Delete Http request";
                     StatusCode := 0; ResponsePayload := None |})
    | None =>
        do '(resp, err) <- call (doRequest hac) (CallDo req) (fun f => f req);
        defer_Close resp (
          match err with
          | Some e =>
              ret (Some {| Cause := Some e; Message := "Error placing Delete Http request";
                           StatusCode := 0; ResponsePayload := None |})
          | None =>
              do r <- deref resp;
              if negb (resp_StatusCode r =? StatusNoContent) then
                do '(responseData, httpErr) <- readPayload hac resp;
                match httpErr with
                | Some he => ret (Some he)
                | None =>
                    ret (Some (unexpectedStatusCode StatusNoContent (resp_StatusCode r)
                                 "Delete" responseData))
                end
              else ret None
          end)
    end.

(** ** Construction *)

Section Factory.

(** The standard networking stack the zero [http.Client] and
    [http.NewRequest] stand for, and the [omitempty] options of the
    struct tags [json.Marshal] reads. *)
Variable network : http_Client.
Variable http_NewRequest : NewRequest.
Variable omitempty : string -> bool.

(** [init]: every primitive left nil gets its default. *)
Definition init (hac : httpAccountsClientImpl) : httpAccountsClientImpl :=
  {| host := host hac;
     client := client hac;
     readInput := Some (default io_ReadAll (readInput hac));
     doHttpGet := Some (default (client_Get (client hac)) (doHttpGet hac));
     doHttpPost := Some (default (client_Post (client hac)) (doHttpPost hac));
     createNewRequest := Some (default http_NewRequest (createNewRequest hac));
     doRequest := Some (default (client_Do (client hac)) (doRequest hac));
     serialize := Some (default (codec.Marshal omitempty) (serialize hac)) |}.

Definition MakeClient (baseUrl : string)
  : option httpAccountsClientImpl * option error :=
  match validateUrl baseUrl with
  | Some err => (None, Some err)
  | None =>
      let httpClient :=
        {| host := baseUrl; client := network; readInput := None; doHttpGet := None;
           doHttpPost := None; createNewRequest := None; doRequest := None;
           serialize := None |} in
      (Some (init httpClient), None)
  end.

Definition MakeTestClientWithInputReader (baseUrl : string) (readInput : ReadInputStream)
  : option httpAccountsClientImpl * option error :=
  match validateUrl baseUrl with
  | Some err => (None, Some err)
  | None =>
      (Some (init (mkClient baseUrl network (Some readInput) None None None None None)), None)
  end.

Definition MakeTestClientWithHttpGetter (baseUrl : string) (doHttpGet : HttpGet)
  : option httpAccountsClientImpl * option error :=
  match validateUrl baseUrl with
  | Some err => (None, Some err)
  | None =>
      (Some (init (mkClient baseUrl network None (Some doHttpGet) None None None None)), None)
  end.

Definition MakeTestClientWithHttpPoster (baseUrl : string) (doHttpPost : HttpPost)
  : option httpAccountsClientImpl * option error :=
  match validateUrl baseUrl with
  | Some err => (None, Some err)
  | None =>
      (Some (init (mkClient baseUrl network None None (Some doHttpPost) None None None)), None)
  end.

Definition MakeTestClientWithNewRequestCreator (baseUrl : string)
    (createNewRequest : NewRequest)
  : option httpAccountsClientImpl * option error :=
  match validateUrl baseUrl with
  | Some err => (None, Some err)
  | None =>
      (Some (init (mkClient baseUrl network None None None (Some createNewRequest) None None)),
       None)
  end.

Definition MakeTestClientWithRequestInvoker (baseUrl : string) (doRequest : DoRequest)
  : option httpAccountsClientImpl * option error :=
  match validateUrl baseUrl with
  | Some err => (None, Some err)
  | None =>
      (Some (init (mkClient baseUrl network None None None None (Some doRequest) None)), None)
  end.

Definition MakeTestClientWithSerializer (baseUrl : string) (serialize : Serialize)
  : option httpAccountsClientImpl * option error :=
  match validateUrl baseUrl with
  | Some err => (None, Some err)
  | None =>
      (Some (init (mkClient baseUrl network None None None None None (Some serialize))), None)
  end.

End Factory.

(** ** Fixtures: a server with one canned answer *)

Module Fixture.

(** A network whose server answers every request with the same status,
    headers and body. *)
Definition server (status : Z) (header : gmap string (list string)) (body : string)
  : http_Client :=
  let answer := (Some (mkResponse status header (mkBody body None)), @None error) in
  {| client_Get := fun _ => answer;
     client_Post := fun _ _ _ => answer;
     client_Do := fun _ => answer |}.

(** [http.NewRequest] on a well-formed method and address. *)
Definition new_request : NewRequest :=
  fun method url _ => (Some (mkRequest method url), None).

Definition base : string := "http://localhost:8080".

(** The client [MakeClient base] builds over a given network. *)
Definition client_of (net : http_Client) : httpAccountsClientImpl :=
  init new_request (fun _ => true)
    {| host := base; client := net; readInput := None; doHttpGet := None;
       doHttpPost := None; createNewRequest := None; doRequest := None;
       serialize := None |}.

Definition some_id : string := "0d209d7f-d07a-4542-947f-5885fddddae2".

(** A name between double quotes (byte 34). *)
Definition q (s : string) : string := String "034" (s +:+ String "034" EmptyString).

(** The documents [{"data":null}], [{"data":{}}] and
    [{"data":{"id":"not-a-uuid"}}]. *)
Definition null_data_body : string := "{" +:+ q "data" +:+ ":null}".

Definition empty_data_body : string := "{" +:+ q "data" +:+ ":{}}".

Definition not_a_uuid_request : string :=
  "{" +:+ q "data" +:+ ":{" +:+ q "id" +:+ ":" +:+ q "not-a-uuid" +:+ "}}".

(** A body reader that always fails, as a test double. *)
Definition read_error : error := errors_New "unable to finish reading input stream".

Definition failing_reader : ReadInputStream := fun _ => (""%string, Some read_error).

(** The client [MakeTestClientWithInputReader base failing_reader] builds. *)
Definition broken_reader_client (net : http_Client) : httpAccountsClientImpl :=
  init new_request (fun _ => true)
    (mkClient base net (Some failing_reader) None None None None None).

(** A serializer that always fails, as a test double. *)
Definition serialize_error : error := errors_New "failed to serialize".

Definition failing_serializer : Serialize := fun _ => (""%string, Some serialize_error).

Definition broken_serializer_client (net : http_Client) : httpAccountsClientImpl :=
  init new_request (fun _ => true)
    (mkClient base net None None None None None (Some failing_serializer)).

Definition json_header : gmap string (list string) :=
  {[ "Content-Type"%string := ["application/json"%string] ]}.

Definition html_header : gmap string (list string) :=
  {[ "Content-Type"%string := ["text/html"%string] ]}.

End Fixture.

(** ** The named errors of the client *)

Definition InvalidArgument : HTTPError :=
  {| Cause := None; Message := "id must be a valid uuid";
     StatusCode := 0; ResponsePayload := None |}.

Definition BodyReadFailure (e : error) : HTTPError :=
  {| Cause := Some e; Message := "Error processing response body";
     StatusCode := 0; ResponsePayload := None |}.

Definition EmptyPayload (payload : string) : HTTPError :=
  {| Cause := None;
     Message := "Got an empty object after deserialization, json payload was an empty object?";
     StatusCode := 0; ResponsePayload := Some payload |}.

Definition SerializationFailure (e : error) : HTTPError :=
  {| Cause := Some e; Message := "Unable to serialize payload";
     StatusCode := 0; ResponsePayload := None |}.

Definition UnexpectedContentType (status : Z) (cType payload : string) : HTTPError :=
  {| Cause := None;
     Message := "Unexpected  Content-Type, expecting application/json, got " +:+ cType;
     StatusCode := status; ResponsePayload := Some payload |}.

(** The addresses the operations build. *)
Definition fetch_url (hac : httpAccountsClientImpl) (id : string) : string :=
  host hac +:+ "/v1/organisation/accounts/" +:+ id.

Definition create_url (hac : httpAccountsClientImpl) : string :=
  host hac +:+ "/v1/organisation/accounts".

Definition delete_url (hac : httpAccountsClientImpl) (id : string) (version : Z) : string :=
  host hac +:+ "/v1/organisation/accounts/" +:+ id +:+ "?version=" +:+ fmt_d version.

(** The same response under other headers, and a client whose POST
    primitive answers under other headers. *)
Definition set_Header (h : gmap string (list string)) (r : Response) : Response :=
  {| resp_StatusCode := resp_StatusCode r; Header := h; RespBody := RespBody r |}.

Definition with_post_header (h : gmap string (list string)) (hac : httpAccountsClientImpl)
  : httpAccountsClientImpl :=
  {| host := host hac; client := client hac; readInput := readInput hac;
     doHttpGet := doHttpGet hac;
     doHttpPost :=
       option_map (fun (post : HttpPost) url ctype body =>
                     let '(resp, err) := post url ctype body in
                     (option_map (set_Header h) resp, err))
                  (doHttpPost hac);
     createNewRequest := createNewRequest hac; doRequest := doRequest hac;
     serialize := serialize hac |}.

(** The either-or shape of a result: exactly one of the two pointers is
    nil. *)
Definition exactly_one {A B : Type} (a : option A) (b : option B) : Prop :=
  (a = None /\ b <> None) \/ (a <> None /\ b = None).

(** ** The vocabulary of the round trip *)

Section Wire.

Import json field codec.

(** Every byte of [s] has its high bit set: [s] holds no ASCII byte. *)
Definition high (s : string) : bool := string_forall (fun b => 128 <=? code b) s.

(** What a well-formed sequence at the head of [chunk +:+ rest] gives. *)
Definition rune_chunk (chunk : string) (rr : Z) (size : nat) : Prop :=
  String.length chunk = size
  /\ (1 <= size)%nat
  /\ utf8.EncodeRune rr = chunk
  /\ (forall X, utf8.DecodeRune (chunk +:+ X) = (rr, size))
  /\ high chunk = true.

(** The second bytes [utf8.DecodeRune] accepts after the lead [p0] of a
    three-byte sequence. *)
Definition accept3 (p0 b1 : Z) : Prop :=
  (p0 = 224 /\ 160 <= b1 <= 191)
  \/ (225 <= p0 <= 236 /\ 128 <= b1 <= 191)
  \/ (p0 = 237 /\ 128 <= b1 <= 159)
  \/ (238 <= p0 <= 239 /\ 128 <= b1 <= 191).

(** The second bytes [utf8.DecodeRune] accepts after the lead [p0] of a
    four-byte sequence. *)
Definition accept4 (p0 b1 : Z) : Prop :=
  (p0 = 240 /\ 144 <= b1 <= 191)
  \/ (241 <= p0 <= 243 /\ 128 <= b1 <= 191)
  \/ (p0 = 244 /\ 128 <= b1 <= 143).

(** What a scan returns when the string literal starts [p] earlier. *)
Definition glue (p : string) (x : option (string * string)) : option (string * string) :=
  match x with
  | Some (lit, rest) => Some (p +:+ lit, rest)
  | None => None
  end.

(** The six bytes [json.Marshal] writes for a byte that is not UTF-8. *)
Definition escaped_RuneError : string := String "092" "ufffd".

(** The six bytes [json.Marshal] writes for U+2028 and U+2029. *)
Definition escaped_sep (rr : Z) : string :=
  String "092" "u202" +:+ String (codec.hex_digit (Z.land rr 15)) EmptyString.

(** What may follow a value inside a document: nothing, or one of [,]}]. *)
Definition delimited (rest : string) : bool :=
  match rest with
  | EmptyString => true
  | String c _ => url.one_of ",]}" c
  end.

(** Documents [json.Marshal] can have written: numbers are integers in
    decimal, strings and keys are well-formed UTF-8. *)
Fixpoint printable (v : value) : Prop :=
  match v with
  | JNull | JBool _ => True
  | JNumber lit => exists z : Z, lit = fmt_d z
  | JString s => utf8.ValidString s = true
  | JArray vs =>
      (fix all (l : list value) : Prop :=
         match l with
         | [] => True
         | x :: r => printable x /\ all r
         end) vs
  | JObject ms =>
      (fix all (l : list (string * value)) : Prop :=
         match l with
         | [] => True
         | m :: r => utf8.ValidString (fst m) = true /\ printable (snd m) /\ all r
         end) ms
  end.

(** The fuel the descent needs on the text of a document. *)
Fixpoint size (v : value) : nat :=
  match v with
  | JArray vs =>
      S ((fix sum (l : list value) : nat :=
            match l with
            | [] => O
            | x :: r => (S (size x) + sum r)%nat
            end) vs)
  | JObject ms =>
      S ((fix sum (l : list (string * value)) : nat :=
            match l with
            | [] => O
            | m :: r => (S (size (snd m)) + sum r)%nat
            end) ms)
  | _ => 1%nat
  end.

(** The nesting of arrays and objects. *)
Fixpoint height (v : value) : Z :=
  match v with
  | JArray vs =>
      1 + (fix top (l : list value) : Z :=
             match l with
             | [] => 0
             | x :: r => Z.max (height x) (top r)
             end) vs
  | JObject ms =>
      1 + (fix top (l : list (string * value)) : Z :=
             match l with
             | [] => 0
             | m :: r => Z.max (height (snd m)) (top r)
             end) ms
  | _ => 0
  end.

(** [size] and [height] over the elements of an array and the members of
    an object. *)
Definition elems_size (l : list value) : nat :=
  fold_right (fun x n => (S (size x) + n)%nat) O l.

Definition members_size (l : list (string * value)) : nat :=
  fold_right (fun m n => (S (size (snd m)) + n)%nat) O l.

Definition elems_height (l : list value) : Z :=
  fold_right (fun x h => Z.max (height x) h) 0 l.

Definition members_height (l : list (string * value)) : Z :=
  fold_right (fun m h => Z.max (height (snd m)) h) 0 l.

(** Induction over documents, with the hypothesis on every element. *)
Section value_induction.

Variable P : value -> Prop.
Hypothesis Hnull : P JNull.
Hypothesis Hbool : forall b, P (JBool b).
Hypothesis Hnumber : forall lit, P (JNumber lit).
Hypothesis Hstring : forall s, P (JString s).
Hypothesis Harray : forall vs, Forall P vs -> P (JArray vs).
Hypothesis Hobject : forall ms, Forall (fun m => P (snd m)) ms -> P (JObject ms).

Fixpoint value_induction (v : value) : P v :=
  match v with
  | JNull => Hnull
  | JBool b => Hbool b
  | JNumber lit => Hnumber lit
  | JString s => Hstring s
  | JArray vs =>
      Harray vs
        ((fix go (l : list value) : Forall P l :=
            match l with
            | [] => List.Forall_nil P
            | x :: r => @List.Forall_cons _ P x r (value_induction x) (go r)
            end) vs)
  | JObject ms =>
      Hobject ms
        ((fix go (l : list (string * value)) : Forall (fun m => P (snd m)) l :=
            match l with
            | [] => List.Forall_nil _
            | m :: r => @List.Forall_cons _ _ m r (value_induction (snd m)) (go r)
            end) ms)
  end.

End value_induction.

(** The first byte of the text of a document. *)
Definition starter (c : ascii) : bool :=
  url.one_of (String "034" "{[-tfn") c || is_digit c.

(** The descent reads the text of [v] back, whatever follows it. *)
Definition parses (v : value) : Prop :=
  printable v ->
  forall (fuel : nat) (d : Z) (rest : string),
    (size v <= fuel)%nat -> d + height v <= 10000 -> delimited rest = true ->
    parse_value fuel d (codec.render v +:+ rest) = Some (v, rest).

(** The text of a member of an object. *)
Definition member_text (m : string * value) : string :=
  codec.quote (fst m) +:+ ":" +:+ codec.render (snd m).

(** The fuel [json.parse] gives a document suffices for its text. *)
Definition fits (v : value) : Prop :=
  printable v -> (size v + 1 <= 2 * String.length (codec.render v))%nat.

(** The values of a field that [json.Marshal] writes as they are: strings
    are well-formed UTF-8, an integer fits [int64]. *)
Definition faithful (k : kind) : go k -> bool :=
  match k return go k -> bool with
  | KString => utf8.ValidString
  | KPtrString => fun p => match p with Some s => utf8.ValidString s | None => true end
  | KPtrBool => fun _ => true
  | KPtrInt64 => fun p =>
      match p with
      | Some z => (- 2 ^ 63 <=? z) && (z <=? 2 ^ 63 - 1)
      | None => true
      end
  | KStrings => fun p =>
      match p with
      | Some l => forallb utf8.ValidString l
      | None => true
      end
  end.

(** A slice that is empty but not nil is lost when its field is omitted. *)
Definition kept (omit : bool) (k : kind) : go k -> bool :=
  match k return go k -> bool with
  | KStrings => fun p => match p with Some [] => negb omit | _ => true end
  | _ => fun _ => true
  end.

(** The attributes, and the accounts, all of whose fields survive. *)
Definition faithful_attrs (omitempty : string -> bool) (a : AccountAttributes) : bool :=
  forallb (fun f => faithful (attr_kind f) (attr_get f a)
                    && kept (omitempty (attr_name f)) (attr_kind f) (attr_get f a))
          attrs.

Definition faithful_data (omitempty : string -> bool) (d : AccountData) : bool :=
  match Attributes d with
  | Some a => faithful_attrs omitempty a
  | None => true
  end
  && faithful KString (ID d) && faithful KString (OrganisationID d)
  && faithful KString (Type_ d) && faithful KPtrInt64 (Version d).

(** The attributes [cur] with the fields [fs] taken from [a]. *)
Definition merge (a : AccountAttributes) (fs : list attr) (cur : AccountAttributes)
  : AccountAttributes :=
  fold_left (fun acc f => attr_set f (attr_get f a) acc) fs cur.

(** A member [json.Marshal] writes into the data object. *)
Definition member_ok (m : string * value) : Prop :=
  utf8.ValidString (fst m) = true /\ printable (snd m) /\ height (snd m) <= 2.

End Wire.

(** ** Fixtures of the round trip *)

(** A server that answers every POST with 201 and the body it was sent. *)
Definition echo : http_Client :=
  {| client_Get := fun _ => (None, Some (errors_New "no such resource"));
     client_Post := fun _ _ body =>
       (Some (mkResponse StatusCreated Fixture.json_header (mkBody body None)), None);
     client_Do := fun _ => (None, Some (errors_New "no such resource")) |}.

(** The client [MakeClient base] builds over the echoing server. *)
Definition echo_client (omitempty : string -> bool) : httpAccountsClientImpl :=
  init Fixture.new_request omitempty
    (mkClient Fixture.base echo None None None None None None).

(** An account with text in every kind of field. *)
Definition sample_attributes : AccountAttributes :=
  mkAccountAttributes (Some "Personal") (Some false) "41426819" (Some ["Sam Holder"])
    "400300" "GBDSC" "GBP" "NWBKGB22" (Some "GB") "" "GB11NWBK40030041426819"
    None (Some ["Samantha Holder"; "S. Holder"]) "" (Some "confirmed") None.

Definition sample_account : AccountData :=
  mkAccountData (Some sample_attributes) "ad27e265-9605-4b4b-a0e5-3003ea9cc4dc"
    "eb0bd6f5-c3f5-44b2-b677-acd23cdde73c" "accounts" (Some 0).

(** An account whose identifier is the single byte 255, which is not
    UTF-8, and what comes back for it: the identifier U+FFFD. *)
Definition stray_byte_account : AccountData :=
  mkAccountData None (String "255" EmptyString) "" "" None.

Definition replaced_byte_account : AccountData :=
  mkAccountData None (String "239" (String "191" (String "189" EmptyString))) "" "" None.

(** An account whose list of names is empty but not nil. *)
Definition empty_names_account : AccountData :=
  mkAccountData
    (Some (mkAccountAttributes None None "" None "" "" "" "" None "" "" None
             (Some []) "" None None))
    "" "" "" None.

(** ** More named errors *)

Definition TransportFailure (operation : string) (e : error) : HTTPError :=
  {| Cause := Some e; Message := "Error placing " +:+ operation +:+ " Http request";
     StatusCode := 0; ResponsePayload := None |}.

Definition RequestBuildFailure (e : error) : HTTPError :=
  {| Cause := Some e; Message := "Error preparing Delete Http request";
     StatusCode := 0; ResponsePayload := None |}.

Definition DeserializationFailure (e : error) (payload : string) : HTTPError :=
  {| Cause := Some e; Message := "Error deserializing json";
     StatusCode := 0; ResponsePayload := Some payload |}.

(** The kinds of error [Fetch], [Create] and [Delete] return. *)
Definition Fetch_error (e : HTTPError) : Prop :=
  e = InvalidArgument
  \/ (exists c, e = TransportFailure "a Get" c)
  \/ (exists c, e = BodyReadFailure c)
  \/ (exists status data,
         status <> 200 /\ e = unexpectedStatusCode 200 status "Get" (Some data))
  \/ (exists cType data,
         HasPrefix cType "application/json" = false
         /\ e = UnexpectedContentType 200 cType data)
  \/ (exists c data, e = DeserializationFailure c data)
  \/ (exists data, e = EmptyPayload data).

Definition Create_error (e : HTTPError) : Prop :=
  (exists c, e = SerializationFailure c)
  \/ (exists c, e = TransportFailure "a Post" c)
  \/ (exists c, e = BodyReadFailure c)
  \/ (exists status data,
         status <> 201 /\ e = unexpectedStatusCode 201 status "Post" (Some data))
  \/ (exists c data, e = DeserializationFailure c data)
  \/ (exists data, e = EmptyPayload data).

Definition Delete_error (e : HTTPError) : Prop :=
  e = InvalidArgument
  \/ (exists c, e = RequestBuildFailure c)
  \/ (exists c, e = TransportFailure "Delete" c)
  \/ (exists c, e = BodyReadFailure c)
  \/ (exists status data,
         status <> 204 /\ e = unexpectedStatusCode 204 status "Delete" (Some data)).

(** What closing the response a transport handed back adds to a trace. *)
Definition closing (resp : option Response) : list event :=
  match resp with
  | Some r => [CloseBody (RespBody r)]
  | None => []
  end.

(** What reading the body of a response adds to a trace: the call of the
    body reader, if the client has one. *)
Definition reading (hac : httpAccountsClientImpl) (r : Response) : list event :=
  match readInput hac with
  | Some _ => [CallReadInput (RespBody r)]
  | None => []
  end.

(** ** Clients with one primitive replaced *)

(** Every function field of the client is there. *)
Definition complete (hac : httpAccountsClientImpl) : Prop :=
  readInput hac <> None /\ doHttpGet hac <> None /\ doHttpPost hac <> None
  /\ createNewRequest hac <> None /\ doRequest hac <> None /\ serialize hac <> None.

Definition with_readInput (f : ReadInputStream) (hac : httpAccountsClientImpl)
  : httpAccountsClientImpl :=
  mkClient (host hac) (client hac) (Some f) (doHttpGet hac) (doHttpPost hac)
           (createNewRequest hac) (doRequest hac) (serialize hac).

Definition with_doHttpGet (f : HttpGet) (hac : httpAccountsClientImpl)
  : httpAccountsClientImpl :=
  mkClient (host hac) (client hac) (readInput hac) (Some f) (doHttpPost hac)
           (createNewRequest hac) (doRequest hac) (serialize hac).

Definition with_doHttpPost (f : HttpPost) (hac : httpAccountsClientImpl)
  : httpAccountsClientImpl :=
  mkClient (host hac) (client hac) (readInput hac) (doHttpGet hac) (Some f)
           (createNewRequest hac) (doRequest hac) (serialize hac).

Definition with_createNewRequest (f : NewRequest) (hac : httpAccountsClientImpl)
  : httpAccountsClientImpl :=
  mkClient (host hac) (client hac) (readInput hac) (doHttpGet hac) (doHttpPost hac)
           (Some f) (doRequest hac) (serialize hac).

Definition with_doRequest (f : DoRequest) (hac : httpAccountsClientImpl)
  : httpAccountsClientImpl :=
  mkClient (host hac) (client hac) (readInput hac) (doHttpGet hac) (doHttpPost hac)
           (createNewRequest hac) (Some f) (serialize hac).

Definition with_serialize (f : Serialize) (hac : httpAccountsClientImpl)
  : httpAccountsClientImpl :=
  mkClient (host hac) (client hac) (readInput hac) (doHttpGet hac) (doHttpPost hac)
           (createNewRequest hac) (doRequest hac) (Some f).

(** What a factory returns when its client is the one [MakeClient] builds
    with one primitive replaced. *)
Definition replacing (set : httpAccountsClientImpl -> httpAccountsClientImpl)
    (made : option httpAccountsClientImpl * option error)
  : option httpAccountsClientImpl * option error :=
  match made with
  | (Some c, err) => (Some (set c), err)
  | (None, err) => (None, err)
  end.

(** ** [HTTPError.Error] *)

(** [e.Error()] for a receiver that may be nil; [cause_Error] is the
    [Error] method of the causes. *)
Definition HTTPError_Error (cause_Error : error -> string) (e : option HTTPError)
  : Go string :=
  do e <- deref e;
  match Cause e with
  | None => ret (Message e)
  | Some c => ret (Message e +:+ " : " +:+ cause_Error c)
  end.

(** ** The assertions of the tests *)

(** A test reports messages with [t.Errorf] and goes on; it either
    returns or panics. *)
Module testing.

Definition T (A : Type) : Type := list string * outcome A.

Definition ret {A : Type} (a : A) : T A := ([], Returned a).

Definition bind {A B : Type} (m : T A) (k : A -> T B) : T B :=
  match m with
  | (log, Returned a) => let '(log', r) := k a in (log ++ log', r)
  | (log, Panicked) => (log, Panicked)
  end.

Definition Errorf (msg : string) : T unit := ([msg], Returned tt).

(** A computation that reports nothing. *)
Definition quiet {A : Type} (o : outcome A) : T A := ([], o).

(** [if cond { t.Errorf(msg) }]. *)
Definition when (cond : bool) (msg : string) : T unit :=
  if cond then Errorf msg else ret tt.

Definition log {A : Type} (m : T A) : list string := fst m.

End testing.

Notation "'test' x <- m ; k" := (testing.bind m (fun x => k))
  (at level 10, x name, m at level 100, k at level 200, only parsing).
Notation "'step' m ; k" := (testing.bind m (fun _ => k))
  (at level 10, m at level 100, k at level 200, only parsing).

(** An assertion that returns: it reports [l] and goes on. *)
Definition reports (m : testing.T unit) (l : list string) : Prop := m = (l, Returned tt).

(** The [%v] verb of [fmt.Sprintf] on the types the helpers are used at. *)
Class Verb (P : Type) : Type := fmt_v : P -> string.

#[export] Instance Verb_string : Verb string := fun s => s.
#[export] Instance Verb_bool : Verb bool := fun b => if b then "true"%string else "false"%string.
#[export] Instance Verb_int : Verb Z := fmt_d.

(** The loop of [assertPrimitiveSlices]: [for i, v := range a] from index
    [i] on, with [b[i]] panicking out of range. *)
Fixpoint slices_range {T : Type} `{EqDecision T} (i : nat) (a b : list T) : outcome bool :=
  match a with
  | [] => Returned true
  | v :: a' =>
      match b !! i with
      | None => Panicked
      | Some w => if bool_decide (v = w) then slices_range (S i) a' b else Returned false
      end
  end.

(** [assertPrimitiveSlices]: a slice is nil ([None]) or a list. *)
Definition assertPrimitiveSlices {T : Type} `{EqDecision T} (a b : option (list T))
  : outcome bool :=
  match a, b with
  | Some _, None => Returned false
  | None, Some _ => Returned false
  | None, None => Returned true
  | Some x, Some y =>
      if negb (Nat.eqb (length x) (length y)) then Returned false
      else slices_range 0 x y
  end.

Definition is_nil {A : Type} (p : option A) : bool :=
  match p with None => true | Some _ => false end.

(** [assertPrimitivePointers]. *)
Definition assertPrimitivePointers {P : Type} `{EqDecision P} `{Verb P}
    (actual expected : option P) (varName : string) : testing.T unit :=
  step testing.when (is_nil actual && negb (is_nil expected))
         ("Actual " +:+ varName +:+ " should not be nil");
  step testing.when (negb (is_nil actual) && is_nil expected)
         ("Actual " +:+ varName +:+ " payload should be nil");
  match actual, expected with
  | Some a, Some e =>
      testing.when (negb (bool_decide (a = e)))
        (varName +:+ " doesn't match, expected=" +:+ fmt_v e +:+ ", got=" +:+ fmt_v a)
  | _, _ => testing.ret tt
  end.

(** The text the tests print for a slice of names. *)
Definition names_text (l : option (list string)) : string :=
  match l with
  | None => "nil"
  | Some names => codec.join "," names
  end.

(** [if expected.F != actual.F { t.Errorf("... expected=%s, got=%s", ...) }]
    on a string field. *)
Definition differ (what : string) (expected actual : string) : testing.T unit :=
  testing.when (negb (bool_decide (expected = actual)))
    (what +:+ " doesn't match, expected=" +:+ expected +:+ ", got=" +:+ actual).

(** [assertAttributes]. *)
Definition assertAttributes (actual expected : option AccountAttributes) : testing.T unit :=
  match expected, actual with
  | Some _, None => testing.Errorf "Expecting account attributes to be not nil"
  | None, Some _ => testing.Errorf "Expecting account attributes to be nil"
  | None, None => testing.ret tt
  | Some expected, Some actual =>
      step assertPrimitivePointers (AccountClassification actual)
             (AccountClassification expected) "Attributes.AccountClassification";
      step assertPrimitivePointers (AccountMatchingOptOut actual)
             (AccountMatchingOptOut expected) "Attributes.AccountMatchingOptOut";
      step assertPrimitivePointers (Country actual) (Country expected) "Attributes.Country";
      step assertPrimitivePointers (JointAccount actual) (JointAccount expected)
             "Attributes.JointAccount";
      step assertPrimitivePointers (Status actual) (Status expected) "Attributes.Status";
      step assertPrimitivePointers (Switched actual) (Switched expected)
             "Attributes.Switched";
      step differ "AccountData Attributes.AccountNumber" (AccountNumber expected)
             (AccountNumber actual);
      test same <- testing.quiet
             (assertPrimitiveSlices (AlternativeNames actual) (AlternativeNames expected));
      step testing.when (negb same)
             ("AlternativeNames doesn't match with the expected value, expected="
              +:+ names_text (AlternativeNames actual) +:+ ", got="
              +:+ names_text (AlternativeNames expected));
      step differ "AccountData Attributes.BankID" (BankID expected) (BankID actual);
      step differ "AccountData Attributes.BankID" (BankIDCode expected) (BankIDCode actual);
      step differ "AccountData Attributes.BaseCurrency" (BaseCurrency expected)
             (BaseCurrency actual);
      step differ "AccountData Attributes.Bic" (Bic expected) (Bic actual);
      step differ "AccountData Attributes.Iban" (Iban expected) (Iban actual);
      step differ "AccountData Attributes.CustomerId" (CustomerId expected)
             (CustomerId actual);
      step differ "AccountData Attributes.SecondaryIdentification"
             (SecondaryIdentification expected) (SecondaryIdentification actual);
      test same <- testing.quiet (assertPrimitiveSlices (Name actual) (Name expected));
      testing.when (negb same)
        ("Name doesn't match with the expected value, expected="
         +:+ names_text (Name actual) +:+ ", got=" +:+ names_text (Name expected))
  end.

(** [assertAccountData]. *)
Definition assertAccountData (actual expected : option AccountData) : testing.T unit :=
  match expected, actual with
  | Some _, None => testing.Errorf "Expecting account data to be not nil"
  | None, Some _ => testing.Errorf "Expecting acount date to be nil"
  | None, None => testing.ret tt
  | Some expected, Some actual =>
      step differ "AccountData ID" (ID expected) (ID actual);
      step differ "AccountData OrganisationID" (OrganisationID expected)
             (OrganisationID actual);
      step differ "AccountData Type" (Type_ expected) (Type_ actual);
      step assertPrimitivePointers (Version actual) (Version expected) "Version";
      assertAttributes (Attributes actual) (Attributes expected)
  end.

(** ** The identifiers and addresses the checks accept *)

(** [shaped pattern s]: [s] has the length of [pattern], a dash wherever
    [pattern] has one and a hexadecimal digit (of either case) elsewhere. *)
Fixpoint shaped (pattern s : string) : bool :=
  match pattern, s with
  | EmptyString, EmptyString => true
  | String p ps, String c r =>
      (if Ascii.eqb p "-" then Ascii.eqb c "-" else ishex c) && shaped ps r
  | _, _ => false
  end.

(** The canonical text of a UUID, and the same without dashes. *)
Definition canonical_uuid (s : string) : bool :=
  shaped "xxxxxxxx-xxxx-xxxx-xxxx-xxxxxxxxxxxx" s.

Definition raw_hex_uuid (s : string) : bool :=
  shaped "xxxxxxxxxxxxxxxxxxxxxxxxxxxxxxxx" s.

(** [sep] does not occur in [s]. *)
Definition absent (sep : ascii) (s : string) : bool :=
  string_forall (fun c => negb (Ascii.eqb c sep)) s.

(** The bytes of a host name: letters, digits, the dot and the hyphen. *)
Definition host_byte (c : ascii) : bool :=
  is_letter c || is_digit c || url.one_of "-." c.

(** The bytes an address [scheme://host:port] is made of. *)
Definition address_byte (c : ascii) : bool :=
  host_byte c || Ascii.eqb c ":" || Ascii.eqb c "/".

(** The text [:port] of a port, or nothing. *)
Definition port_text (port : option string) : string :=
  match port with
  | Some digits => ":" +:+ digits
  | None => ""
  end.

(** An address [scheme://host] or [scheme://host:port]: letters, then host
    bytes, then digits. *)
Definition plain_address (scheme host : string) (port : option string) : Prop :=
  scheme <> ""%string
  /\ string_forall is_letter scheme = true
  /\ string_forall host_byte host = true
  /\ string_forall is_digit (default ""%string port) = true.

(** ** Test doubles for the failures of the transport *)

Module Double.

Definition connection_refused : error := errors_New "connection refused".

(** A network on which every call fails; it may hand back a response
    together with the error. *)
Definition refusing (resp : option Response) : http_Client :=
  {| client_Get := fun _ => (resp, Some connection_refused);
     client_Post := fun _ _ _ => (resp, Some connection_refused);
     client_Do := fun _ => (resp, Some connection_refused) |}.

Definition stale : Response := mkResponse 502 ∅ (mkBody "" None).

Definition malformed_request : error := errors_New "malformed request".

(** A request builder that always fails. *)
Definition no_request : NewRequest := fun _ _ _ => (None, Some malformed_request).

(** The client [MakeTestClientWithNewRequestCreator base no_request]
    builds. *)
Definition no_request_client (net : http_Client) : httpAccountsClientImpl :=
  init Fixture.new_request (fun _ => true)
    (mkClient Fixture.base net None None None (Some no_request) None None).

(** The envelope [{data: sample_account}] as [json.Marshal] writes it. *)
Definition sample_body : string :=
  fst (codec.Marshal (fun _ => true) {| Data := Some sample_account |}).

(** The documents [{"data":null}] and [{"links":{},"data":null}]. *)
Definition links_body : string :=
  "{" +:+ Fixture.q "links" +:+ ":{}," +:+ Fixture.q "data" +:+ ":null}".

End Double.

(** ** The texts of a UUID *)

(** The canonical text after the nine bytes [urn:uuid:], in either case. *)
Definition urn_uuid (s : string) : bool :=
  Nat.eqb (String.length s) 45 && uuid.EqualFold (take 9 s) "urn:uuid:"
  && canonical_uuid (drop 9 s).

(** The canonical text between braces. *)
Definition braced_uuid (s : string) : bool :=
  match s with
  | String "{" r => canonical_uuid (take 36 r) && String.eqb (drop 36 r) "}"
  | _ => false
  end.

(** A 38-byte string whose middle 36 bytes are the canonical text. *)
Definition wrapped_uuid (s : string) : bool :=
  Nat.eqb (String.length s) 38 && canonical_uuid (take 36 (drop 1 s)).

(** The texts of a UUID: the canonical one, and the three variants the
    library documents (URN, braces, 32 hexadecimal digits). *)
Definition uuid_text (s : string) : bool :=
  canonical_uuid s || urn_uuid s || braced_uuid s || raw_hex_uuid s.

(** The strings that pass the check of the client: in the place of the
    braced text, any wrapping of the canonical text by two bytes. *)
Definition passes_uuid_check (s : string) : bool :=
  canonical_uuid s || urn_uuid s || wrapped_uuid s || raw_hex_uuid s.

(** The canonical text of [Fixture.some_id] between two letters: no text
    of a UUID. *)
Definition wrapped_id : string := "X" +:+ Fixture.some_id +:+ "Y".

(** ** The member [data] of a document *)




(** ** Absolute URLs *)








(** * Properties *)

(** ** Strings *)

#[local] Arguments String.append !s1 s2.

Lemma append_assoc (a b c : string) : (a +:+ b) +:+ c = a +:+ (b +:+ c).
Proof. induction a as [|x a IH]; simpl; [reflexivity | now rewrite IH]. Qed.

Lemma append_nil_r (a : string) : a +:+ "" = a.
Proof. induction a as [|x a IH]; simpl; [reflexivity | now rewrite IH]. Qed.

(** ** The round trip through the wire format (C9) *)

Section RoundTrip.

Import json field codec.

(** ** Bytes *)

Lemma code_range (c : ascii) : 0 <= code c < 256.
Proof. destruct c as [[] [] [] [] [] [] [] []]; unfold code; simpl; lia. Qed.

Lemma byte_of_code (c : ascii) : byte_of (code c) = c.
Proof. destruct c as [[] [] [] [] [] [] [] []]; reflexivity. Qed.

Lemma code_byte_of (z : Z) : 0 <= z < 256 -> code (byte_of z) = z.
Proof.
  intros H. unfold code, byte_of.
  rewrite N_ascii_embedding; [lia|].
  change 256%N with (Z.to_N 256). lia.
Qed.

Lemma code_inj (a b : ascii) : code a = code b -> a = b.
Proof. intros H. rewrite <- (byte_of_code a), <- (byte_of_code b). now rewrite H. Qed.

(** ** Packing bits *)

Lemma land_high_low (a b n : Z) :
  0 <= n -> 0 <= b < 2 ^ n -> Z.land (a * 2 ^ n) b = 0.
Proof.
  intros Hn Hb. apply Z.bits_inj'. intros i Hi.
  rewrite Z.land_spec, Z.bits_0.
  destruct (Z.lt_ge_cases i n) as [Hlt|Hge].
  - rewrite Z.mul_pow2_bits_low by lia. reflexivity.
  - replace b with (b mod 2 ^ n) by (apply Z.mod_small; lia).
    rewrite Z.mod_pow2_bits_high by lia. apply andb_false_r.
Qed.

Lemma lor_shiftl_add (a b n : Z) :
  0 <= n -> 0 <= b < 2 ^ n -> Z.lor (Z.shiftl a n) b = a * 2 ^ n + b.
Proof.
  intros Hn Hb.
  rewrite Z.shiftl_mul_pow2 by assumption.
  rewrite <- Z.lxor_lor by (apply land_high_low; assumption).
  symmetry. apply Z.add_nocarry_lxor. apply land_high_low; assumption.
Qed.

Lemma land_mask (a n : Z) : 0 <= n -> Z.land a (2 ^ n - 1) = a mod 2 ^ n.
Proof.
  intros Hn. rewrite <- Z.land_ones by assumption. f_equal.
  rewrite Z.ones_equiv. lia.
Qed.

(** ** UTF-8: encoding what was decoded *)

Ltac bool_to_prop :=
  repeat match goal with
         | H : _ && _ = true |- _ => apply andb_true_iff in H; destruct H
         | H : _ && _ = false |- _ => apply andb_false_iff in H
         | H : _ || _ = true |- _ => apply orb_true_iff in H
         | H : _ || _ = false |- _ => apply orb_false_iff in H; destruct H
         | H : negb _ = true |- _ => apply negb_true_iff in H
         | H : negb _ = false |- _ => apply negb_false_iff in H
         | H : (_ <=? _) = true |- _ => apply Z.leb_le in H
         | H : (_ <=? _) = false |- _ => apply Z.leb_gt in H
         | H : (_ <? _) = true |- _ => apply Z.ltb_lt in H
         | H : (_ <? _) = false |- _ => apply Z.ltb_ge in H
         | H : (_ =? _) = true |- _ => apply Z.eqb_eq in H
         | H : (_ =? _) = false |- _ => apply Z.eqb_neq in H
         end.

Ltac decide_tests :=
  repeat match goal with
         | |- context [?a <=? ?b] =>
             first [ replace (a <=? b) with true by (symmetry; apply Z.leb_le; lia)
                   | replace (a <=? b) with false by (symmetry; apply Z.leb_gt; lia) ]
         | |- context [?a <? ?b] =>
             first [ replace (a <? b) with true by (symmetry; apply Z.ltb_lt; lia)
                   | replace (a <? b) with false by (symmetry; apply Z.ltb_ge; lia) ]
         | |- context [?a =? ?b] =>
             first [ replace (a =? b) with true by (symmetry; apply Z.eqb_eq; lia)
                   | replace (a =? b) with false by (symmetry; apply Z.eqb_neq; lia) ]
         end.

Lemma pack2 (x y : Z) :
  0 <= x -> 0 <= y < 64 ->
  Z.lor (Z.shiftl x 6) y = x * 64 + y.
Proof. intros. now rewrite (lor_shiftl_add x y 6) by lia. Qed.

Lemma pack3 (x y z : Z) :
  0 <= x -> 0 <= y < 64 -> 0 <= z < 64 ->
  Z.lor (Z.lor (Z.shiftl x 12) (Z.shiftl y 6)) z = x * 4096 + y * 64 + z.
Proof.
  intros. rewrite (Z.shiftl_mul_pow2 y 6) by lia.
  rewrite (lor_shiftl_add x (y * 2 ^ 6) 12) by lia.
  replace (x * 2 ^ 12 + y * 2 ^ 6) with (Z.shiftl (x * 64 + y) 6)
    by (rewrite Z.shiftl_mul_pow2; lia).
  rewrite (lor_shiftl_add _ z 6) by lia. lia.
Qed.

Lemma pack4 (x y z w : Z) :
  0 <= x -> 0 <= y < 64 -> 0 <= z < 64 -> 0 <= w < 64 ->
  Z.lor (Z.lor (Z.lor (Z.shiftl x 18) (Z.shiftl y 12)) (Z.shiftl z 6)) w
  = x * 262144 + y * 4096 + z * 64 + w.
Proof.
  intros. rewrite (Z.shiftl_mul_pow2 y 12), (Z.shiftl_mul_pow2 z 6) by lia.
  rewrite (lor_shiftl_add x (y * 2 ^ 12) 18) by lia.
  replace (x * 2 ^ 18 + y * 2 ^ 12) with (Z.shiftl (x * 64 + y) 12)
    by (rewrite Z.shiftl_mul_pow2; lia).
  rewrite (lor_shiftl_add _ (z * 2 ^ 6) 12) by lia.
  replace ((x * 64 + y) * 2 ^ 12 + z * 2 ^ 6) with (Z.shiftl ((x * 64 + y) * 64 + z) 6)
    by (rewrite Z.shiftl_mul_pow2; lia).
  rewrite (lor_shiftl_add _ w 6) by lia. lia.
Qed.

Lemma low_bits (p n : Z) (base : Z) :
  0 <= n -> base mod 2 ^ n = 0 -> base <= p < base + 2 ^ n ->
  Z.land p (2 ^ n - 1) = p - base.
Proof.
  intros Hn Hb Hp. rewrite land_mask by assumption.
  replace p with ((p - base) + base) at 1 by lia.
  rewrite Z.add_mod by lia. rewrite Hb, Z.add_0_r, Z.mod_mod by lia.
  apply Z.mod_small. lia.
Qed.

Lemma tag_bits (tag x n : Z) :
  0 <= n -> 0 <= x < 2 ^ n -> 0 <= tag -> Z.lor (tag * 2 ^ n) x = tag * 2 ^ n + x.
Proof.
  intros. rewrite <- (lor_shiftl_add tag x n) by assumption.
  now rewrite Z.shiftl_mul_pow2 by assumption.
Qed.

Lemma tag128 (x : Z) : 0 <= x < 64 -> Z.lor 128 x = 128 + x.
Proof. intros H. exact (tag_bits 2 x 6 ltac:(lia) H ltac:(lia)). Qed.

Lemma tag192 (x : Z) : 0 <= x < 64 -> Z.lor 192 x = 192 + x.
Proof. intros H. exact (tag_bits 3 x 6 ltac:(lia) H ltac:(lia)). Qed.

Lemma tag224 (x : Z) : 0 <= x < 16 -> Z.lor 224 x = 224 + x.
Proof. intros H. exact (tag_bits 14 x 4 ltac:(lia) H ltac:(lia)). Qed.

Lemma tag240 (x : Z) : 0 <= x < 8 -> Z.lor 240 x = 240 + x.
Proof. intros H. exact (tag_bits 30 x 3 ltac:(lia) H ltac:(lia)). Qed.

Lemma cont_byte (r sh y : Z) :
  0 <= y < 64 -> Z.land (Z.shiftr r sh) 63 = y -> utf8.cont r sh = byte_of (128 + y).
Proof.
  intros Hy H. unfold utf8.cont. rewrite H. f_equal.
  now apply tag128.
Qed.

Lemma shr0 (r : Z) : Z.shiftr r 0 = r.
Proof. apply Z.shiftr_0_r. Qed.

Lemma shr6 (r : Z) : Z.shiftr r 6 = r / 64.
Proof. now rewrite Z.shiftr_div_pow2. Qed.

Lemma shr12 (r : Z) : Z.shiftr r 12 = r / 4096.
Proof. now rewrite Z.shiftr_div_pow2. Qed.

Lemma shr18 (r : Z) : Z.shiftr r 18 = r / 262144.
Proof. now rewrite Z.shiftr_div_pow2. Qed.

Lemma land63 (r : Z) : Z.land r 63 = r mod 64.
Proof. exact (land_mask r 6 ltac:(lia)). Qed.

Ltac divmod := Z.div_mod_to_equations; lia.

Ltac bits := rewrite ?land63, ?shr0, ?shr6, ?shr12, ?shr18; divmod.

Lemma encode2 (x y : Z) :
  2 <= x < 32 -> 0 <= y < 64 ->
  utf8.EncodeRune (x * 64 + y)
  = String (byte_of (192 + x)) (String (byte_of (128 + y)) EmptyString).
Proof.
  intros Hx Hy. unfold utf8.EncodeRune. decide_tests. simpl.
  rewrite (cont_byte _ 0 y) by bits.
  rewrite shr6.
  replace ((x * 64 + y) / 64) with x by divmod.
  now rewrite tag192 by lia.
Qed.

Lemma encode3 (x y z : Z) :
  0 <= x < 16 -> 0 <= y < 64 -> 0 <= z < 64 ->
  2048 <= x * 4096 + y * 64 + z ->
  ~ (55296 <= x * 4096 + y * 64 + z <= 57343) ->
  utf8.EncodeRune (x * 4096 + y * 64 + z)
  = String (byte_of (224 + x))
      (String (byte_of (128 + y)) (String (byte_of (128 + z)) EmptyString)).
Proof.
  intros Hx Hy Hz Hlo Hsur. unfold utf8.EncodeRune, utf8.MaxRune.
  assert (Hs : (55296 <=? x * 4096 + y * 64 + z) && (x * 4096 + y * 64 + z <=? 57343) = false).
  { apply andb_false_iff.
    destruct (Z.leb_spec 55296 (x * 4096 + y * 64 + z)); [right | left; reflexivity].
    apply Z.leb_gt. lia. }
  rewrite Hs. decide_tests. simpl. unfold utf8.encode3.
  rewrite (cont_byte _ 6 y) by bits.
  rewrite (cont_byte _ 0 z) by bits.
  rewrite shr12.
  replace ((x * 4096 + y * 64 + z) / 4096) with x by divmod.
  now rewrite tag224 by lia.
Qed.

Lemma encode4 (x y z w : Z) :
  0 <= x < 8 -> 0 <= y < 64 -> 0 <= z < 64 -> 0 <= w < 64 ->
  65536 <= x * 262144 + y * 4096 + z * 64 + w <= 1114111 ->
  utf8.EncodeRune (x * 262144 + y * 4096 + z * 64 + w)
  = String (byte_of (240 + x))
      (String (byte_of (128 + y))
         (String (byte_of (128 + z)) (String (byte_of (128 + w)) EmptyString))).
Proof.
  intros Hx Hy Hz Hw Hr. unfold utf8.EncodeRune, utf8.MaxRune.
  assert (Hs : (55296 <=? x * 262144 + y * 4096 + z * 64 + w)
               && (x * 262144 + y * 4096 + z * 64 + w <=? 57343) = false).
  { apply andb_false_iff. right. apply Z.leb_gt. lia. }
  rewrite Hs. decide_tests. simpl.
  rewrite (cont_byte _ 12 y) by bits.
  rewrite (cont_byte _ 6 z) by bits.
  rewrite (cont_byte _ 0 w) by bits.
  rewrite shr18.
  replace ((x * 262144 + y * 4096 + z * 64 + w) / 262144) with x by divmod.
  now rewrite tag240 by lia.
Qed.

Lemma land_lead2 (p : Z) : 192 <= p <= 223 -> Z.land p 31 = p - 192.
Proof. intros H. exact (low_bits p 5 192 ltac:(lia) eq_refl ltac:(lia)). Qed.

Lemma land_lead3 (p : Z) : 224 <= p <= 239 -> Z.land p 15 = p - 224.
Proof. intros H. exact (low_bits p 4 224 ltac:(lia) eq_refl ltac:(lia)). Qed.

Lemma land_lead4 (p : Z) : 240 <= p <= 247 -> Z.land p 7 = p - 240.
Proof. intros H. exact (low_bits p 3 240 ltac:(lia) eq_refl ltac:(lia)). Qed.

Lemma land_cont (b : Z) : 128 <= b <= 191 -> Z.land b 63 = b - 128.
Proof. intros H. exact (low_bits b 6 128 ltac:(lia) eq_refl ltac:(lia)). Qed.

Lemma byte_back (c : ascii) (base : Z) : byte_of (base + (code c - base)) = c.
Proof. replace (base + (code c - base)) with (code c) by lia. apply byte_of_code. Qed.

Lemma chunk2 (c0 c1 : ascii) :
  194 <= code c0 <= 223 -> 128 <= code c1 <= 191 ->
  rune_chunk (String c0 (String c1 EmptyString))
    (Z.lor (Z.shiftl (Z.land (code c0) 31) 6) (Z.land (code c1) 63)) 2.
Proof.
  intros H0 H1.
  rewrite land_lead2, land_cont, pack2 by lia.
  unfold rune_chunk. split; [reflexivity|]. split; [lia|]. split; [|split].
  - rewrite encode2 by lia. now rewrite !byte_back.
  - intros X. simpl. unfold utf8.DecodeRune, utf8.first, utf8.in_range.
    repeat (progress (decide_tests; simpl)).
    now rewrite land_lead2, land_cont, pack2 by lia.
  - unfold high. simpl. decide_tests. reflexivity.
Qed.

Lemma chunk3 (c0 c1 c2 : ascii) :
  accept3 (code c0) (code c1) -> 128 <= code c2 <= 191 ->
  rune_chunk (String c0 (String c1 (String c2 EmptyString)))
    (Z.lor (Z.lor (Z.shiftl (Z.land (code c0) 15) 12) (Z.shiftl (Z.land (code c1) 63) 6))
           (Z.land (code c2) 63)) 3.
Proof.
  intros Hacc H2.
  assert (H0 : 224 <= code c0 <= 239) by (unfold accept3 in Hacc; lia).
  assert (H1 : 128 <= code c1 <= 191) by (unfold accept3 in Hacc; lia).
  rewrite land_lead3, !land_cont, pack3 by lia.
  unfold rune_chunk. split; [reflexivity|]. split; [lia|]. split; [|split].
  - rewrite encode3 by (unfold accept3 in Hacc; lia). now rewrite !byte_back.
  - intros X. simpl. unfold utf8.DecodeRune, utf8.first, utf8.in_range.
    destruct Hacc as [H|[H|[H|H]]]; repeat (progress (decide_tests; simpl));
      now rewrite land_lead3, !land_cont, pack3 by lia.
  - unfold high. simpl. decide_tests. reflexivity.
Qed.

Lemma chunk4 (c0 c1 c2 c3 : ascii) :
  accept4 (code c0) (code c1) -> 128 <= code c2 <= 191 -> 128 <= code c3 <= 191 ->
  rune_chunk (String c0 (String c1 (String c2 (String c3 EmptyString))))
    (Z.lor (Z.lor (Z.lor (Z.shiftl (Z.land (code c0) 7) 18)
                         (Z.shiftl (Z.land (code c1) 63) 12))
                  (Z.shiftl (Z.land (code c2) 63) 6))
           (Z.land (code c3) 63)) 4.
Proof.
  intros Hacc H2 H3.
  assert (H0 : 240 <= code c0 <= 244) by (unfold accept4 in Hacc; lia).
  assert (H1 : 128 <= code c1 <= 191) by (unfold accept4 in Hacc; lia).
  rewrite land_lead4, !land_cont, pack4 by lia.
  unfold rune_chunk. split; [reflexivity|]. split; [lia|]. split; [|split].
  - rewrite encode4 by (unfold accept4 in Hacc; lia). now rewrite !byte_back.
  - intros X. simpl. unfold utf8.DecodeRune, utf8.first, utf8.in_range.
    destruct Hacc as [H|[H|H]]; repeat (progress (decide_tests; simpl));
      now rewrite land_lead4, !land_cont, pack4 by lia.
  - unfold high. simpl. decide_tests. reflexivity.
Qed.

Lemma DecodeRune_chunk (c : ascii) (r : string) (rr : Z) (size : nat) :
  128 <= code c ->
  utf8.DecodeRune (String c r) = (rr, size) ->
  (rr =? utf8.RuneError) && Nat.eqb size 1 = false ->
  exists chunk rest, String c r = chunk +:+ rest /\ rune_chunk chunk rr size.
Proof.
  intros Hc H Hv. unfold utf8.DecodeRune, utf8.first, utf8.in_range in H.
  repeat match type of H with
         | context [if ?b then _ else _] => destruct b eqn:?; simpl in H
         | context [match ?x with EmptyString => _ | String _ _ => _ end] =>
             destruct x; simpl in H
         end;
    inversion H; subst rr size; clear H;
    try (vm_compute in Hv; discriminate Hv);
    bool_to_prop; try lia;
    match goal with
    | |- exists chunk rest, String ?a (String ?b ?t) = _ /\ rune_chunk _ _ 2 =>
        exists (String a (String b EmptyString)), t;
        split; [reflexivity | apply chunk2; lia]
    | |- exists chunk rest, String ?a (String ?b (String ?d ?t)) = _ /\ rune_chunk _ _ 3 =>
        exists (String a (String b (String d EmptyString))), t;
        split; [reflexivity | apply chunk3; [unfold accept3; lia | lia]]
    | |- exists chunk rest,
          String ?a (String ?b (String ?d (String ?e ?t))) = _ /\ rune_chunk _ _ 4 =>
        exists (String a (String b (String d (String e EmptyString)))), t;
        split; [reflexivity | apply chunk4; [unfold accept4; lia | lia | lia]]
    end.
Qed.

(** ** Strings: length, take, drop *)

Lemma length_append (a b : string) :
  String.length (a +:+ b) = (String.length a + String.length b)%nat.
Proof. induction a as [|x a IH]; simpl; [reflexivity | now rewrite IH]. Qed.

Lemma take_append (a b : string) : take (String.length a) (a +:+ b) = a.
Proof. induction a as [|x a IH]; simpl; [now destruct b | now rewrite IH]. Qed.

Lemma drop_append (a b : string) : drop (String.length a) (a +:+ b) = b.
Proof. induction a as [|x a IH]; simpl; [reflexivity | exact IH]. Qed.

(** ** Scanning what [escape_fuel] wrote *)

Lemma glue_glue (p q : string) x : glue p (glue q x) = glue (p +:+ q) x.
Proof. destruct x as [[lit rest]|]; simpl; [now rewrite append_assoc | reflexivity]. Qed.

Lemma scan_escape_byte (c : ascii) (Y : string) :
  code c < 128 ->
  json.scan_string (codec.escape_byte c +:+ Y)
  = glue (codec.escape_byte c) (json.scan_string Y).
Proof.
  intros Hc.
  destruct c as [[] [] [] [] [] [] [] []];
    try (exfalso; vm_compute in Hc; discriminate Hc);
    cbv -[json.scan_string String.append glue]; simpl;
    destruct (json.scan_string Y) as [[lit rest]|]; reflexivity.
Qed.

Lemma scan_high (chunk Y : string) :
  high chunk = true ->
  json.scan_string (chunk +:+ Y) = glue chunk (json.scan_string Y).
Proof.
  unfold high. induction chunk as [|c chunk IH]; simpl; intros H.
  - destruct (json.scan_string Y) as [[lit rest]|]; reflexivity.
  - apply andb_true_iff in H. destruct H as [Hc H]. apply Z.leb_le in Hc.
    assert (E1 : Ascii.eqb c "034" = false).
    { apply Ascii.eqb_neq. intros ->. vm_compute in Hc. now apply Hc. }
    assert (E2 : Ascii.eqb c "092" = false).
    { apply Ascii.eqb_neq. intros ->. vm_compute in Hc. now apply Hc. }
    rewrite E1, E2.
    replace (code c <? 32) with false by (symmetry; apply Z.ltb_ge; lia).
    rewrite (IH H).
    destruct (json.scan_string Y) as [[lit rest]|]; reflexivity.
Qed.

Lemma DecodeRune_take_drop (c : ascii) (r : string) (rr : Z) (size : nat) :
  128 <= code c ->
  utf8.DecodeRune (String c r) = (rr, size) ->
  (rr =? utf8.RuneError) && Nat.eqb size 1 = false ->
  rune_chunk (take size (String c r)) rr size
  /\ String c r = take size (String c r) +:+ drop size (String c r).
Proof.
  intros Hc H Hv.
  destruct (DecodeRune_chunk c r rr size Hc H Hv) as (chunk & rest & E & Hchunk).
  assert (Hlen : String.length chunk = size) by apply Hchunk.
  rewrite E, <- Hlen, take_append, drop_append. split; [|reflexivity].
  now rewrite Hlen.
Qed.

Lemma escape_fuel_S (f : nat) (c : ascii) (r : string) :
  codec.escape_fuel (S f) (String c r)
  = if code c <? 128 then codec.escape_byte c +:+ codec.escape_fuel f r
    else
      let '(rr, size) := utf8.DecodeRune (String c r) in
      if (rr =? utf8.RuneError) && Nat.eqb size 1
      then escaped_RuneError +:+ codec.escape_fuel f (drop size (String c r))
      else if (rr =? 8232) || (rr =? 8233)
      then String "092" "u202"
           +:+ String (codec.hex_digit (Z.land rr 15))
                 (codec.escape_fuel f (drop size (String c r)))
      else take size (String c r) +:+ codec.escape_fuel f (drop size (String c r)).
Proof. reflexivity. Qed.

Lemma scan_escaped_RuneError (Y : string) :
  json.scan_string (escaped_RuneError +:+ Y) = glue escaped_RuneError (json.scan_string Y).
Proof.
  cbv -[json.scan_string glue].
  change (json.scan_string Y) with (json.scan_string Y).
  unfold glue. simpl. destruct (json.scan_string Y) as [[lit rest]|]; reflexivity.
Qed.

Lemma scan_escaped_sep (rr : Z) (Y : string) :
  rr = 8232 \/ rr = 8233 ->
  json.scan_string (escaped_sep rr +:+ Y) = glue (escaped_sep rr) (json.scan_string Y).
Proof.
  intros [->| ->]; cbv -[json.scan_string glue]; unfold glue; simpl;
    destruct (json.scan_string Y) as [[lit rest]|]; reflexivity.
Qed.

Lemma scan_escape (fuel : nat) (s rest : string) :
  json.scan_string (codec.escape_fuel fuel s +:+ String "034" rest)
  = Some (codec.escape_fuel fuel s, rest).
Proof.
  revert s. induction fuel as [|f IH]; intros s.
  - destruct s; reflexivity.
  - destruct s as [|c r]; [reflexivity|].
    rewrite escape_fuel_S.
    destruct (Z.ltb_spec (code c) 128) as [Hc|Hc].
    + rewrite append_assoc, scan_escape_byte, IH by assumption. reflexivity.
    + destruct (utf8.DecodeRune (String c r)) as [rr size] eqn:Hdec.
      destruct ((rr =? utf8.RuneError) && Nat.eqb size 1) eqn:Hv.
      * rewrite append_assoc, scan_escaped_RuneError, IH. reflexivity.
      * destruct (DecodeRune_take_drop c r rr size Hc Hdec Hv) as [Hchunk _].
        destruct ((rr =? 8232) || (rr =? 8233)) eqn:Hsep.
        -- apply orb_true_iff in Hsep.
           assert (Hrr : rr = 8232 \/ rr = 8233)
             by (destruct Hsep as [Hs|Hs]; apply Z.eqb_eq in Hs; auto).
           change (String "092" "u202"
                   +:+ String (codec.hex_digit (Z.land rr 15))
                         (codec.escape_fuel f (drop size (String c r))))
             with (escaped_sep rr +:+ codec.escape_fuel f (drop size (String c r))).
           rewrite append_assoc, scan_escaped_sep, IH by assumption. reflexivity.
        -- rewrite append_assoc, scan_high, IH by apply Hchunk. reflexivity.
Qed.

(** ** Unquoting what [escape_fuel] wrote *)

Lemma unquote_fuel_S (m : nat) (c : ascii) (r : string) :
  json.unquote_fuel (S m) (String c r)
  = if Ascii.eqb c "092" then
      match r with
      | EmptyString => None
      | String e r1 =>
          if Ascii.eqb e "u" then
            match json.getu4 (String c r) with
            | None => None
            | Some rr =>
                let s6 := drop 6 (String c r) in
                if utf16.IsSurrogate rr then
                  let dec :=
                    match json.getu4 s6 with
                    | Some rr1 => utf16.DecodeRune rr rr1
                    | None => utf8.RuneError
                    end in
                  if negb (dec =? utf8.RuneError)
                  then json.prepend (utf8.EncodeRune dec) (json.unquote_fuel m (drop 6 s6))
                  else json.prepend (utf8.EncodeRune utf8.RuneError) (json.unquote_fuel m s6)
                else json.prepend (utf8.EncodeRune rr) (json.unquote_fuel m s6)
            end
          else
            match json.simple_escape e with
            | Some b => json.prepend (String b EmptyString) (json.unquote_fuel m r1)
            | None => None
            end
      end
    else if Ascii.eqb c "034" || (code c <? 32) then None
    else if code c <? 128
    then json.prepend (String c EmptyString) (json.unquote_fuel m r)
    else
      let '(rr, size) := utf8.DecodeRune (String c r) in
      json.prepend (utf8.EncodeRune rr) (json.unquote_fuel m (drop size (String c r))).
Proof. reflexivity. Qed.

Lemma unquote_escape_byte (c : ascii) (Y : string) (m : nat) :
  code c < 128 ->
  json.unquote_fuel (S m) (codec.escape_byte c +:+ Y)
  = json.prepend (String c EmptyString) (json.unquote_fuel m Y).
Proof.
  intros Hc.
  destruct c as [[] [] [] [] [] [] [] []];
    try (exfalso; vm_compute in Hc; discriminate Hc);
    cbv -[json.unquote_fuel json.prepend];
    rewrite unquote_fuel_S; reflexivity.
Qed.

Lemma escape_byte_nonempty (c : ascii) : (1 <= String.length (codec.escape_byte c))%nat.
Proof. destruct c as [[] [] [] [] [] [] [] []]; vm_compute; lia. Qed.

Lemma high_head (c : ascii) (ch : string) :
  high (String c ch) = true ->
  Ascii.eqb c "092" = false /\ Ascii.eqb c "034" = false
  /\ (code c <? 32) = false /\ (code c <? 128) = false.
Proof.
  unfold high. simpl. intros H. apply andb_true_iff in H. destruct H as [Hc _].
  apply Z.leb_le in Hc. repeat split.
  - apply Ascii.eqb_neq. intros ->. vm_compute in Hc. now apply Hc.
  - apply Ascii.eqb_neq. intros ->. vm_compute in Hc. now apply Hc.
  - apply Z.ltb_ge. lia.
  - apply Z.ltb_ge. lia.
Qed.

Lemma unquote_chunk (chunk : string) (rr : Z) (size : nat) (Y : string) (m : nat) :
  rune_chunk chunk rr size ->
  json.unquote_fuel (S m) (chunk +:+ Y) = json.prepend chunk (json.unquote_fuel m Y).
Proof.
  intros (Hlen & Hsize & Henc & Hdec & Hhigh).
  destruct chunk as [|c ch]; [simpl in Hlen; lia|].
  destruct (high_head c ch Hhigh) as (E1 & E2 & E3 & E4).
  change (String c ch +:+ Y) with (String c (ch +:+ Y)).
  rewrite unquote_fuel_S, E1, E2, E3, E4. simpl orb. cbv iota.
  change (String c (ch +:+ Y)) with (String c ch +:+ Y).
  rewrite Hdec, Henc, <- Hlen, drop_append. reflexivity.
Qed.

Lemma unquote_sep (chunk : string) (rr : Z) (size : nat) (Y : string) (m : nat) :
  rr = 8232 \/ rr = 8233 ->
  rune_chunk chunk rr size ->
  json.unquote_fuel (S m) (escaped_sep rr +:+ Y)
  = json.prepend chunk (json.unquote_fuel m Y).
Proof.
  intros Hrr (_ & _ & Henc & _ & _). rewrite <- Henc.
  destruct Hrr as [-> | ->];
    cbv -[json.unquote_fuel json.prepend]; rewrite unquote_fuel_S; reflexivity.
Qed.

Lemma prepend_Some (p t : string) : json.prepend p (Some t) = Some (p +:+ t).
Proof. reflexivity. Qed.

Lemma valid_fuel_S (f : nat) (c : ascii) (r : string) :
  utf8.valid_fuel (S f) (String c r)
  = let '(rr, size) := utf8.DecodeRune (String c r) in
    if (rr =? utf8.RuneError) && Nat.eqb size 1 then false
    else utf8.valid_fuel f (drop size (String c r)).
Proof. reflexivity. Qed.

Lemma DecodeRune_ascii (c : ascii) (r : string) :
  code c < 128 -> utf8.DecodeRune (String c r) = (code c, 1%nat).
Proof.
  intros Hc. unfold utf8.DecodeRune.
  now replace (code c <? 128) with true by (symmetry; apply Z.ltb_lt; lia).
Qed.

Lemma unquote_escape (n : nat) (s : string) :
  utf8.valid_fuel n s = true ->
  forall m, (String.length (codec.escape_fuel n s) <= m)%nat ->
            json.unquote_fuel m (codec.escape_fuel n s) = Some s.
Proof.
  revert s. induction n as [|f IH]; intros s Hvalid m Hm.
  - destruct s; [|discriminate Hvalid]. destruct m; reflexivity.
  - destruct s as [|c r]; [destruct m; reflexivity|].
    rewrite valid_fuel_S in Hvalid. rewrite escape_fuel_S in Hm |- *.
    destruct (Z.ltb_spec (code c) 128) as [Hc|Hc].
    + rewrite DecodeRune_ascii in Hvalid by assumption.
      replace (code c =? utf8.RuneError) with false in Hvalid
        by (symmetry; apply Z.eqb_neq; unfold utf8.RuneError; lia).
      simpl in Hvalid.
      rewrite length_append in Hm. pose proof (escape_byte_nonempty c).
      destruct m as [|m]; [lia|].
      rewrite unquote_escape_byte, (IH r Hvalid) by (assumption || lia).
      reflexivity.
    + destruct (utf8.DecodeRune (String c r)) as [rr size] eqn:Hdec.
      destruct ((rr =? utf8.RuneError) && Nat.eqb size 1) eqn:Hv; [discriminate Hvalid|].
      destruct (DecodeRune_take_drop c r rr size Hc Hdec Hv) as [Hchunk Hsplit].
      assert (Hpos : (1 <= String.length (take size (String c r)))%nat).
      { destruct Hchunk as (Hlen & Hsize & _). lia. }
      destruct ((rr =? 8232) || (rr =? 8233)) eqn:Hsep.
      * apply orb_true_iff in Hsep.
        assert (Hrr : rr = 8232 \/ rr = 8233)
          by (destruct Hsep as [Hs|Hs]; apply Z.eqb_eq in Hs; auto).
        change (String "092" "u202"
                +:+ String (codec.hex_digit (Z.land rr 15))
                      (codec.escape_fuel f (drop size (String c r))))
          with (escaped_sep rr +:+ codec.escape_fuel f (drop size (String c r)))
          in Hm |- *.
        rewrite length_append in Hm.
        destruct m as [|m]; [destruct Hrr as [-> | ->]; simpl in Hm; lia|].
        rewrite (unquote_sep _ _ _ _ _ Hrr Hchunk).
        rewrite (IH _ Hvalid), prepend_Some, <- Hsplit.
        -- reflexivity.
        -- destruct Hrr as [-> | ->]; simpl in Hm; lia.
      * rewrite length_append in Hm.
        destruct m as [|m]; [lia|].
        rewrite (unquote_chunk _ _ _ _ _ Hchunk).
        rewrite (IH _ Hvalid), prepend_Some, <- Hsplit by lia.
        reflexivity.
Qed.

Lemma scan_quoted_quote (s rest : string) :
  utf8.ValidString s = true ->
  json.scan_quoted (codec.escape_fuel (String.length s) s +:+ String "034" rest)
  = Some (s, rest).
Proof.
  intros Hvalid. unfold json.scan_quoted. rewrite scan_escape.
  unfold json.unquote. now rewrite unquote_escape.
Qed.

(** ** Decimal numbers *)

Lemma string_of_uint_digits (d : uint) :
  string_forall is_digit (NilEmpty.string_of_uint d) = true.
Proof. induction d; simpl; auto. Qed.

Lemma digits_value_acc (d : uint) (acc : positive) :
  codec.digits_value (Z.pos acc) (NilEmpty.string_of_uint d)
  = Z.pos (Pos.of_uint_acc d acc).
Proof.
  revert acc. induction d; intros acc; simpl; try reflexivity;
    match goal with
    | |- codec.digits_value ?z _ = _ =>
        match goal with
        | |- _ = Z.pos (Pos.of_uint_acc _ ?a) =>
            replace z with (Z.pos a) by (unfold code; simpl; lia)
        end
    end; apply IHd.
Qed.

Lemma digits_value_uint (d : uint) :
  codec.digits_value 0 (NilEmpty.string_of_uint d) = Z.of_N (Pos.of_uint d).
Proof.
  induction d; simpl; try reflexivity; try exact IHd;
    match goal with
    | |- codec.digits_value ?z _ = Z.pos (Pos.of_uint_acc _ ?a) =>
        replace z with (Z.pos a) by (unfold code; simpl; lia)
    end; apply digits_value_acc.
Qed.

Lemma nzhead_not_D0 (d l : uint) : nzhead d <> D0 l.
Proof. induction d; simpl; try discriminate. exact IHd. Qed.

Lemma to_uint_normal (p : positive) : unorm (Pos.to_uint p) = Pos.to_uint p.
Proof.
  rewrite <- (DecimalPos.Unsigned.to_of (Pos.to_uint p)).
  now rewrite DecimalPos.Unsigned.of_to.
Qed.

(** The decimal text of a positive number: digits, the first one not zero. *)
Lemma to_uint_head (p : positive) :
  exists c t,
    NilEmpty.string_of_uint (Pos.to_uint p) = String c t
    /\ is_digit c = true /\ c <> "0"%char
    /\ string_forall is_digit t = true.
Proof.
  pose proof (to_uint_normal p) as Hn.
  pose proof (DecimalPos.Unsigned.to_uint_nonnil p) as Hnil.
  pose proof (DecimalPos.Unsigned.to_uint_nonzero p) as Hz.
  pose proof (string_of_uint_digits (Pos.to_uint p)) as Hd.
  destruct (Pos.to_uint p) as [|l|l|l|l|l|l|l|l|l|l]; [now elim Hnil| | | | | | | | | |];
    simpl in Hd |- *; try (eexists _, _; split; [reflexivity | split; [reflexivity | split; [discriminate | exact Hd]]]).
  exfalso. unfold unorm in Hn. simpl in Hn.
  destruct (nzhead l) eqn:E; try discriminate Hn.
  - inversion Hn. subst l. now apply Hz.
  - exact (nzhead_not_D0 _ _ E).
Qed.

Lemma fmt_d_cases (z : Z) :
  (z = 0 /\ fmt_d z = "0"%string)
  \/ (exists p, z = Z.pos p /\ fmt_d z = NilEmpty.string_of_uint (Pos.to_uint p))
  \/ (exists p, z = Z.neg p
                /\ fmt_d z = String "-" (NilEmpty.string_of_uint (Pos.to_uint p))).
Proof.
  destruct z as [|p|p]; [left; split; reflexivity | right; left | right; right];
    exists p; (split; [reflexivity|]);
    unfold fmt_d; simpl; unfold NilZero.string_of_uint;
    pose proof (DecimalPos.Unsigned.to_uint_nonnil p) as Hnil;
    destruct (Pos.to_uint p); try reflexivity; now elim Hnil.
Qed.

Lemma digits_value_to_uint (p : positive) :
  codec.digits_value 0 (NilEmpty.string_of_uint (Pos.to_uint p)) = Z.pos p.
Proof.
  rewrite digits_value_uint, DecimalPos.Unsigned.of_to. reflexivity.
Qed.

Lemma nonempty_digits (p : positive) :
  codec.nonempty (NilEmpty.string_of_uint (Pos.to_uint p)) = true.
Proof. destruct (to_uint_head p) as (c & t & E & _). now rewrite E. Qed.

Lemma digit_not_minus (c : ascii) (t : string) :
  is_digit c = true ->
  match String c t with
  | String "-" r => (true, r)
  | _ => (false, String c t)
  end = (false, String c t).
Proof.
  intros H. destruct c as [[] [] [] [] [] [] [] []]; try reflexivity; discriminate H.
Qed.

Lemma parse_int64_fmt_d (z : Z) :
  - 2 ^ 63 <= z <= 2 ^ 63 - 1 -> codec.parse_int64 (fmt_d z) = Some z.
Proof.
  intros Hz. unfold codec.parse_int64.
  destruct (fmt_d_cases z) as [[-> E]|[(p & -> & E)|(p & -> & E)]]; rewrite E.
  - reflexivity.
  - destruct (to_uint_head p) as (c & t & Ep & Hc & _ & _).
    rewrite Ep, (digit_not_minus c t Hc), <- Ep.
    rewrite nonempty_digits, string_of_uint_digits, digits_value_to_uint.
    cbn [andb]. decide_tests. reflexivity.
  - rewrite nonempty_digits, string_of_uint_digits, digits_value_to_uint.
    cbn [andb]. decide_tests. reflexivity.
Qed.

Lemma delimited_cases (rest : string) :
  delimited rest = true ->
  rest = EmptyString
  \/ exists t, rest = String "," t \/ rest = String "]" t \/ rest = String "}" t.
Proof.
  destruct rest as [|c t]; [now left|]. intros H. right. exists t.
  destruct c as [[] [] [] [] [] [] [] []]; try discriminate H; auto.
Qed.

Lemma span_digits (t rest : string) :
  string_forall is_digit t = true -> delimited rest = true ->
  json.span is_digit (t +:+ rest) = (t, rest).
Proof.
  intros Ht Hrest. induction t as [|c t IH]; simpl.
  - destruct (delimited_cases rest Hrest) as [->|[u [->|[->| ->]]]]; reflexivity.
  - simpl in Ht. apply andb_true_iff in Ht. destruct Ht as [Hc Ht].
    now rewrite Hc, (IH Ht).
Qed.

Lemma scan_number_digits (c : ascii) (t rest : string) :
  is_digit c = true -> c <> "0"%char ->
  string_forall is_digit t = true -> delimited rest = true ->
  json.scan_number (String c (t +:+ rest)) = Some (String c t, rest)
  /\ json.scan_number (String "-" (String c (t +:+ rest)))
     = Some (String "-" (String c t), rest).
Proof.
  intros Hc Hnz Ht Hrest.
  assert (Hspan := span_digits t rest Ht Hrest).
  destruct c as [[] [] [] [] [] [] [] []]; try discriminate Hc; try (now elim Hnz);
    unfold json.scan_number; simpl; rewrite Hspan;
    destruct (delimited_cases rest Hrest) as [->|[u [->|[->| ->]]]]; simpl;
    rewrite ?append_nil_r; split; reflexivity.
Qed.

Lemma scan_number_zero (rest : string) :
  delimited rest = true -> json.scan_number (String "0" rest) = Some ("0"%string, rest).
Proof.
  intros Hrest.
  destruct (delimited_cases rest Hrest) as [->|[u [->|[->| ->]]]]; reflexivity.
Qed.

Lemma scan_number_fmt_d (z : Z) (rest : string) :
  delimited rest = true -> json.scan_number (fmt_d z +:+ rest) = Some (fmt_d z, rest).
Proof.
  intros Hrest.
  destruct (fmt_d_cases z) as [[-> E]|[(p & -> & E)|(p & -> & E)]]; rewrite E.
  - now apply scan_number_zero.
  - destruct (to_uint_head p) as (c & t & -> & Hc & Hnz & Ht).
    now apply scan_number_digits.
  - destruct (to_uint_head p) as (c & t & -> & Hc & Hnz & Ht).
    now apply scan_number_digits.
Qed.

Lemma fmt_d_head (z : Z) :
  exists c t, fmt_d z = String c t /\ (Ascii.eqb c "-" || is_digit c) = true.
Proof.
  destruct (fmt_d_cases z) as [[-> E]|[(p & -> & E)|(p & -> & E)]]; rewrite E.
  - eexists _, _. split; reflexivity.
  - destruct (to_uint_head p) as (c & t & -> & Hc & _ & _).
    eexists _, _. split; [reflexivity|]. rewrite Hc. apply orb_true_r.
  - eexists _, _. split; reflexivity.
Qed.

Lemma size_JArray vs : size (JArray vs) = S (elems_size vs).
Proof. reflexivity. Qed.

Lemma size_JObject ms : size (JObject ms) = S (members_size ms).
Proof. reflexivity. Qed.

Lemma height_JArray vs : height (JArray vs) = 1 + elems_height vs.
Proof. reflexivity. Qed.

Lemma height_JObject ms : height (JObject ms) = 1 + members_height ms.
Proof. reflexivity. Qed.

Lemma printable_JArray vs : printable (JArray vs) <-> Forall printable vs.
Proof.
  simpl. induction vs as [|x r IH]; simpl.
  - split; auto.
  - rewrite IH. split.
    + intros [H1 H2]. now constructor.
    + intros H. inversion H. auto.
Qed.

Lemma printable_JObject ms :
  printable (JObject ms)
  <-> Forall (fun m => utf8.ValidString (fst m) = true /\ printable (snd m)) ms.
Proof.
  simpl. induction ms as [|x r IH]; simpl.
  - split; auto.
  - rewrite IH. split.
    + intros (H1 & H2 & H3). now constructor.
    + intros H. inversion H. tauto.
Qed.

Lemma height_nonneg v : 0 <= height v.
Proof.
  destruct v; simpl; try lia.
  - match goal with |- 0 <= 1 + ?x => assert (0 <= x); [|lia] end.
    induction elems; simpl; lia.
  - match goal with |- 0 <= 1 + ?x => assert (0 <= x); [|lia] end.
    induction members; simpl; lia.
Qed.

(** ** Parsing what [render] wrote *)

Lemma parse_value_array (f : nat) (d : Z) (r : string) :
  parse_value (S f) d (String "[" r)
  = if maxNestingDepth <? d + 1 then None
    else
      match skip_ws r with
      | String "]" r' => Some (JArray [], r')
      | _ =>
          match parse_elements f (d + 1) r with
          | Some (vs, r') => Some (JArray vs, r')
          | None => None
          end
      end.
Proof. reflexivity. Qed.

Lemma parse_value_object (f : nat) (d : Z) (r : string) :
  parse_value (S f) d (String "{" r)
  = if maxNestingDepth <? d + 1 then None
    else
      match skip_ws r with
      | String "}" r' => Some (JObject [], r')
      | _ =>
          match parse_members f (d + 1) r with
          | Some (ms, r') => Some (JObject ms, r')
          | None => None
          end
      end.
Proof. reflexivity. Qed.

Lemma parse_value_string (f : nat) (d : Z) (r : string) :
  parse_value (S f) d (String "034" r)
  = match scan_quoted r with
    | Some (str, r') => Some (JString str, r')
    | None => None
    end.
Proof. reflexivity. Qed.

Lemma parse_value_number (f : nat) (d : Z) (c : ascii) (r : string) :
  (Ascii.eqb c "-" || is_digit c) = true ->
  parse_value (S f) d (String c r)
  = match scan_number (String c r) with
    | Some (lit, r') => Some (JNumber lit, r')
    | None => None
    end.
Proof.
  intros H.
  destruct c as [[] [] [] [] [] [] [] []]; try discriminate H; reflexivity.
Qed.

Lemma parse_elements_S (f : nat) (d : Z) (s : string) :
  parse_elements (S f) d s
  = match parse_value f d s with
    | None => None
    | Some (v, r) =>
        match skip_ws r with
        | String "," r' =>
            match parse_elements f d r' with
            | Some (vs, r'') => Some (v :: vs, r'')
            | None => None
            end
        | String "]" r' => Some ([v], r')
        | _ => None
        end
    end.
Proof. reflexivity. Qed.

Lemma parse_members_S (f : nat) (d : Z) (r : string) :
  parse_members (S f) d (String "034" r)
  = match scan_quoted r with
    | None => None
    | Some (key, r1) =>
        match skip_ws r1 with
        | String ":" r2 =>
            match parse_value f d r2 with
            | None => None
            | Some (v, r3) =>
                match skip_ws r3 with
                | String "," r4 =>
                    match parse_members f d r4 with
                    | Some (ms, r5) => Some ((key, v) :: ms, r5)
                    | None => None
                    end
                | String "}" r4 => Some ([(key, v)], r4)
                | _ => None
                end
            end
        | _ => None
        end
    end.
Proof. reflexivity. Qed.

Lemma render_head (v : value) :
  printable v -> exists c t, codec.render v = String c t /\ starter c = true.
Proof.
  destruct v as [|[]|lit|s|vs|ms]; simpl; intros Hp;
    try (eexists _, _; split; reflexivity).
  destruct Hp as [z ->]. destruct (fmt_d_head z) as (c & t & E & Hc).
  exists c, t. split; [exact E|].
  destruct c as [[] [] [] [] [] [] [] []]; try discriminate Hc; reflexivity.
Qed.

Lemma starter_not_space (c : ascii) (t : string) :
  starter c = true -> skip_ws (String c t) = String c t.
Proof.
  intros H. destruct c as [[] [] [] [] [] [] [] []]; try discriminate H; reflexivity.
Qed.

Lemma quote_append (s rest : string) :
  codec.quote s +:+ rest
  = String "034" (codec.escape_fuel (String.length s) s +:+ String "034" rest).
Proof. unfold codec.quote. simpl. now rewrite append_assoc. Qed.

Lemma depth_ok (d h : Z) : d + (1 + h) <= 10000 -> 0 <= h -> (maxNestingDepth <? d + 1) = false.
Proof. intros. apply Z.ltb_ge. unfold maxNestingDepth. lia. Qed.

Lemma join_cons2 (sep x y : string) (l : list string) :
  codec.join sep (x :: y :: l) = x +:+ sep +:+ codec.join sep (y :: l).
Proof. reflexivity. Qed.

Lemma skip_ws_punct (c : ascii) (X : string) :
  url.one_of ",]}:" c = true -> skip_ws (String c X) = String c X.
Proof.
  intros H. destruct c as [[] [] [] [] [] [] [] []]; try discriminate H; reflexivity.
Qed.

Lemma parse_elements_render (vs : list value) :
  vs <> [] -> Forall parses vs -> Forall printable vs ->
  forall (fuel : nat) (d : Z) (rest : string),
    (elems_size vs <= fuel)%nat -> d + elems_height vs <= 10000 ->
    delimited rest = true ->
    parse_elements fuel d (codec.join "," (List.map codec.render vs) +:+ String "]" rest)
    = Some (vs, rest).
Proof.
  induction vs as [|v vs IH]; [congruence|].
  intros _ HP Hpr fuel d rest Hfuel Hd Hrest.
  inversion HP as [|? ? HPv HPvs]; subst. inversion Hpr as [|? ? Hpv Hpvs]; subst.
  cbn [elems_size elems_height fold_right] in Hfuel, Hd.
  destruct fuel as [|f]; [lia|].
  rewrite parse_elements_S.
  destruct vs as [|v2 vs].
  - cbn [List.map codec.join].
    rewrite (HPv Hpv) by (cbn [fold_right] in *; lia || reflexivity).
    rewrite skip_ws_punct by reflexivity. reflexivity.
  - cbn [List.map]. rewrite join_cons2, !append_assoc.
    rewrite (HPv Hpv) by (cbn [fold_right] in *; lia || reflexivity).
    cbn [String.append]. rewrite skip_ws_punct by reflexivity. cbv beta iota.
    change (fold_right (fun x n => (S (size x) + n)%nat) O (v2 :: vs))
      with (elems_size (v2 :: vs)) in Hfuel.
    change (fold_right (fun x h => Z.max (height x) h) 0 (v2 :: vs))
      with (elems_height (v2 :: vs)) in Hd.
    change (codec.render v2 :: List.map codec.render vs)
      with (List.map codec.render (v2 :: vs)).
    rewrite (IH ltac:(discriminate) HPvs Hpvs f d rest); [reflexivity | lia | lia | assumption].
Qed.

Lemma member_text_append (k : string) (v : value) (Z : string) :
  member_text (k, v) +:+ Z
  = String "034" (codec.escape_fuel (String.length k) k
                  +:+ String "034" (String ":" (codec.render v +:+ Z))).
Proof.
  unfold member_text. cbn [fst snd].
  rewrite append_assoc, quote_append. reflexivity.
Qed.

Lemma parse_members_render (ms : list (string * value)) :
  ms <> [] ->
  Forall (fun m => parses (snd m)) ms ->
  Forall (fun m => utf8.ValidString (fst m) = true /\ printable (snd m)) ms ->
  forall (fuel : nat) (d : Z) (rest : string),
    (members_size ms <= fuel)%nat -> d + members_height ms <= 10000 ->
    delimited rest = true ->
    parse_members fuel d (codec.join "," (List.map member_text ms) +:+ String "}" rest)
    = Some (ms, rest).
Proof.
  induction ms as [|[k v] ms IH]; [congruence|].
  intros _ HP Hpr fuel d rest Hfuel Hd Hrest.
  inversion HP as [|? ? HPv HPms]; subst. inversion Hpr as [|? ? [Hk Hpv] Hpms]; subst.
  cbn [fst snd] in HPv, Hk, Hpv.
  cbn [members_size members_height fold_right snd] in Hfuel, Hd.
  destruct fuel as [|f]; [lia|].
  destruct ms as [|m2 ms].
  - cbn [List.map codec.join]. rewrite member_text_append, parse_members_S.
    rewrite scan_quoted_quote by assumption.
    rewrite skip_ws_punct by reflexivity. cbv beta iota.
    rewrite (HPv Hpv) by (cbn [fold_right] in *; lia || reflexivity).
    rewrite skip_ws_punct by reflexivity. reflexivity.
  - cbn [List.map]. rewrite join_cons2, append_assoc, member_text_append, parse_members_S.
    rewrite scan_quoted_quote by assumption.
    rewrite skip_ws_punct by reflexivity. cbv beta iota.
    rewrite append_assoc.
    rewrite (HPv Hpv) by (cbn [fold_right] in *; lia || reflexivity).
    cbn [String.append]. rewrite skip_ws_punct by reflexivity. cbv beta iota.
    change (fold_right (fun m n => (S (size (snd m)) + n)%nat) O (m2 :: ms))
      with (members_size (m2 :: ms)) in Hfuel.
    change (fold_right (fun m h => Z.max (height (snd m)) h) 0 (m2 :: ms))
      with (members_height (m2 :: ms)) in Hd.
    change (member_text m2 :: List.map member_text ms)
      with (List.map member_text (m2 :: ms)).
    rewrite (IH ltac:(discriminate) HPms Hpms f d rest); [reflexivity | lia | lia | assumption].
Qed.

Lemma render_JArray (vs : list value) :
  codec.render (JArray vs) = "[" +:+ codec.join "," (List.map codec.render vs) +:+ "]".
Proof. reflexivity. Qed.

Lemma render_JObject (ms : list (string * value)) :
  codec.render (JObject ms) = "{" +:+ codec.join "," (List.map member_text ms) +:+ "}".
Proof. reflexivity. Qed.

Lemma join_head (v : value) (vs : list value) (Z : string) :
  printable v ->
  exists c t,
    codec.join "," (List.map codec.render (v :: vs)) +:+ Z = String c t /\ starter c = true.
Proof.
  intros Hp. destruct (render_head v Hp) as (c & t & E & Hc).
  destruct vs as [|v2 vs].
  - cbn [List.map codec.join]. rewrite E. eexists _, _. split; [reflexivity | exact Hc].
  - cbn [List.map]. rewrite join_cons2, E. eexists _, _. split; [reflexivity | exact Hc].
Qed.

Lemma members_head (m : string * value) (ms : list (string * value)) (Z : string) :
  exists t, codec.join "," (List.map member_text (m :: ms)) +:+ Z = String "034" t.
Proof.
  destruct m as [k v]. destruct ms as [|m2 ms].
  - cbn [List.map codec.join]. rewrite member_text_append. eexists. reflexivity.
  - cbn [List.map]. rewrite join_cons2, append_assoc, member_text_append.
    eexists. reflexivity.
Qed.

Lemma parse_value_elements (f : nat) (d : Z) (c : ascii) (t : string) :
  starter c = true ->
  parse_value (S f) d (String "[" (String c t))
  = if maxNestingDepth <? d + 1 then None
    else
      match parse_elements f (d + 1) (String c t) with
      | Some (vs, r') => Some (JArray vs, r')
      | None => None
      end.
Proof.
  intros H. destruct c as [[] [] [] [] [] [] [] []]; try discriminate H; reflexivity.
Qed.

Lemma parse_value_members (f : nat) (d : Z) (t : string) :
  parse_value (S f) d (String "{" (String "034" t))
  = if maxNestingDepth <? d + 1 then None
    else
      match parse_members f (d + 1) (String "034" t) with
      | Some (ms, r') => Some (JObject ms, r')
      | None => None
      end.
Proof. reflexivity. Qed.

Lemma elems_height_nonneg (vs : list value) : 0 <= elems_height vs.
Proof.
  induction vs as [|x r IH]; cbn [elems_height fold_right]; [lia|].
  pose proof (height_nonneg x). fold (elems_height r). lia.
Qed.

Lemma members_height_nonneg (ms : list (string * value)) : 0 <= members_height ms.
Proof.
  induction ms as [|x r IH]; cbn [members_height fold_right]; [lia|].
  pose proof (height_nonneg (snd x)). fold (members_height r). lia.
Qed.

(** Every printable document is read back from its text, whatever
    delimiter follows, with fuel for its size and room for its nesting. *)
Theorem parse_render (v : value) : parses v.
Proof.
  induction v as [ |b|lit|s|vs IH|ms IH] using value_induction;
    intros Hp fuel d rest Hfuel Hd Hrest.
  - destruct fuel; [simpl in Hfuel; lia|].
    destruct (delimited_cases rest Hrest) as [->|[u [->|[->| ->]]]]; reflexivity.
  - destruct fuel; [simpl in Hfuel; lia|].
    destruct (delimited_cases rest Hrest) as [->|[u [->|[->| ->]]]]; destruct b; reflexivity.
  - destruct Hp as [z ->]. destruct fuel; [simpl in Hfuel; lia|].
    destruct (fmt_d_head z) as (c & t & E & Hc).
    cbn [codec.render]. rewrite E. cbn [String.append].
    rewrite parse_value_number by assumption.
    change (String c (t +:+ rest)) with (String c t +:+ rest).
    rewrite <- E, scan_number_fmt_d by assumption. reflexivity.
  - destruct fuel; [simpl in Hfuel; lia|].
    cbn [codec.render]. rewrite quote_append, parse_value_string.
    now rewrite scan_quoted_quote.
  - rewrite size_JArray in Hfuel. rewrite height_JArray in Hd.
    apply printable_JArray in Hp.
    destruct fuel as [|f]; [lia|].
    rewrite render_JArray, !append_assoc. cbn [String.append].
    pose proof (elems_height_nonneg vs) as Hh.
    destruct vs as [|v vs].
    + rewrite parse_value_array, (depth_ok d 0) by lia. reflexivity.
    + destruct (join_head v vs (String "]" rest)) as (c & t & E & Hc);
        [now inversion Hp|].
      rewrite E, parse_value_elements, (depth_ok d (elems_height (v :: vs))) by (assumption || lia).
      rewrite <- E.
      rewrite (parse_elements_render (v :: vs)); [reflexivity | discriminate | | | | | ];
        try assumption; lia.
  - rewrite size_JObject in Hfuel. rewrite height_JObject in Hd.
    apply printable_JObject in Hp.
    destruct fuel as [|f]; [lia|].
    rewrite render_JObject, !append_assoc. cbn [String.append].
    pose proof (members_height_nonneg ms) as Hh.
    destruct ms as [|m ms].
    + rewrite parse_value_object, (depth_ok d 0) by lia. reflexivity.
    + destruct (members_head m ms (String "}" rest)) as (t & E).
      rewrite E, parse_value_members, (depth_ok d (members_height (m :: ms))) by lia.
      rewrite <- E.
      rewrite (parse_members_render (m :: ms)); [reflexivity | discriminate | | | | | ];
        try assumption; lia.
Qed.

(** ** The fuel of [json.parse] is enough *)

Lemma length_quote (s : string) : (2 <= String.length (codec.quote s))%nat.
Proof. unfold codec.quote. simpl. rewrite length_append. simpl. lia. Qed.

Lemma elems_fit (vs : list value) :
  Forall fits vs -> Forall printable vs ->
  (elems_size vs <= 2 * String.length (codec.join "," (List.map codec.render vs)))%nat.
Proof.
  induction vs as [|v vs IH]; intros HF Hp; [simpl; lia|].
  inversion HF as [|? ? Hv HFs]; subst. inversion Hp as [|? ? Hpv Hps]; subst.
  specialize (IH HFs Hps). specialize (Hv Hpv).
  cbn [elems_size fold_right]. fold (elems_size vs).
  destruct vs as [|v2 vs].
  - cbn [List.map codec.join elems_size fold_right] in *. lia.
  - cbn [List.map]. rewrite join_cons2, !length_append.
    change (codec.render v2 :: List.map codec.render vs)
      with (List.map codec.render (v2 :: vs)).
    simpl String.length at 2. lia.
Qed.

Lemma members_fit (ms : list (string * value)) :
  Forall (fun m => fits (snd m)) ms ->
  Forall (fun m => utf8.ValidString (fst m) = true /\ printable (snd m)) ms ->
  (members_size ms <= 2 * String.length (codec.join "," (List.map member_text ms)))%nat.
Proof.
  induction ms as [|m ms IH]; intros HF Hp; [simpl; lia|].
  inversion HF as [|? ? Hv HFs]; subst. inversion Hp as [|? ? [_ Hpv] Hps]; subst.
  specialize (IH HFs Hps). specialize (Hv Hpv).
  cbn [members_size fold_right]. fold (members_size ms).
  assert (Hm : (String.length (codec.render (snd m)) <= String.length (member_text m))%nat).
  { unfold member_text. rewrite !length_append. lia. }
  destruct ms as [|m2 ms].
  - cbn [List.map codec.join members_size fold_right] in *. lia.
  - cbn [List.map]. rewrite join_cons2, !length_append.
    change (member_text m2 :: List.map member_text ms)
      with (List.map member_text (m2 :: ms)).
    lia.
Qed.

Lemma size_fits (v : value) : fits v.
Proof.
  induction v as [ |b|lit|s|vs IH|ms IH] using value_induction; intros Hp.
  - simpl. lia.
  - destruct b; simpl; lia.
  - destruct Hp as [z ->]. destruct (fmt_d_head z) as (c & t & E & _).
    cbn [codec.render size]. rewrite E. simpl. lia.
  - cbn [codec.render size]. pose proof (length_quote s). lia.
  - apply printable_JArray in Hp.
    rewrite size_JArray, render_JArray, !length_append.
    pose proof (elems_fit vs IH Hp). simpl String.length. lia.
  - apply printable_JObject in Hp.
    rewrite size_JObject, render_JObject, !length_append.
    pose proof (members_fit ms IH Hp). simpl String.length. lia.
Qed.

(** [json.parse] reads back the text of every printable document that is
    not nested too deep. *)
Theorem parse_render_document (v : value) :
  printable v -> height v <= 10000 -> json.parse (codec.render v) = Some v.
Proof.
  intros Hp Hh. unfold json.parse.
  pose proof (size_fits v Hp) as Hs.
  rewrite <- (append_nil_r (codec.render v)) at 2.
  rewrite (parse_render v Hp) by (lia || reflexivity).
  reflexivity.
Qed.

(** ** Decoding what was encoded: one field *)

Lemma decode_strings_encode (fld : string) (l : list string) :
  decode_strings fld (List.map JString l) = inr l.
Proof. induction l as [|s l IH]; simpl; [reflexivity | now rewrite IH]. Qed.

Lemma decode_encode_kind (k : kind) (fld : string) (x cur : go k) :
  faithful k x = true -> decode_kind k fld (encode_kind k x) cur = inr x.
Proof.
  destruct k; simpl in *; intros H; try (destruct x; reflexivity).
  - destruct x as [z|]; [|reflexivity]. simpl.
    rewrite parse_int64_fmt_d; [reflexivity|].
    apply andb_true_iff in H. destruct H as [H1 H2].
    apply Z.leb_le in H1. apply Z.leb_le in H2. lia.
  - destruct x as [l|]; [|reflexivity]. simpl. now rewrite decode_strings_encode.
Qed.

Lemma empty_is_zero (k : kind) (x : go k) :
  isEmptyValue k x = true -> kept true k x = true -> x = zero k.
Proof.
  destruct k; simpl; intros He Hk.
  - now destruct x.
  - now destruct x.
  - now destruct x.
  - now destruct x.
  - destruct x as [[|s l]|]; try reflexivity; discriminate.
Qed.

(** ** The fields of [AccountAttributes] *)

Lemma lookup_attr (f : attr) : lookup attrs attr_name (attr_name f) = Some f.
Proof. destruct f; reflexivity. Qed.

Lemma attr_set_get (f : attr) (a : AccountAttributes) : attr_set f (attr_get f a) a = a.
Proof. destruct f, a; reflexivity. Qed.

Lemma attr_get_set_other (f g : attr) (x : go (attr_kind f)) (a : AccountAttributes) :
  f <> g -> attr_get g (attr_set f x a) = attr_get g a.
Proof. intros H. destruct f, g, a; try reflexivity; congruence. Qed.

Lemma decode_attrs_app (l1 l2 : list (string * value)) (a : AccountAttributes) :
  decode_attrs (l1 ++ l2) a
  = match decode_attrs l1 a with
    | inl e => inl e
    | inr a' => decode_attrs l2 a'
    end.
Proof.
  revert a. induction l1 as [|[key v] l1 IH]; intros a; [reflexivity|].
  cbn [app decode_attrs].
  destruct (lookup attrs attr_name key) as [f|]; [|apply IH].
  destruct (decode_kind (attr_kind f) (attr_name f) v (attr_get f a)); [reflexivity | apply IH].
Qed.

Section Tree.

Variable omitempty : string -> bool.

Lemma decode_encode_attr (a cur : AccountAttributes) (f : attr) :
  faithful (attr_kind f) (attr_get f a) = true ->
  kept (omitempty (attr_name f)) (attr_kind f) (attr_get f a) = true ->
  attr_get f cur = zero (attr_kind f) ->
  decode_attrs (encode_attr omitempty a f) cur = inr (attr_set f (attr_get f a) cur).
Proof.
  intros Hf Hk Hcur. unfold encode_attr, member.
  destruct (omitempty (attr_name f)) eqn:Ho; cbn [andb].
  - destruct (isEmptyValue (attr_kind f) (attr_get f a)) eqn:He.
    + cbn [decode_attrs].
      rewrite (empty_is_zero _ _ He Hk), <- Hcur, attr_set_get. reflexivity.
    + cbn [decode_attrs]. rewrite lookup_attr, decode_encode_kind by assumption.
      reflexivity.
  - cbn [decode_attrs]. rewrite lookup_attr, decode_encode_kind by assumption.
    reflexivity.
Qed.

Lemma decode_encode_attrs_from (a : AccountAttributes) (fs : list attr) :
  List.NoDup fs ->
  forall cur : AccountAttributes,
    (forall f, In f fs ->
               faithful (attr_kind f) (attr_get f a) = true
               /\ kept (omitempty (attr_name f)) (attr_kind f) (attr_get f a) = true
               /\ attr_get f cur = zero (attr_kind f)) ->
    decode_attrs (List.flat_map (encode_attr omitempty a) fs) cur = inr (merge a fs cur).
Proof.
  induction 1 as [|f fs Hnotin Hnodup IH]; intros cur H; [reflexivity|].
  cbn [List.flat_map]. rewrite decode_attrs_app.
  destruct (H f (or_introl eq_refl)) as (Hf & Hk & Hcur).
  rewrite decode_encode_attr by assumption.
  unfold merge. cbn [fold_left]. apply IH.
  intros g Hg. destruct (H g (or_intror Hg)) as (Hgf & Hgk & Hgcur).
  repeat split; try assumption.
  rewrite attr_get_set_other; [assumption|].
  intros ->. now apply Hnotin.
Qed.

Lemma NoDup_attrs : List.NoDup attrs.
Proof.
  unfold attrs.
  repeat (constructor; [simpl; intuition discriminate|]). constructor.
Qed.

Lemma merge_all (a : AccountAttributes) : merge a attrs zero_AccountAttributes = a.
Proof. destruct a. reflexivity. Qed.

Lemma decode_encode_attrs (a : AccountAttributes) :
  faithful_attrs omitempty a = true ->
  decode_attrs (encode_attrs omitempty a) zero_AccountAttributes = inr a.
Proof.
  intros H. unfold encode_attrs.
  rewrite (decode_encode_attrs_from a attrs NoDup_attrs).
  - now rewrite merge_all.
  - intros f Hin. unfold faithful_attrs in H. rewrite forallb_forall in H.
    specialize (H f Hin). apply andb_true_iff in H. destruct H as [H1 H2].
    repeat split; try assumption. destruct f; reflexivity.
Qed.

Lemma decode_data_app (l1 l2 : list (string * value)) (d : AccountData) :
  decode_data (l1 ++ l2) d
  = match decode_data l1 d with
    | inl e => inl e
    | inr d' => decode_data l2 d'
    end.
Proof.
  revert d. induction l1 as [|[key v] l1 IH]; intros d; [reflexivity|].
  cbn [app decode_data].
  destruct (lookup data_fields data_name key) as [f|]; [|apply IH].
  destruct (decode_data_field f v d); [reflexivity | apply IH].
Qed.

Lemma decode_member_string (key : string) (f : data_field) (s : string)
    (cur next : AccountData) :
  lookup data_fields data_name key = Some f ->
  decode_data_field f (JString s) cur = inr next ->
  (s = EmptyString -> cur = next) ->
  decode_data (member omitempty key (isEmptyValue KString s) (encode_kind KString s)) cur
  = inr next.
Proof.
  intros Hl Hd He. unfold member.
  destruct (omitempty key && isEmptyValue KString s) eqn:E.
  - apply andb_true_iff in E. destruct E as [_ E].
    destruct s; [|discriminate E]. cbn [decode_data]. now rewrite He.
  - cbn [decode_data encode_kind]. now rewrite Hl, Hd.
Qed.

Lemma decode_member_attributes (p : option AccountAttributes) (i o t : string)
    (v : option Z) :
  match p with Some a => faithful_attrs omitempty a = true | None => True end ->
  decode_data
    (member omitempty "attributes" (match p with None => true | _ => false end)
       (match p with
        | Some a => JObject (encode_attrs omitempty a)
        | None => JNull
        end))
    (mkAccountData None i o t v)
  = inr (mkAccountData p i o t v).
Proof.
  intros H. unfold member. destruct p as [a|].
  - rewrite andb_false_r. cbn [decode_data].
    change (lookup data_fields data_name "attributes") with (Some d_attributes).
    cbn [decode_data_field decode_ptr default].
    now rewrite decode_encode_attrs.
  - destruct (omitempty "attributes"); reflexivity.
Qed.

Lemma decode_member_version (a : option AccountAttributes) (i o t : string)
    (v : option Z) :
  faithful KPtrInt64 v = true ->
  decode_data
    (member omitempty "version" (isEmptyValue KPtrInt64 v) (encode_kind KPtrInt64 v))
    (mkAccountData a i o t None)
  = inr (mkAccountData a i o t v).
Proof.
  intros H. unfold member.
  destruct (omitempty "version" && isEmptyValue KPtrInt64 v) eqn:E.
  - apply andb_true_iff in E. destruct E as [_ E]. now destruct v.
  - cbn [decode_data].
    change (lookup data_fields data_name "version") with (Some d_version).
    cbn [decode_data_field]. now rewrite decode_encode_kind.
Qed.

Lemma decode_encode_data (d : AccountData) :
  faithful_data omitempty d = true ->
  decode_data (encode_data omitempty d) zero_AccountData = inr d.
Proof.
  destruct d as [p i o t v]. unfold faithful_data, encode_data, zero_AccountData.
  cbn [Attributes ID OrganisationID Type_ Version].
  intros H. repeat (apply andb_true_iff in H; destruct H as [H ?]).
  rewrite decode_data_app, decode_member_attributes by (destruct p; auto).
  rewrite decode_data_app,
    (decode_member_string "id" d_id i _ (mkAccountData p i "" "" None));
    [|reflexivity|reflexivity|now intros ->].
  rewrite decode_data_app,
    (decode_member_string "organisation_id" d_organisation_id o _
       (mkAccountData p i o "" None));
    [|reflexivity|reflexivity|now intros ->].
  rewrite decode_data_app,
    (decode_member_string "type" d_type t _ (mkAccountData p i o t None));
    [|reflexivity|reflexivity|now intros ->].
  now apply decode_member_version.
Qed.

Lemma encode_envelope_some (d : AccountData) :
  encode_envelope omitempty {| Data := Some d |}
  = JObject [("data"%string, JObject (encode_data omitempty d))].
Proof. unfold encode_envelope, member. cbn [Data]. now rewrite andb_false_r. Qed.

Lemma decode_encode_envelope (d : AccountData) :
  faithful_data omitempty d = true ->
  decode_ptr "" zero_Envelope decode_envelope
    (encode_envelope omitempty {| Data := Some d |}) None
  = inr (Some {| Data := Some d |}).
Proof.
  intros H. rewrite encode_envelope_some.
  cbn [decode_ptr default decode_envelope].
  change (lookup ["data"%string] (fun n => n) "data") with (Some "data"%string).
  cbn [zero_Envelope Data decode_ptr default].
  now rewrite decode_encode_data.
Qed.

End Tree.

(** ** What [json.Marshal] writes is printable and shallow *)

Lemma printable_encode_kind (k : kind) (x : go k) :
  faithful k x = true -> printable (encode_kind k x) /\ height (encode_kind k x) <= 1.
Proof.
  destruct k; simpl; intros H.
  - split; [assumption | lia].
  - destruct x; simpl; (split; [assumption || exact I | lia]).
  - destruct x; simpl; (split; [exact I | lia]).
  - destruct x as [z|]; simpl; (split; [eauto | lia]).
  - destruct x as [l|]; [|simpl; split; [exact I | lia]].
    change (printable (JArray (List.map JString l))
            /\ height (JArray (List.map JString l)) <= 1).
    rewrite printable_JArray, height_JArray. split.
    + induction l as [|s l IH]; simpl in *; constructor.
      * apply andb_true_iff in H. apply H.
      * apply IH. apply andb_true_iff in H. apply H.
    + assert (E : elems_height (List.map JString l) = 0).
      { clear. induction l as [|s l IH]; [reflexivity|].
        cbn [List.map elems_height fold_right]. fold (elems_height (List.map JString l)).
        rewrite IH. reflexivity. }
      lia.
Qed.

Lemma valid_attr_name (f : attr) : utf8.ValidString (attr_name f) = true.
Proof. destruct f; reflexivity. Qed.

Lemma members_height_app (l1 l2 : list (string * value)) :
  members_height (l1 ++ l2) = Z.max (members_height l1) (members_height l2).
Proof.
  induction l1 as [|m l1 IH]; cbn [app members_height fold_right].
  - pose proof (members_height_nonneg l2). fold (members_height l2). lia.
  - fold (members_height (l1 ++ l2)) (members_height l1). rewrite IH. lia.
Qed.

Lemma members_height_bound (ms : list (string * value)) (h : Z) :
  0 <= h -> Forall (fun m => height (snd m) <= h) ms -> members_height ms <= h.
Proof.
  intros Hh. induction 1 as [|m ms Hm _ IH]; cbn [members_height fold_right]; [lia|].
  fold (members_height ms). lia.
Qed.

Section Written.

Variable omitempty : string -> bool.

Lemma member_Forall (P : string * value -> Prop) (key : string) (empty : bool) (v : value) :
  P (key, v) -> Forall P (member omitempty key empty v).
Proof.
  intros H. unfold member. destruct (omitempty key && empty); constructor; auto.
Qed.

Lemma encode_attrs_ok (a : AccountAttributes) :
  faithful_attrs omitempty a = true ->
  Forall (fun m => utf8.ValidString (fst m) = true
                   /\ printable (snd m) /\ height (snd m) <= 1)
         (encode_attrs omitempty a).
Proof.
  unfold faithful_attrs, encode_attrs. rewrite forallb_forall.
  induction attrs as [|f fs IH]; intros H; [constructor|].
  cbn [List.flat_map]. apply List.Forall_app. split.
  - apply member_Forall. cbn [fst snd].
    specialize (H f (or_introl eq_refl)). apply andb_true_iff in H. destruct H as [H _].
    destruct (printable_encode_kind _ _ H). auto using valid_attr_name.
  - apply IH. intros g Hg. apply H. now right.
Qed.

Lemma encode_attrs_printable (a : AccountAttributes) :
  faithful_attrs omitempty a = true ->
  printable (JObject (encode_attrs omitempty a))
  /\ height (JObject (encode_attrs omitempty a)) <= 2.
Proof.
  intros H. pose proof (encode_attrs_ok a H) as Hok.
  rewrite printable_JObject, height_JObject. split.
  - eapply List.Forall_impl; [|exact Hok]. cbv beta. tauto.
  - assert (members_height (encode_attrs omitempty a) <= 1); [|lia].
    apply members_height_bound; [lia|].
    eapply List.Forall_impl; [|exact Hok]. cbv beta. tauto.
Qed.

Lemma kind_member_ok (key : string) (k : kind) (x : go k) :
  utf8.ValidString key = true -> faithful k x = true ->
  member_ok (key, encode_kind k x).
Proof.
  intros Hk Hx. destruct (printable_encode_kind k x Hx) as [Hp Hh].
  unfold member_ok. cbn [fst snd]. repeat split; [assumption | assumption | lia].
Qed.

Lemma encode_data_ok (d : AccountData) :
  faithful_data omitempty d = true ->
  Forall member_ok (encode_data omitempty d).
Proof.
  destruct d as [p i o t v]. unfold faithful_data, encode_data.
  cbn [Attributes ID OrganisationID Type_ Version].
  intros H. repeat (apply andb_true_iff in H; destruct H as [H ?]).
  repeat (apply List.Forall_app; split); apply member_Forall;
    try (apply kind_member_ok; [reflexivity | assumption]).
  unfold member_ok. cbn [fst snd]. split; [reflexivity|].
  destruct p as [a|]; [now apply encode_attrs_printable|].
  simpl. split; [exact I | lia].
Qed.

Lemma encode_envelope_printable (d : AccountData) :
  faithful_data omitempty d = true ->
  printable (encode_envelope omitempty {| Data := Some d |})
  /\ height (encode_envelope omitempty {| Data := Some d |}) <= 10000.
Proof.
  intros H. pose proof (encode_data_ok d H) as Hok.
  rewrite encode_envelope_some.
  assert (Hp : printable (JObject (encode_data omitempty d))).
  { rewrite printable_JObject. eapply List.Forall_impl; [|exact Hok].
    unfold member_ok. cbv beta. tauto. }
  assert (Hh : members_height (encode_data omitempty d) <= 2).
  { apply members_height_bound; [lia|].
    eapply List.Forall_impl; [|exact Hok]. unfold member_ok. cbv beta. tauto. }
  split.
  - change (utf8.ValidString "data" = true
            /\ printable (JObject (encode_data omitempty d)) /\ True).
    split; [reflexivity | split; [exact Hp | exact I]].
  - rewrite height_JObject. cbn [members_height fold_right snd].
    rewrite height_JObject. lia.
Qed.

(** [json.Unmarshal] gives back what [json.Marshal] was given. *)
Lemma Unmarshal_Marshal (d : AccountData) :
  faithful_data omitempty d = true ->
  Unmarshal (fst (Marshal omitempty {| Data := Some d |}))
  = inr (Some {| Data := Some d |}).
Proof.
  intros H. unfold Unmarshal, Marshal. cbn [fst].
  destruct (encode_envelope_printable d H) as [Hp Hh].
  rewrite parse_render_document by assumption.
  now apply decode_encode_envelope.
Qed.

End Written.

End RoundTrip.

(** ** The round trip of [Create] *)

(** C9, for the resources the wire format can carry.  Let [d] be an
    account whose strings (identifier, organisation, type, every text
    attribute, every element of a list) are well-formed UTF-8, whose
    version fits [int64], and none of whose lists is empty without being
    nil in a field that carries [omitempty].  Then the response-envelope
    deserializer, on the bytes [json.Marshal] writes for the request
    envelope [{data: d}], returns an envelope whose data is [d] itself and
    no error; and [Create d] against a server that echoes the request body
    with status 201 returns [d] and no error.  Fields that were absent
    (nil) in [d] are absent in the result, since the result is [d]. *)
Theorem create_round_trip (omitempty : string -> bool) (d : AccountData) :
  faithful_data omitempty d = true ->
  deserializeToResponseEnvelope (Some (fst (codec.Marshal omitempty {| Data := Some d |})))
  = ret (Some {| Data := Some d |}, None)
  /\ result (Create (echo_client omitempty) (Some d)) = Returned (Some d, None).
Proof.
  intros H. pose proof (Unmarshal_Marshal omitempty d H) as E.
  split.
  - unfold deserializeToResponseEnvelope. now rewrite E.
  - unfold Create, echo_client, init, readPayload, deserializeToResponseEnvelope,
      accountDataOrError, call, defer_Close, deref, bind, emit, ret, result, default.
    cbn [serialize doHttpPost readInput client client_Post echo host snd fst
         resp_StatusCode RespBody io_ReadAll body_data body_err codec.Marshal].
    change (fst (codec.Marshal omitempty {| Data := Some d |}))
      with (codec.render (codec.encode_envelope omitempty {| Data := Some d |})) in E.
    rewrite E. reflexivity.
Qed.

(** The round trip at an account with scalar, optional and list
    attributes, every field carrying [omitempty]. *)
Lemma create_round_trip_witness :
  faithful_data (fun _ => true) sample_account = true
  /\ deserializeToResponseEnvelope
       (Some (fst (codec.Marshal (fun _ => true) {| Data := Some sample_account |})))
     = ret (Some {| Data := Some sample_account |}, None)
  /\ result (Create (echo_client (fun _ => true)) (Some sample_account))
     = Returned (Some sample_account, None).
Proof.
  split; [vm_compute; reflexivity|].
  apply (create_round_trip (fun _ => true) sample_account). vm_compute. reflexivity.
Defined.

Lemma stray_byte_text (omitempty : string -> bool) :
  codec.Unmarshal (fst (codec.Marshal omitempty {| Data := Some stray_byte_account |}))
  = inr (Some {| Data := Some replaced_byte_account |}).
Proof.
  unfold codec.Marshal, codec.encode_envelope, codec.encode_data, codec.member,
    stray_byte_account.
  cbn [fst Data Attributes ID OrganisationID Type_ Version].
  destruct (omitempty "data"), (omitempty "attributes"), (omitempty "id"),
    (omitempty "organisation_id"), (omitempty "type"), (omitempty "version");
    vm_compute; reflexivity.
Qed.

(** C9 as the specification states it fails: the account whose identifier
    is the single byte 255 is a Resource, [json.Marshal] writes its
    identifier as the escape of U+FFFD, and what the deserializer reads
    from those bytes, and what [Create] returns when the server echoes them,
    is an account whose identifier is the three bytes of U+FFFD: not the
    original.  This holds whatever fields carry [omitempty]. *)
Lemma round_trip_replaces_invalid_utf8 :
  (forall omitempty : string -> bool,
      deserializeToResponseEnvelope
        (Some (fst (codec.Marshal omitempty {| Data := Some stray_byte_account |})))
      = ret (Some {| Data := Some replaced_byte_account |}, None)
      /\ result (Create (echo_client omitempty) (Some stray_byte_account))
         = Returned (Some replaced_byte_account, None))
  /\ stray_byte_account <> replaced_byte_account.
Proof.
  split; [|discriminate].
  intros omitempty. pose proof (stray_byte_text omitempty) as E. split.
  - unfold deserializeToResponseEnvelope. now rewrite E.
  - unfold Create, echo_client, init, readPayload, deserializeToResponseEnvelope,
      accountDataOrError, call, defer_Close, deref, bind, emit, ret, result, default.
    cbn [serialize doHttpPost readInput client client_Post echo host snd fst
         resp_StatusCode RespBody io_ReadAll body_data body_err codec.Marshal].
    change (fst (codec.Marshal omitempty {| Data := Some stray_byte_account |}))
      with (codec.render (codec.encode_envelope omitempty
                            {| Data := Some stray_byte_account |})) in E.
    rewrite E. reflexivity.
Qed.

(** Under [omitempty] a list that is empty but not nil is not written, and
    comes back nil. *)
Lemma omitted_empty_list_comes_back_nil :
  result (Create (echo_client (fun _ => true)) (Some empty_names_account))
  = Returned (Some (mkAccountData (Some zero_AccountAttributes) "" "" "" None), None).
Proof. vm_compute. reflexivity. Qed.

(** ** The operations *)

#[local] Arguments Z.eqb : simpl never.
#[local] Arguments fmt_d : simpl never.
#[local] Arguments isValidUUID : simpl never.
#[local] Arguments HasPrefix : simpl never.
#[local] Arguments Header_Get : simpl never.
#[local] Arguments codec.Unmarshal : simpl never.

Lemma fetch_url_eq hac id :
  host hac +:+ "/" +:+ servicePath +:+ "/" +:+ id = fetch_url hac id.
Proof.
  unfold fetch_url. f_equal.
Qed.

Lemma create_url_eq hac : host hac +:+ "/" +:+ servicePath = create_url hac.
Proof.
  unfold create_url. f_equal.
Qed.

Lemma delete_url_eq hac id version :
  host hac +:+ "/" +:+ servicePath +:+ "/" +:+ id +:+ "?version=" +:+ fmt_d version
  = delete_url hac id version.
Proof.
  unfold delete_url. f_equal.
Qed.

(** ** Identifier validation *)

(** [uuid.Parse] accepts more than the canonical form: of a 38-byte
    string only the middle 36 bytes are examined, and 32 hexadecimal digits
    without dashes are an identifier too.  On such strings the operations
    go on to the network. *)
Lemma isValidUUID_lenient :
  isValidUUID ("{" +:+ Fixture.some_id +:+ "}") = true
  /\ isValidUUID ("X" +:+ Fixture.some_id +:+ "Y") = true
  /\ isValidUUID "0d209d7fd07a4542947f5885fddddae2" = true.
Proof. repeat split; vm_compute; reflexivity. Qed.

(** ** Running an operation *)

Ltac go_unfold :=
  unfold Fetch, Create, Delete, readPayload, deserializeToResponseEnvelope,
    accountDataOrError, call, deref, defer_Close, bind, emit, ret, panic,
    result, trace, StatusOK, StatusCreated, StatusNoContent.

(** Unfold the operation, then feed it the facts at hand about the
    primitives, one call after the other. *)
Ltac go_step :=
  match goal with
  | H : ?x = _ |- context [?x] => rewrite H; simpl
  end.

Ltac go_run := go_unfold; simpl; repeat go_step.

(** ** Body-read failures (C3) *)

(** C3.  For [Fetch] and for [Create]: whenever the transport has handed
    back a response (and no error) and reading its body fails with [e],
    the operation returns a nil resource and the error "Error processing
    response body" with cause [e], status code 0 and no payload.  The
    response is arbitrary: its status code plays no part, the body is read
    before the status is looked at. *)
Theorem body_read_failure_first :
  forall (hac : httpAccountsClientImpl) (read : ReadInputStream) (resp : Response)
         (data : string) (e : error),
    readInput hac = Some read ->
    read (RespBody resp) = (data, Some e) ->
    (forall (id : string) (get : HttpGet),
        isValidUUID id = true ->
        doHttpGet hac = Some get ->
        get (fetch_url hac id) = (Some resp, None) ->
        result (Fetch hac id)
        = Returned (None, Some {| Cause := Some e;
                                  Message := "Error processing response body";
                                  StatusCode := 0;
                                  ResponsePayload := None |}))
    /\ (forall (account : option AccountData) (ser : Serialize) (post : HttpPost)
               (requestData : string),
           serialize hac = Some ser ->
           ser {| Data := account |} = (requestData, None) ->
           doHttpPost hac = Some post ->
           post (create_url hac) jsonContentType requestData = (Some resp, None) ->
           result (Create hac account)
           = Returned (None, Some {| Cause := Some e;
                                     Message := "Error processing response body";
                                     StatusCode := 0;
                                     ResponsePayload := None |})).
Proof.
  intros hac read resp data e Hread Hfail. split.
  - intros id get Hid Hget Hresp.
    go_unfold. rewrite Hid, fetch_url_eq, Hget. simpl. rewrite Hresp. simpl.
    rewrite Hread. simpl. rewrite Hfail. reflexivity.
  - intros account ser post requestData Hser Hdata Hpost Hresp.
    go_unfold. rewrite Hser. simpl. rewrite Hdata. simpl.
    rewrite create_url_eq, Hpost. simpl. rewrite Hresp. simpl.
    rewrite Hread. simpl. rewrite Hfail. reflexivity.
Qed.

Lemma body_read_failure_first_witness :
  result (Fetch (Fixture.broken_reader_client (Fixture.server 404 ∅ "")) Fixture.some_id)
  = Returned (None, Some {| Cause := Some Fixture.read_error;
                            Message := "Error processing response body";
                            StatusCode := 0;
                            ResponsePayload := None |})
  /\ result (Create (Fixture.broken_reader_client (Fixture.server 201 ∅ "{}"))
                    (Some zero_AccountData))
     = Returned (None, Some {| Cause := Some Fixture.read_error;
                               Message := "Error processing response body";
                               StatusCode := 0;
                               ResponsePayload := None |}).
Proof.
  split.
  - apply (proj1 (body_read_failure_first
                    (Fixture.broken_reader_client (Fixture.server 404 ∅ ""))
                    Fixture.failing_reader
                    (mkResponse 404 ∅ (mkBody "" None)) "" Fixture.read_error
                    eq_refl eq_refl)
                 Fixture.some_id (fun _ => (Some (mkResponse 404 ∅ (mkBody "" None)), None)));
      reflexivity.
  - apply (proj2 (body_read_failure_first
                    (Fixture.broken_reader_client (Fixture.server 201 ∅ "{}"))
                    Fixture.failing_reader
                    (mkResponse 201 ∅ (mkBody "{}" None)) "" Fixture.read_error
                    eq_refl eq_refl)
                 (Some zero_AccountData) (codec.Marshal (fun _ => true))
                 (fun _ _ _ => (Some (mkResponse 201 ∅ (mkBody "{}" None)), None))
                 Fixture.empty_data_body);
      reflexivity.
Defined.

(** ** Unexpected status codes (C4) *)

Lemma fmt_d_200 : fmt_d StatusOK = "200"%string.
Proof. reflexivity. Qed.

Lemma fmt_d_201 : fmt_d StatusCreated = "201"%string.
Proof. reflexivity. Qed.

Lemma fmt_d_204 : fmt_d StatusNoContent = "204"%string.
Proof. reflexivity. Qed.

Lemma unexpectedStatusCode_message expected actual operation payload :
  unexpectedStatusCode expected actual operation payload
  = {| Cause := None;
       Message := "Unexpected response code returned for " +:+ operation
                  +:+ " operation, expected " +:+ fmt_d expected
                  +:+ ", got " +:+ fmt_d actual;
       StatusCode := actual;
       ResponsePayload := payload |}.
Proof. reflexivity. Qed.

Lemma status_differs (a b : Z) : a <> b -> negb (a =? b) = true.
Proof. intros H. apply negb_true_iff, Z.eqb_neq, H. Qed.

Lemma status_same (a b : Z) : a = b -> negb (a =? b) = false.
Proof. intros H. apply negb_false_iff, Z.eqb_eq, H. Qed.

(** C4.  For every response whose status differs from the code the
    operation expects (200 for [Fetch], 201 for [Create], 204 for [Delete])
    and whose body was read, the operation returns an error whose
    [StatusCode] is the status received, whose message is "Unexpected
    response code returned for Op operation, expected E, got A" (Op is Get,
    Post, Delete; E the expected code; A the status in decimal), whose
    cause is nil and whose [ResponsePayload] is a non-nil pointer to the
    bytes read, empty or not.  In particular [Fetch] against a server that
    answers 400 with an empty body returns status 400, the message with
    "expected 200, got 400" and the empty payload. *)
Theorem unexpected_status_reported :
  forall (hac : httpAccountsClientImpl) (read : ReadInputStream) (resp : Response)
         (data : string),
    readInput hac = Some read ->
    read (RespBody resp) = (data, None) ->
    (forall (id : string) (get : HttpGet),
        isValidUUID id = true ->
        doHttpGet hac = Some get ->
        get (fetch_url hac id) = (Some resp, None) ->
        resp_StatusCode resp <> 200 ->
        result (Fetch hac id)
        = Returned (None, Some {| Cause := None;
                                  Message := "Unexpected response code returned for Get operation, expected 200, got "
                                             +:+ fmt_d (resp_StatusCode resp);
                                  StatusCode := resp_StatusCode resp;
                                  ResponsePayload := Some data |}))
    /\ (forall (account : option AccountData) (ser : Serialize) (post : HttpPost)
               (requestData : string),
           serialize hac = Some ser ->
           ser {| Data := account |} = (requestData, None) ->
           doHttpPost hac = Some post ->
           post (create_url hac) jsonContentType requestData = (Some resp, None) ->
           resp_StatusCode resp <> 201 ->
           result (Create hac account)
           = Returned (None, Some {| Cause := None;
                                     Message := "Unexpected response code returned for Post operation, expected 201, got "
                                                +:+ fmt_d (resp_StatusCode resp);
                                     StatusCode := resp_StatusCode resp;
                                     ResponsePayload := Some data |}))
    /\ (forall (id : string) (version : Z) (mk : NewRequest) (exec : DoRequest)
               (req : option Request),
           isValidUUID id = true ->
           createNewRequest hac = Some mk ->
           mk MethodDelete (delete_url hac id version) None = (req, None) ->
           doRequest hac = Some exec ->
           exec req = (Some resp, None) ->
           resp_StatusCode resp <> 204 ->
           result (Delete hac id version)
           = Returned (Some {| Cause := None;
                               Message := "Unexpected response code returned for Delete operation, expected 204, got "
                                          +:+ fmt_d (resp_StatusCode resp);
                               StatusCode := resp_StatusCode resp;
                               ResponsePayload := Some data |}))
    /\ result (Fetch (Fixture.client_of (Fixture.server 400 ∅ "")) Fixture.some_id)
       = Returned (None, Some {| Cause := None;
                                 Message := "Unexpected response code returned for Get operation, expected 200, got 400";
                                 StatusCode := 400;
                                 ResponsePayload := Some ""%string |}).
Proof.
  intros hac read resp data Hread Hok. repeat split.
  - intros id get Hid Hget Hresp Hstatus.
    go_unfold. rewrite Hid, fetch_url_eq, Hget. simpl. rewrite Hresp. simpl.
    rewrite Hread. simpl. rewrite Hok. simpl.
    rewrite (status_differs _ _ Hstatus). reflexivity.
  - intros account ser post requestData Hser Hdata Hpost Hresp Hstatus.
    go_unfold. rewrite Hser. simpl. rewrite Hdata. simpl.
    rewrite create_url_eq, Hpost. simpl. rewrite Hresp. simpl.
    rewrite Hread. simpl. rewrite Hok. simpl.
    rewrite (status_differs _ _ Hstatus). reflexivity.
  - intros id version mk exec req Hid Hmk Hreq Hexec Hresp Hstatus.
    go_unfold. rewrite Hid, delete_url_eq, Hmk. simpl. rewrite Hreq. simpl.
    rewrite Hexec. simpl. rewrite Hresp. simpl.
    rewrite (status_differs _ _ Hstatus). simpl.
    rewrite Hread. simpl. rewrite Hok. reflexivity.
Qed.

Lemma unexpected_status_reported_witness :
  result (Fetch (Fixture.client_of (Fixture.server 404 ∅ "gone")) Fixture.some_id)
  = Returned (None, Some {| Cause := None;
                            Message := "Unexpected response code returned for Get operation, expected 200, got 404";
                            StatusCode := 404;
                            ResponsePayload := Some "gone"%string |})
  /\ result (Create (Fixture.client_of (Fixture.server 404 ∅ "gone")) None)
     = Returned (None, Some {| Cause := None;
                               Message := "Unexpected response code returned for Post operation, expected 201, got 404";
                               StatusCode := 404;
                               ResponsePayload := Some "gone"%string |})
  /\ result (Delete (Fixture.client_of (Fixture.server 404 ∅ "gone")) Fixture.some_id 7)
     = Returned (Some {| Cause := None;
                         Message := "Unexpected response code returned for Delete operation, expected 204, got 404";
                         StatusCode := 404;
                         ResponsePayload := Some "gone"%string |}).
Proof.
  pose (net := Fixture.server 404 ∅ "gone").
  pose (resp := mkResponse 404 ∅ (mkBody "gone" None)).
  destruct (unexpected_status_reported (Fixture.client_of net) io_ReadAll resp "gone"
              eq_refl eq_refl) as (HF & HC & HD & _).
  split; [|split].
  - apply (HF Fixture.some_id (client_Get net)); [reflexivity .. | discriminate].
  - apply (HC None (codec.Marshal (fun _ => true)) (client_Post net) "{}");
      [reflexivity .. | discriminate].
  - apply (HD Fixture.some_id 7 Fixture.new_request (client_Do net)
              (Some (mkRequest "DELETE"
                       "http://localhost:8080/v1/organisation/accounts/0d209d7f-d07a-4542-947f-5885fddddae2?version=7")));
      [reflexivity .. | discriminate].
Defined.

(** ** The Content-Type check (C5) *)

(** Case analysis over every branch of an operation. *)
Ltac go_cases :=
  repeat match goal with
         | |- context [match ?x with _ => _ end] => destruct x eqn:?; simpl
         | H : context [match ?x with _ => _ end] |- _ => destruct x eqn:?; simpl in H
         | H : (_, _) = (_, _) |- _ => inversion H; clear H; subst
         | H : Returned _ = Returned _ |- _ => inversion H; clear H; subst
         | H : Some _ = Some _ |- _ => inversion H; clear H; subst
         | H : Panicked = Returned _ |- _ => discriminate H
         | H : Returned _ = Panicked |- _ => discriminate H
         | H : Some _ = None |- _ => discriminate H
         | H : None = Some _ |- _ => discriminate H
         end.

Lemma Create_header_blind (h : gmap string (list string)) (hac : httpAccountsClientImpl)
    (account : option AccountData) :
  Create (with_post_header h hac) account = Create hac account.
Proof.
  unfold Create, with_post_header. simpl.
  destruct (serialize hac) as [ser|]; simpl; [|reflexivity].
  destruct (ser {| Data := account |}) as [requestData [e|]]; simpl; [reflexivity|].
  destruct (doHttpPost hac) as [post|]; simpl; [|reflexivity].
  match goal with
  | |- context [post ?u ?c ?b] => destruct (post u c b) as [[resp|] [e|]]
  end; go_unfold; simpl; reflexivity.
Qed.

Lemma Create_messages (hac : httpAccountsClientImpl) (account : option AccountData)
    (a : option AccountData) (he : HTTPError) :
  result (Create hac account) = Returned (a, Some he) ->
  Message he = "Unable to serialize payload"%string
  \/ Message he = "Error placing a Post Http request"%string
  \/ Message he = "Error processing response body"%string
  \/ (exists status,
         Message he = ("Unexpected response code returned for Post operation, expected 201, got "
                       +:+ fmt_d status)%string)
  \/ Message he = "Error deserializing json"%string
  \/ Message he
     = "Got an empty object after deserialization, json payload was an empty object?"%string.
Proof.
  go_unfold. simpl. intros H. go_cases; simpl; eauto 10.
Qed.

(** C5.  [Fetch] returns the Content-Type error, with the status of the
    response as status code and the body read as payload, whenever the
    status is 200 and the [Content-Type] header of the response does not
    start with "application/json".  [Create] makes no Content-Type check:
    whatever headers the response carries the outcome of [Create] is the
    same, and no error [Create] returns is a Content-Type error. *)
Theorem content_type_checked_by_fetch_only :
  (forall (hac : httpAccountsClientImpl) (id : string) (get : HttpGet)
          (read : ReadInputStream) (resp : Response) (data : string),
      isValidUUID id = true ->
      doHttpGet hac = Some get ->
      get (fetch_url hac id) = (Some resp, None) ->
      readInput hac = Some read ->
      read (RespBody resp) = (data, None) ->
      resp_StatusCode resp = 200 ->
      HasPrefix (Header_Get (Header resp) "Content-Type") "application/json" = false ->
      result (Fetch hac id)
      = Returned (None, Some {| Cause := None;
                                Message := "Unexpected  Content-Type, expecting application/json, got "
                                           +:+ Header_Get (Header resp) "Content-Type";
                                StatusCode := resp_StatusCode resp;
                                ResponsePayload := Some data |}))
  /\ (forall (hac : httpAccountsClientImpl) (account : option AccountData)
             (h : gmap string (list string)),
         Create (with_post_header h hac) account = Create hac account)
  /\ (forall (hac : httpAccountsClientImpl) (account a : option AccountData)
             (he : HTTPError) (cType : string),
         result (Create hac account) = Returned (a, Some he) ->
         Message he <> ("Unexpected  Content-Type, expecting application/json, got "
                        +:+ cType)%string).
Proof.
  split; [|split].
  - intros hac id get read resp data Hid Hget Hresp Hread Hok Hstatus Hct.
    go_unfold. rewrite Hid, fetch_url_eq, Hget. simpl. rewrite Hresp. simpl.
    rewrite Hread. simpl. rewrite Hok. simpl.
    rewrite (status_same _ _ Hstatus). unfold contentType, jsonContentType.
    rewrite Hct. reflexivity.
  - intros hac account h. apply Create_header_blind.
  - intros hac account a he cType H.
    destruct (Create_messages _ _ _ _ H) as [E|[E|[E|[[st E]|[E|E]]]]];
      rewrite E; simpl; discriminate.
Qed.

Lemma content_type_checked_by_fetch_only_witness :
  result (Fetch (Fixture.client_of (Fixture.server 200 Fixture.html_header "<html/>"))
                Fixture.some_id)
  = Returned (None, Some {| Cause := None;
                            Message := "Unexpected  Content-Type, expecting application/json, got text/html";
                            StatusCode := 200;
                            ResponsePayload := Some "<html/>"%string |})
  /\ Message (EmptyPayload "{}")
     <> "Unexpected  Content-Type, expecting application/json, got text/html"%string.
Proof.
  pose (net := Fixture.server 200 Fixture.html_header "<html/>").
  destruct content_type_checked_by_fetch_only as (HF & _ & HC).
  split.
  - apply (HF (Fixture.client_of net) Fixture.some_id (client_Get net) io_ReadAll
              (mkResponse 200 Fixture.html_header (mkBody "<html/>" None)) "<html/>");
      reflexivity.
  - apply (HC (Fixture.client_of (Fixture.server 201 Fixture.html_header "{}"))
              (Some zero_AccountData) None (EmptyPayload "{}") "text/html").
    reflexivity.
Defined.

(** ** Successful deletion (C6) *)

Lemma in_app_single {A : Type} (x y : A) (l : list A) :
  In x (l ++ [y]) -> In x l \/ x = y.
Proof.
  intros H. apply in_app_or in H. destruct H as [H|[H|[]]]; [left | right]; auto.
Qed.

(** C6.  For [Delete]: whenever the request was built, the transport
    answered and the status is 204, the operation returns a nil error and
    its trace holds the construction of the request, its execution and the
    closing of the body, and no call of the body reader.  Conversely a call
    of the body reader appears in the trace of a [Delete] only after a
    response whose status is not 204. *)
Theorem delete_success_reads_no_body :
  (forall (hac : httpAccountsClientImpl) (id : string) (version : Z) (mk : NewRequest)
          (exec : DoRequest) (req : option Request) (resp : Response),
      isValidUUID id = true ->
      createNewRequest hac = Some mk ->
      mk MethodDelete (delete_url hac id version) None = (req, None) ->
      doRequest hac = Some exec ->
      exec req = (Some resp, None) ->
      resp_StatusCode resp = 204 ->
      Delete hac id version
      = ([CallNewRequest "DELETE" (delete_url hac id version); CallDo req;
          CloseBody (RespBody resp)],
         Returned None)
      /\ (forall b, ~ In (CallReadInput b) (trace (Delete hac id version))))
  /\ (forall (hac : httpAccountsClientImpl) (id : string) (version : Z) (b : Body),
         In (CallReadInput b) (trace (Delete hac id version)) ->
         exists (mk : NewRequest) (exec : DoRequest) (req : option Request) (resp : Response),
           createNewRequest hac = Some mk
           /\ mk MethodDelete (delete_url hac id version) None = (req, None)
           /\ doRequest hac = Some exec
           /\ exec req = (Some resp, None)
           /\ resp_StatusCode resp <> 204
           /\ b = RespBody resp).
Proof.
  split.
  - intros hac id version mk exec req resp Hid Hmk Hreq Hexec Hresp Hstatus.
    assert (E : Delete hac id version
                = ([CallNewRequest "DELETE" (delete_url hac id version); CallDo req;
                    CloseBody (RespBody resp)], Returned None)).
    { go_unfold. rewrite Hid, delete_url_eq, Hmk. simpl. rewrite Hreq. simpl.
      rewrite Hexec. simpl. rewrite Hresp. simpl.
      rewrite (status_same _ _ Hstatus). reflexivity. }
    split; [exact E|].
    intros b. rewrite E. simpl. intros [H|[H|[H|[]]]]; discriminate H.
  - intros hac id version b. go_unfold. rewrite delete_url_eq. simpl.
    destruct (isValidUUID id); simpl; [|intros []].
    destruct (createNewRequest hac) as [mk|]; simpl; [|intros []].
    destruct (mk MethodDelete (delete_url hac id version) None) as [req [e|]] eqn:Hreq;
      simpl; [intros [H|[]]; discriminate H|].
    destruct (doRequest hac) as [exec|]; simpl; [|intros [H|[]]; discriminate H].
    destruct (exec req) as [[resp|] [e|]] eqn:Hresp; simpl;
      try (intros [H|[H|[H|[]]]]; discriminate H);
      try (intros [H|[H|[]]]; discriminate H).
    destruct (resp_StatusCode resp =? 204) eqn:Hstatus; simpl;
      [intros [H|[H|[H|[]]]]; discriminate H|].
    apply Z.eqb_neq in Hstatus.
    intros Hin.
    assert (Hb : b = RespBody resp).
    { destruct (readInput hac) as [read|]; simpl in Hin.
      - destruct (read (RespBody resp)) as [data [e|]]; simpl in Hin;
          destruct Hin as [H|[H|[H|[H|[]]]]]; try discriminate H;
          inversion H; reflexivity.
      - destruct Hin as [H|[H|[H|[]]]]; discriminate H. }
    exists mk, exec, req, resp. repeat split; auto.
Qed.

Lemma delete_success_reads_no_body_witness :
  Delete (Fixture.client_of (Fixture.server 204 ∅ "")) Fixture.some_id 3
  = ([CallNewRequest "DELETE"
        "http://localhost:8080/v1/organisation/accounts/0d209d7f-d07a-4542-947f-5885fddddae2?version=3";
      CallDo (Some (mkRequest "DELETE"
        "http://localhost:8080/v1/organisation/accounts/0d209d7f-d07a-4542-947f-5885fddddae2?version=3"));
      CloseBody (mkBody "" None)],
     Returned None)
  /\ (exists resp : Response,
         resp_StatusCode resp <> 204 /\ mkBody "gone" None = RespBody resp).
Proof.
  destruct delete_success_reads_no_body as [Hok Hread].
  split.
  - apply (Hok (Fixture.client_of (Fixture.server 204 ∅ "")) Fixture.some_id 3
               Fixture.new_request (client_Do (Fixture.server 204 ∅ ""))
               (Some (mkRequest "DELETE"
                  "http://localhost:8080/v1/organisation/accounts/0d209d7f-d07a-4542-947f-5885fddddae2?version=3"))
               (mkResponse 204 ∅ (mkBody "" None)));
      reflexivity.
  - destruct (Hread (Fixture.client_of (Fixture.server 404 ∅ "gone")) Fixture.some_id 3
                (mkBody "gone" None))
      as (mk & exec & req & resp & _ & _ & _ & _ & Hstatus & Hb).
    + simpl. right. right. left. reflexivity.
    + exists resp. split; assumption.
Defined.

(** ** Empty payloads (C7) *)






(** ** No validation on create (C10) *)

(** C10.  [Create] does not validate the resource it is given.  Whatever
    the account (a nil pointer, all fields zero, an identifier that is no
    UUID), no error [Create] returns is "id must be a valid uuid".  When
    the serializer fails, [Create] returns the serialization error and the
    trace ends there; when it succeeds the POST is issued with the bytes it
    produced; so an execution of [Create] without a POST ended with the
    serialization error.  With the default serializer the POST is issued
    for every account. *)
Theorem create_validates_nothing :
  (forall (hac : httpAccountsClientImpl) (account a : option AccountData) (he : HTTPError),
      result (Create hac account) = Returned (a, Some he) ->
      Message he <> "id must be a valid uuid"%string)
  /\ (forall (hac : httpAccountsClientImpl) (account : option AccountData) (ser : Serialize)
             (requestData : string) (e : error),
         serialize hac = Some ser ->
         ser {| Data := account |} = (requestData, Some e) ->
         Create hac account
         = ([CallSerialize {| Data := account |}],
            Returned (None, Some {| Cause := Some e;
                                    Message := "Unable to serialize payload";
                                    StatusCode := 0;
                                    ResponsePayload := None |})))
  /\ (forall (hac : httpAccountsClientImpl) (account : option AccountData) (ser : Serialize)
             (post : HttpPost) (requestData : string),
         serialize hac = Some ser ->
         ser {| Data := account |} = (requestData, None) ->
         doHttpPost hac = Some post ->
         exists t : list event,
           trace (Create hac account)
           = CallSerialize {| Data := account |}
               :: CallPost (create_url hac) "application/json" requestData :: t)
  /\ (forall (hac : httpAccountsClientImpl) (account : option AccountData) (ser : Serialize)
             (post : HttpPost),
         serialize hac = Some ser ->
         doHttpPost hac = Some post ->
         (forall u c b, ~ In (CallPost u c b) (trace (Create hac account))) ->
         exists (requestData : string) (e : error),
           ser {| Data := account |} = (requestData, Some e)
           /\ result (Create hac account)
              = Returned (None, Some {| Cause := Some e;
                                        Message := "Unable to serialize payload";
                                        StatusCode := 0;
                                        ResponsePayload := None |}))
  /\ (forall (http_NewRequest : NewRequest) (omitempty : string -> bool)
             (raw : httpAccountsClientImpl) (account : option AccountData),
         serialize raw = None ->
         exists t : list event,
           trace (Create (init http_NewRequest omitempty raw) account)
           = CallSerialize {| Data := account |}
               :: CallPost (create_url raw) "application/json"
                    (fst (codec.Marshal omitempty {| Data := account |})) :: t).
Proof.
  assert (Hfail : forall hac account ser requestData e,
             serialize hac = Some ser ->
             ser {| Data := account |} = (requestData, Some e) ->
             Create hac account
             = ([CallSerialize {| Data := account |}],
                Returned (None, Some {| Cause := Some e;
                                        Message := "Unable to serialize payload";
                                        StatusCode := 0;
                                        ResponsePayload := None |}))).
  { intros hac account ser requestData e Hser Hdata.
    go_unfold. rewrite Hser. simpl. rewrite Hdata. reflexivity. }
  assert (Hpost : forall hac account ser post requestData,
             serialize hac = Some ser ->
             ser {| Data := account |} = (requestData, None) ->
             doHttpPost hac = Some post ->
             exists t : list event,
               trace (Create hac account)
               = CallSerialize {| Data := account |}
                   :: CallPost (create_url hac) "application/json" requestData :: t).
  { intros hac account ser post requestData Hser Hdata Hp.
    go_unfold. rewrite Hser. simpl. rewrite Hdata. simpl.
    rewrite create_url_eq, Hp. simpl.
    repeat match goal with
           | |- context [match ?x with _ => _ end] =>
               lazymatch x with
               | context [match _ with _ => _ end] => fail
               | _ => destruct x eqn:?; simpl
               end
           end;
      eexists; reflexivity. }
  split; [|split; [|split; [|split]]].
  - intros hac account a he H.
    destruct (Create_messages _ _ _ _ H) as [E|[E|[E|[[st E]|[E|E]]]]];
      rewrite E; simpl; discriminate.
  - exact Hfail.
  - exact Hpost.
  - intros hac account ser post Hser Hp Hno.
    destruct (ser {| Data := account |}) as [requestData [e|]] eqn:Hdata.
    + exists requestData, e. split; [reflexivity|].
      unfold result. now rewrite (Hfail _ _ _ _ _ Hser Hdata).
    + destruct (Hpost _ _ _ _ _ Hser Hdata Hp) as [t Ht].
      exfalso. apply (Hno (create_url hac) "application/json"%string requestData).
      rewrite Ht. right. left. reflexivity.
  - intros http_NewRequest omitempty raw account Hraw.
    apply (Hpost (init http_NewRequest omitempty raw) account
                 (codec.Marshal omitempty)
                 (default (client_Post (client raw)) (doHttpPost raw))).
    + simpl. now rewrite Hraw.
    + reflexivity.
    + reflexivity.
Qed.

Lemma create_validates_nothing_witness :
  Message (EmptyPayload "{}") <> "id must be a valid uuid"%string
  /\ Create (Fixture.broken_serializer_client (Fixture.server 201 ∅ "{}"))
            (Some (mkAccountData None "not-a-uuid" "" "" None))
     = ([CallSerialize {| Data := Some (mkAccountData None "not-a-uuid" "" "" None) |}],
        Returned (None, Some {| Cause := Some Fixture.serialize_error;
                                Message := "Unable to serialize payload";
                                StatusCode := 0;
                                ResponsePayload := None |}))
  /\ (exists t : list event,
         trace (Create (Fixture.client_of (Fixture.server 201 ∅ "{}"))
                       (Some (mkAccountData None "not-a-uuid" "" "" None)))
         = CallSerialize {| Data := Some (mkAccountData None "not-a-uuid" "" "" None) |}
             :: CallPost "http://localhost:8080/v1/organisation/accounts" "application/json"
                  Fixture.not_a_uuid_request :: t).
Proof.
  destruct create_validates_nothing as (Hmsg & Hfail & Hpost & _ & _).
  split; [|split].
  - apply (Hmsg (Fixture.client_of (Fixture.server 201 ∅ "{}"))
                (Some zero_AccountData) None (EmptyPayload "{}")).
    reflexivity.
  - apply (Hfail (Fixture.broken_serializer_client (Fixture.server 201 ∅ "{}"))
                 (Some (mkAccountData None "not-a-uuid" "" "" None))
                 Fixture.failing_serializer ""%string Fixture.serialize_error);
      reflexivity.
  - apply (Hpost (Fixture.client_of (Fixture.server 201 ∅ "{}"))
                 (Some (mkAccountData None "not-a-uuid" "" "" None))
                 (codec.Marshal (fun _ => true))
                 (client_Post (Fixture.server 201 ∅ "{}"))
                 Fixture.not_a_uuid_request);
      reflexivity.
Defined.

(** ** The either-or contract (C1) *)

Lemma Fetch_either_or (hac : httpAccountsClientImpl) (id : string)
    (a : option AccountData) (e : option HTTPError) :
  result (Fetch hac id) = Returned (a, e) -> exactly_one a e.
Proof.
  unfold exactly_one. go_unfold. simpl. intros H.
  go_cases; simpl; try (left; split; [reflexivity | discriminate]);
    right; split; [discriminate | reflexivity].
Qed.

Lemma Create_either_or (hac : httpAccountsClientImpl) (account : option AccountData)
    (a : option AccountData) (e : option HTTPError) :
  result (Create hac account) = Returned (a, e) -> exactly_one a e.
Proof.
  unfold exactly_one. go_unfold. simpl. intros H.
  go_cases; simpl; try (left; split; [reflexivity | discriminate]);
    right; split; [discriminate | reflexivity].
Qed.

(** C1 at the input where the code departs from it.  A server answers
    the expected status (with a JSON content type) and the body [null]:
    [json.Unmarshal] leaves the envelope pointer nil and reports no error,
    [accountDataOrError] reads [Data] through the nil pointer, and the
    operation panics: neither a resource nor an error is returned (the body
    has been read and is closed on the way out). *)
Theorem null_body_returns_nothing :
  codec.Unmarshal "null" = inr None
  /\ Fetch (Fixture.client_of (Fixture.server 200 Fixture.json_header "null")) Fixture.some_id
     = ([CallGet "http://localhost:8080/v1/organisation/accounts/0d209d7f-d07a-4542-947f-5885fddddae2";
         CallReadInput (mkBody "null" None); CloseBody (mkBody "null" None)],
        Panicked)
  /\ Create (Fixture.client_of (Fixture.server 201 Fixture.json_header "null"))
            (Some zero_AccountData)
     = ([CallSerialize {| Data := Some zero_AccountData |};
         CallPost "http://localhost:8080/v1/organisation/accounts" "application/json"
                  Fixture.empty_data_body;
         CallReadInput (mkBody "null" None); CloseBody (mkBody "null" None)],
        Panicked).
Proof. repeat split. Qed.

(** * Further properties of the client and its tests *)

(** ** Transport failures *)

(** X1.  When the transport reports an error, each operation returns its own
    "Error placing ..." error with that error as cause, status code 0 and
    no payload, and the body reader is not called.  [Create] and [Delete]
    have deferred the closing of the body by then: a response handed back
    together with the error is closed.  [Fetch] looks at the error first and
    leaves such a response open. *)
Theorem transport_failure_reported :
  forall (hac : httpAccountsClientImpl) (resp : option Response) (e : error),
    (forall (id : string) (get : HttpGet),
        isValidUUID id = true ->
        doHttpGet hac = Some get ->
        get (fetch_url hac id) = (resp, Some e) ->
        Fetch hac id
        = ([CallGet (fetch_url hac id)],
           Returned (None, Some (TransportFailure "a Get" e))))
    /\ (forall (account : option AccountData) (ser : Serialize) (post : HttpPost)
               (requestData : string),
           serialize hac = Some ser ->
           ser {| Data := account |} = (requestData, None) ->
           doHttpPost hac = Some post ->
           post (create_url hac) jsonContentType requestData = (resp, Some e) ->
           Create hac account
           = ([CallSerialize {| Data := account |};
               CallPost (create_url hac) "application/json" requestData] ++ closing resp,
              Returned (None, Some (TransportFailure "a Post" e))))
    /\ (forall (id : string) (version : Z) (mk : NewRequest) (exec : DoRequest)
               (req : option Request),
           isValidUUID id = true ->
           createNewRequest hac = Some mk ->
           mk "DELETE" (delete_url hac id version) None = (req, None) ->
           doRequest hac = Some exec ->
           exec req = (resp, Some e) ->
           Delete hac id version
           = ([CallNewRequest "DELETE" (delete_url hac id version); CallDo req]
              ++ closing resp,
              Returned (Some (TransportFailure "Delete" e)))).
Proof.
  intros hac resp e. repeat split.
  - intros id get Hid Hget Hresp.
    go_unfold. rewrite Hid, fetch_url_eq, Hget. simpl. rewrite Hresp. reflexivity.
  - intros account ser post requestData Hser Hdata Hpost Hresp.
    go_unfold. rewrite Hser. simpl. rewrite Hdata. simpl.
    rewrite create_url_eq, Hpost. simpl. rewrite Hresp.
    destruct resp; reflexivity.
  - intros id version mk exec req Hid Hmk Hreq Hexec Hresp.
    go_unfold. rewrite Hid, delete_url_eq, Hmk. simpl.
    unfold MethodDelete. rewrite Hreq. simpl. rewrite Hexec. simpl. rewrite Hresp.
    destruct resp; reflexivity.
Qed.

Lemma transport_failure_reported_witness :
  Fetch (Fixture.client_of (Double.refusing (Some Double.stale))) Fixture.some_id
  = ([CallGet (fetch_url (Fixture.client_of (Double.refusing (Some Double.stale)))
                 Fixture.some_id)],
     Returned (None, Some (TransportFailure "a Get" Double.connection_refused)))
  /\ Create (Fixture.client_of (Double.refusing (Some Double.stale))) (Some zero_AccountData)
     = ([CallSerialize {| Data := Some zero_AccountData |};
         CallPost (create_url (Fixture.client_of (Double.refusing (Some Double.stale))))
                  "application/json" Fixture.empty_data_body]
        ++ closing (Some Double.stale),
        Returned (None, Some (TransportFailure "a Post" Double.connection_refused))).
Proof.
  pose (hac := Fixture.client_of (Double.refusing (Some Double.stale))).
  split.
  - apply (proj1 (transport_failure_reported hac (Some Double.stale)
                    Double.connection_refused)
                 Fixture.some_id (client_Get (Double.refusing (Some Double.stale))));
      reflexivity.
  - apply (proj1 (proj2 (transport_failure_reported hac (Some Double.stale)
                           Double.connection_refused))
                 (Some zero_AccountData) (codec.Marshal (fun _ => true))
                 (client_Post (Double.refusing (Some Double.stale)))
                 Fixture.empty_data_body);
      reflexivity.
Defined.

(** ** Failures of [Delete] before and after the request *)

(** X2.  When the request cannot be built, [Delete] returns "Error preparing
    Delete Http request" with the builder's error as cause, and nothing is
    sent: the trace ends with the call of the builder. *)
Theorem delete_request_build_failure :
  forall (hac : httpAccountsClientImpl) (id : string) (version : Z) (mk : NewRequest)
         (req : option Request) (e : error),
    isValidUUID id = true ->
    createNewRequest hac = Some mk ->
    mk "DELETE" (delete_url hac id version) None = (req, Some e) ->
    Delete hac id version
    = ([CallNewRequest "DELETE" (delete_url hac id version)],
       Returned (Some (RequestBuildFailure e))).
Proof.
  intros hac id version mk req e Hid Hmk Hreq.
  go_unfold. rewrite Hid, delete_url_eq, Hmk. simpl.
  unfold MethodDelete. rewrite Hreq. reflexivity.
Qed.

Lemma delete_request_build_failure_witness :
  Delete (Double.no_request_client (Fixture.server 204 ∅ "")) Fixture.some_id 0
  = ([CallNewRequest "DELETE"
        (delete_url (Double.no_request_client (Fixture.server 204 ∅ "")) Fixture.some_id 0)],
     Returned (Some (RequestBuildFailure Double.malformed_request))).
Proof.
  apply (delete_request_build_failure
           (Double.no_request_client (Fixture.server 204 ∅ "")) Fixture.some_id 0
           Double.no_request None Double.malformed_request);
    reflexivity.
Defined.

(** X3.  When the status is not 204 and reading the body fails, [Delete]
    returns the body-read error (cause the reader's error, status code 0,
    no payload) and not the unexpected-status error; the body is closed. *)
Theorem delete_body_read_failure :
  forall (hac : httpAccountsClientImpl) (id : string) (version : Z) (mk : NewRequest)
         (exec : DoRequest) (read : ReadInputStream) (req : option Request)
         (resp : Response) (data : string) (e : error),
    isValidUUID id = true ->
    createNewRequest hac = Some mk ->
    mk "DELETE" (delete_url hac id version) None = (req, None) ->
    doRequest hac = Some exec ->
    exec req = (Some resp, None) ->
    resp_StatusCode resp <> 204 ->
    readInput hac = Some read ->
    read (RespBody resp) = (data, Some e) ->
    Delete hac id version
    = ([CallNewRequest "DELETE" (delete_url hac id version); CallDo req;
        CallReadInput (RespBody resp); CloseBody (RespBody resp)],
       Returned (Some (BodyReadFailure e))).
Proof.
  intros hac id version mk exec read req resp data e Hid Hmk Hreq Hexec Hresp Hst Hread Hfail.
  go_unfold. rewrite Hid, delete_url_eq, Hmk. simpl.
  unfold MethodDelete. rewrite Hreq. simpl. rewrite Hexec. simpl. rewrite Hresp. simpl.
  rewrite (status_differs _ _ Hst). rewrite Hread. simpl. rewrite Hfail. reflexivity.
Qed.

Lemma delete_body_read_failure_witness :
  Delete (Fixture.broken_reader_client (Fixture.server 500 ∅ "")) Fixture.some_id 0
  = ([CallNewRequest "DELETE"
        (delete_url (Fixture.broken_reader_client (Fixture.server 500 ∅ ""))
           Fixture.some_id 0);
      CallDo (Some (mkRequest "DELETE"
                      (delete_url (Fixture.broken_reader_client (Fixture.server 500 ∅ ""))
                         Fixture.some_id 0)));
      CallReadInput (mkBody "" None); CloseBody (mkBody "" None)],
     Returned (Some (BodyReadFailure Fixture.read_error))).
Proof.
  pose (net := Fixture.server 500 ∅ "").
  apply (delete_body_read_failure (Fixture.broken_reader_client net) Fixture.some_id 0
           Fixture.new_request (client_Do net) Fixture.failing_reader
           (Some (mkRequest "DELETE"
                    (delete_url (Fixture.broken_reader_client net) Fixture.some_id 0)))
           (mkResponse 500 ∅ (mkBody "" None)) "" Fixture.read_error);
    (reflexivity || discriminate).
Defined.

(** ** Bodies that are not an envelope *)

(** X4.  For [Fetch] and [Create]: when the status is the expected one (and,
    for [Fetch], the Content-Type is JSON) and [json.Unmarshal] rejects the
    body with [e], the operation returns a nil resource and the error "Error
    deserializing json" with cause [e], status code 0 and the raw body as
    payload. *)
Theorem deserialization_failure_reported :
  forall (hac : httpAccountsClientImpl) (read : ReadInputStream) (resp : Response)
         (data : string) (e : error),
    readInput hac = Some read ->
    read (RespBody resp) = (data, None) ->
    codec.Unmarshal data = inl e ->
    (forall (id : string) (get : HttpGet),
        isValidUUID id = true ->
        doHttpGet hac = Some get ->
        get (fetch_url hac id) = (Some resp, None) ->
        resp_StatusCode resp = 200 ->
        HasPrefix (Header_Get (Header resp) "Content-Type") "application/json" = true ->
        Fetch hac id
        = ([CallGet (fetch_url hac id); CallReadInput (RespBody resp);
            CloseBody (RespBody resp)],
           Returned (None, Some (DeserializationFailure e data))))
    /\ (forall (account : option AccountData) (ser : Serialize) (post : HttpPost)
               (requestData : string),
           serialize hac = Some ser ->
           ser {| Data := account |} = (requestData, None) ->
           doHttpPost hac = Some post ->
           post (create_url hac) jsonContentType requestData = (Some resp, None) ->
           resp_StatusCode resp = 201 ->
           Create hac account
           = ([CallSerialize {| Data := account |};
               CallPost (create_url hac) "application/json" requestData;
               CallReadInput (RespBody resp); CloseBody (RespBody resp)],
              Returned (None, Some (DeserializationFailure e data)))).
Proof.
  intros hac read resp data e Hread Hok Hjson. split.
  - intros id get Hid Hget Hresp Hstatus Hct.
    go_unfold. rewrite Hid, fetch_url_eq, Hget. simpl. rewrite Hresp. simpl.
    rewrite Hread. simpl. rewrite Hok. simpl.
    rewrite (status_same _ _ Hstatus). unfold contentType, jsonContentType.
    rewrite Hct. simpl. rewrite Hjson. reflexivity.
  - intros account ser post requestData Hser Hreq Hpost Hresp Hstatus.
    go_unfold. rewrite Hser. simpl. rewrite Hreq. simpl.
    rewrite create_url_eq, Hpost. simpl. rewrite Hresp. simpl.
    rewrite Hread. simpl. rewrite Hok. simpl.
    rewrite (status_same _ _ Hstatus). simpl. rewrite Hjson. reflexivity.
Qed.

Lemma deserialization_failure_reported_witness :
  Fetch (Fixture.client_of (Fixture.server 200 Fixture.json_header "blah")) Fixture.some_id
  = ([CallGet (fetch_url (Fixture.client_of (Fixture.server 200 Fixture.json_header "blah"))
                 Fixture.some_id);
      CallReadInput (mkBody "blah" None); CloseBody (mkBody "blah" None)],
     Returned (None, Some (DeserializationFailure (json_SyntaxError "invalid JSON input")
                             "blah"))).
Proof.
  pose (net := Fixture.server 200 Fixture.json_header "blah").
  apply (proj1 (deserialization_failure_reported (Fixture.client_of net) io_ReadAll
                  (mkResponse 200 Fixture.json_header (mkBody "blah" None)) "blah"
                  (json_SyntaxError "invalid JSON input") eq_refl eq_refl eq_refl)
               Fixture.some_id (client_Get net)); reflexivity.
Defined.

(** ** When an operation succeeds *)

Lemma negb_eqb_false (a b : Z) : negb (a =? b) = false -> a = b.
Proof. intros H. apply negb_false_iff in H. now apply Z.eqb_eq. Qed.

Lemma negb_eqb_true (a b : Z) : negb (a =? b) = true -> a <> b.
Proof. intros H. apply negb_true_iff in H. now apply Z.eqb_neq. Qed.

Lemma envelope_eta (env : Envelope) : env = {| Data := Data env |}.
Proof. now destruct env. Qed.

(** X5.  [Fetch] returns a resource exactly when the identifier is valid, the
    GET was answered without error, the body was read, the status is 200,
    the Content-Type starts with application/json and the body decodes to
    an envelope with data; the resource is that data, and the error is
    nil. *)
Theorem fetch_returns_resource_iff :
  forall (hac : httpAccountsClientImpl) (id : string) (d : AccountData)
         (e : option HTTPError),
    result (Fetch hac id) = Returned (Some d, e)
    <-> (e = None
         /\ isValidUUID id = true
         /\ exists (get : HttpGet) (read : ReadInputStream) (resp : Response)
                   (data : string),
             doHttpGet hac = Some get
             /\ get (fetch_url hac id) = (Some resp, None)
             /\ readInput hac = Some read
             /\ read (RespBody resp) = (data, None)
             /\ resp_StatusCode resp = 200
             /\ HasPrefix (Header_Get (Header resp) "Content-Type") "application/json"
                = true
             /\ codec.Unmarshal data = inr (Some {| Data := Some d |})).
Proof.
  intros hac id d e. split.
  - go_unfold. rewrite fetch_url_eq. simpl. intros H.
    go_cases.
    apply negb_false_iff in Heqb. apply negb_eqb_false in Heqb0.
    apply negb_false_iff in Heqb1.
    split; [reflexivity|]. split; [assumption|].
    exists h, r0, r, s. rewrite (envelope_eta e0), Heqo4 in Heqs0. auto 10.
  - intros (-> & Hid & get & read & resp & data & Hget & Hresp & Hread & Hok & Hst & Hct & Hjson).
    go_unfold. rewrite Hid, fetch_url_eq, Hget. simpl. rewrite Hresp. simpl.
    rewrite Hread. simpl. rewrite Hok. simpl.
    rewrite (status_same _ _ Hst). unfold contentType, jsonContentType.
    rewrite Hct. simpl. rewrite Hjson. reflexivity.
Qed.

(** X6.  [Create] returns a resource exactly when the envelope was serialized,
    the POST was answered without error, the body was read, the status is
    201 and the body decodes to an envelope with data; the resource is that
    data (the server's, not the one passed in), and the error is nil. *)
Theorem create_returns_resource_iff :
  forall (hac : httpAccountsClientImpl) (account : option AccountData) (d : AccountData)
         (e : option HTTPError),
    result (Create hac account) = Returned (Some d, e)
    <-> (e = None
         /\ exists (ser : Serialize) (post : HttpPost) (read : ReadInputStream)
                   (requestData : string) (resp : Response) (data : string),
             serialize hac = Some ser
             /\ ser {| Data := account |} = (requestData, None)
             /\ doHttpPost hac = Some post
             /\ post (create_url hac) "application/json" requestData = (Some resp, None)
             /\ readInput hac = Some read
             /\ read (RespBody resp) = (data, None)
             /\ resp_StatusCode resp = 201
             /\ codec.Unmarshal data = inr (Some {| Data := Some d |})).
Proof.
  intros hac account d e. split.
  - go_unfold. rewrite create_url_eq. simpl. intros H.
    go_cases.
    apply negb_eqb_false in Heqb.
    split; [reflexivity|].
    match goal with
    | Hs : serialize hac = Some ?ser, Hp : doHttpPost hac = Some ?post,
      Hr : readInput hac = Some ?read, Hd : ?ser _ = (?rd, None),
      Hx : ?post _ _ _ = (Some ?resp, None), Hb : ?read _ = (?data, None),
      Hj : codec.Unmarshal _ = inr (Some ?env), He : Data ?env = Some d |- _ =>
        exists ser, post, read, rd, resp, data;
        rewrite (envelope_eta env), He in Hj; auto 10
    end.
  - intros (-> & ser & post & read & requestData & resp & data & Hser & Hreq & Hpost
            & Hresp & Hread & Hok & Hst & Hjson).
    go_unfold. rewrite Hser. simpl. rewrite Hreq. simpl.
    rewrite create_url_eq, Hpost. simpl. unfold jsonContentType. rewrite Hresp. simpl.
    rewrite Hread. simpl. rewrite Hok. simpl.
    rewrite (status_same _ _ Hst). simpl. rewrite Hjson. reflexivity.
Qed.

(** X7.  [Delete] returns a nil error exactly when the identifier is valid,
    the request was built and answered without error, and the status is
    204. *)
Theorem delete_succeeds_iff :
  forall (hac : httpAccountsClientImpl) (id : string) (version : Z),
    result (Delete hac id version) = Returned None
    <-> (isValidUUID id = true
         /\ exists (mk : NewRequest) (exec : DoRequest) (req : option Request)
                   (resp : Response),
             createNewRequest hac = Some mk
             /\ mk "DELETE" (delete_url hac id version) None = (req, None)
             /\ doRequest hac = Some exec
             /\ exec req = (Some resp, None)
             /\ resp_StatusCode resp = 204).
Proof.
  intros hac id version. split.
  - go_unfold. rewrite delete_url_eq. unfold MethodDelete. simpl. intros H.
    go_cases.
    apply negb_false_iff in Heqb. apply negb_eqb_false in Heqb0.
    split; [assumption|].
    match goal with
    | Hm : createNewRequest hac = Some ?mk, Hx : doRequest hac = Some ?exec,
      Hq : ?mk _ _ _ = (?req, None), Hr : ?exec _ = (Some ?resp, None) |- _ =>
        exists mk, exec, req, resp; auto 10
    end.
  - intros (Hid & mk & exec & req & resp & Hmk & Hreq & Hexec & Hresp & Hst).
    go_unfold. rewrite Hid, delete_url_eq, Hmk. simpl.
    unfold MethodDelete. rewrite Hreq. simpl. rewrite Hexec. simpl. rewrite Hresp. simpl.
    rewrite (status_same _ _ Hst). reflexivity.
Qed.

(** ** What an operation calls *)

Ltac goal_cases :=
  repeat match goal with
         | |- context [match ?x with _ => _ end] =>
             lazymatch x with
             | context [match _ with _ => _ end] => fail
             | _ => destruct x eqn:?; simpl
             end
         end.

(** X8.  The trace of [Fetch]: nothing for an invalid identifier or a missing
    GET primitive; otherwise one GET on the address of the resource; then,
    only when a response came without error, one call of the body reader on
    its body and the closing of that body, last.  The status, the headers
    and the content of the body play no part. *)
Theorem fetch_trace :
  forall (hac : httpAccountsClientImpl) (id : string),
    trace (Fetch hac id)
    = if isValidUUID id then
        match doHttpGet hac with
        | None => []
        | Some get =>
            CallGet (fetch_url hac id)
            :: match get (fetch_url hac id) with
               | (Some resp, None) => reading hac resp ++ [CloseBody (RespBody resp)]
               | _ => []
               end
        end
      else [].
Proof.
  intros hac id. go_unfold. unfold reading. rewrite fetch_url_eq.
  destruct (isValidUUID id); simpl; [|reflexivity].
  destruct (doHttpGet hac) as [get|]; simpl; [|reflexivity].
  destruct (get (fetch_url hac id)) as [[resp|] [e|]]; simpl; try reflexivity.
  destruct (readInput hac) as [read|]; simpl; [|reflexivity].
  destruct (read (RespBody resp)) as [data [e|]]; simpl; [reflexivity|].
  goal_cases; reflexivity.
Qed.

(** X9.  The trace of [Create]: the call of the serializer; when it succeeds,
    one POST of its bytes, as application/json, on the address of the
    collection; when a response came without error, one call of the body
    reader; and the closing of the body of any response that came, with an
    error or not, last. *)
Theorem create_trace :
  forall (hac : httpAccountsClientImpl) (account : option AccountData),
    trace (Create hac account)
    = match serialize hac with
      | None => []
      | Some ser =>
          CallSerialize {| Data := account |}
          :: match ser {| Data := account |} with
             | (_, Some _) => []
             | (requestData, None) =>
                 match doHttpPost hac with
                 | None => []
                 | Some post =>
                     CallPost (create_url hac) "application/json" requestData
                     :: match post (create_url hac) "application/json" requestData with
                        | (Some resp, None) =>
                            reading hac resp ++ [CloseBody (RespBody resp)]
                        | (resp, _) => closing resp
                        end
                 end
             end
      end.
Proof.
  intros hac account. go_unfold. unfold reading, closing, jsonContentType.
  rewrite create_url_eq.
  destruct (serialize hac) as [ser|]; simpl; [|reflexivity].
  destruct (ser {| Data := account |}) as [requestData [e|]]; simpl; [reflexivity|].
  destruct (doHttpPost hac) as [post|]; simpl; [|reflexivity].
  destruct (post (create_url hac) "application/json"%string requestData)
    as [[resp|] [e|]]; simpl; try reflexivity.
  destruct (readInput hac) as [read|]; simpl; [|reflexivity].
  destruct (read (RespBody resp)) as [data [e|]]; simpl; [reflexivity|].
  goal_cases; reflexivity.
Qed.

(** X10.  The trace of [Delete]: nothing for an invalid identifier; otherwise
    the construction of a DELETE request on the address of the resource
    with its version; when it succeeds, its execution; when a response came
    without error and its status is not 204, one call of the body reader;
    and the closing of the body of any response that came, last. *)
Theorem delete_trace :
  forall (hac : httpAccountsClientImpl) (id : string) (version : Z),
    trace (Delete hac id version)
    = if isValidUUID id then
        match createNewRequest hac with
        | None => []
        | Some mk =>
            CallNewRequest "DELETE" (delete_url hac id version)
            :: match mk "DELETE" (delete_url hac id version) None with
               | (_, Some _) => []
               | (req, None) =>
                   match doRequest hac with
                   | None => []
                   | Some exec =>
                       CallDo req
                       :: match exec req with
                          | (Some resp, None) =>
                              (if resp_StatusCode resp =? 204 then []
                               else reading hac resp)
                              ++ [CloseBody (RespBody resp)]
                          | (resp, _) => closing resp
                          end
                   end
               end
        end
      else [].
Proof.
  intros hac id version. go_unfold. unfold reading, closing, MethodDelete.
  rewrite delete_url_eq.
  destruct (isValidUUID id); simpl; [|reflexivity].
  destruct (createNewRequest hac) as [mk|]; simpl; [|reflexivity].
  destruct (mk "DELETE"%string (delete_url hac id version) None) as [req [e|]]; simpl;
    [reflexivity|].
  destruct (doRequest hac) as [exec|]; simpl; [|reflexivity].
  destruct (exec req) as [[resp|] [e|]]; simpl; try reflexivity.
  destruct (resp_StatusCode resp =? 204); simpl; [reflexivity|].
  destruct (readInput hac) as [read|]; simpl; [|reflexivity].
  destruct (read (RespBody resp)) as [data [e|]]; reflexivity.
Qed.

(** ** When an operation panics *)

(** Turn the tests a run went through into facts. *)
Ltac tidy :=
  repeat match goal with
         | H : negb (_ =? _) = false |- _ => apply negb_eqb_false in H
         | H : negb (_ =? _) = true |- _ => apply negb_eqb_true in H
         | H : negb _ = false |- _ => apply negb_false_iff in H
         | H : negb _ = true |- _ => apply negb_true_iff in H
         end.

(** X11.  When an operation panics.  [Fetch], [Create] and [Delete] panic
    when the transport hands back neither a response nor an error: the nil
    response is dereferenced, and the trace ends with the call of the
    transport.  [Fetch] and [Create] panic when the response has the
    expected status (and, for [Fetch], a JSON Content-Type) and its body
    parses as the JSON [null]: the envelope stays nil and is dereferenced,
    after the body was read, and the body is closed on the way out. *)
Theorem panics_when :
  (forall (hac : httpAccountsClientImpl) (id : string) (get : HttpGet),
      isValidUUID id = true ->
      doHttpGet hac = Some get ->
      get (fetch_url hac id) = (None, None) ->
      Fetch hac id = ([CallGet (fetch_url hac id)], Panicked))
  /\ (forall (hac : httpAccountsClientImpl) (id : string) (get : HttpGet)
             (read : ReadInputStream) (resp : Response) (data : string),
         isValidUUID id = true ->
         doHttpGet hac = Some get ->
         readInput hac = Some read ->
         get (fetch_url hac id) = (Some resp, None) ->
         read (RespBody resp) = (data, None) ->
         resp_StatusCode resp = 200 ->
         HasPrefix (Header_Get (Header resp) "Content-Type") "application/json" = true ->
         json.parse data = Some json.JNull ->
         Fetch hac id
         = ([CallGet (fetch_url hac id); CallReadInput (RespBody resp);
             CloseBody (RespBody resp)], Panicked))
  /\ (forall (hac : httpAccountsClientImpl) (account : option AccountData)
             (ser : Serialize) (post : HttpPost) (requestData : string),
         serialize hac = Some ser ->
         doHttpPost hac = Some post ->
         ser {| Data := account |} = (requestData, None) ->
         post (create_url hac) "application/json" requestData = (None, None) ->
         Create hac account
         = ([CallSerialize {| Data := account |};
             CallPost (create_url hac) "application/json" requestData], Panicked))
  /\ (forall (hac : httpAccountsClientImpl) (account : option AccountData)
             (ser : Serialize) (post : HttpPost) (read : ReadInputStream)
             (requestData : string) (resp : Response) (data : string),
         serialize hac = Some ser ->
         doHttpPost hac = Some post ->
         readInput hac = Some read ->
         ser {| Data := account |} = (requestData, None) ->
         post (create_url hac) "application/json" requestData = (Some resp, None) ->
         read (RespBody resp) = (data, None) ->
         resp_StatusCode resp = 201 ->
         json.parse data = Some json.JNull ->
         Create hac account
         = ([CallSerialize {| Data := account |};
             CallPost (create_url hac) "application/json" requestData;
             CallReadInput (RespBody resp); CloseBody (RespBody resp)], Panicked))
  /\ (forall (hac : httpAccountsClientImpl) (id : string) (version : Z)
             (mk : NewRequest) (exec : DoRequest) (req : option Request),
         isValidUUID id = true ->
         createNewRequest hac = Some mk ->
         doRequest hac = Some exec ->
         mk "DELETE" (delete_url hac id version) None = (req, None) ->
         exec req = (None, None) ->
         Delete hac id version
         = ([CallNewRequest "DELETE" (delete_url hac id version); CallDo req], Panicked)).
Proof.
  split; [|split; [|split; [|split]]].
  - intros hac id get Hid Hget Hresp.
    go_unfold. rewrite Hid, fetch_url_eq, Hget. simpl. rewrite Hresp. reflexivity.
  - intros hac id get read resp data Hid Hget Hread Hresp Hok Hst Hct Hjson.
    assert (Hnil : codec.Unmarshal data = inr None).
    { unfold codec.Unmarshal. now rewrite Hjson. }
    go_unfold. rewrite Hid, fetch_url_eq, Hget. simpl. rewrite Hresp. simpl.
    rewrite Hread. simpl. rewrite Hok. simpl.
    rewrite (status_same _ _ Hst). unfold contentType, jsonContentType.
    rewrite Hct. simpl. rewrite Hnil. reflexivity.
  - intros hac account ser post requestData Hser Hpost Hreq Hresp.
    go_unfold. rewrite Hser. simpl. rewrite Hreq. simpl.
    rewrite create_url_eq, Hpost. simpl. unfold jsonContentType. rewrite Hresp.
    reflexivity.
  - intros hac account ser post read requestData resp data
           Hser Hpost Hread Hreq Hresp Hok Hst Hjson.
    assert (Hnil : codec.Unmarshal data = inr None).
    { unfold codec.Unmarshal. now rewrite Hjson. }
    go_unfold. rewrite Hser. simpl. rewrite Hreq. simpl.
    rewrite create_url_eq, Hpost. simpl. unfold jsonContentType. rewrite Hresp. simpl.
    rewrite Hread. simpl. rewrite Hok. simpl.
    rewrite (status_same _ _ Hst). simpl. rewrite Hnil. reflexivity.
  - intros hac id version mk exec req Hid Hmk Hexec Hreq Hresp.
    go_unfold. rewrite Hid, delete_url_eq, Hmk. simpl. unfold MethodDelete.
    rewrite Hreq. simpl. rewrite Hexec. simpl. rewrite Hresp. reflexivity.
Qed.

(** The theorem at a server that answers 200 with the body [null]. *)
Lemma panics_when_witness :
  Fetch (Fixture.client_of (Fixture.server 200 Fixture.json_header "null")) Fixture.some_id
  = ([CallGet (fetch_url (Fixture.client_of (Fixture.server 200 Fixture.json_header "null"))
                 Fixture.some_id);
      CallReadInput (mkBody "null" None);
      CloseBody (mkBody "null" None)], Panicked).
Proof.
  pose (net := Fixture.server 200 Fixture.json_header "null").
  apply (proj1 (proj2 panics_when)
           (Fixture.client_of net) Fixture.some_id (client_Get net) io_ReadAll
           (mkResponse 200 Fixture.json_header (mkBody "null" None)) "null"%string);
    reflexivity.
Defined.

(** ** The errors an operation can return *)

Ltac pick :=
  match goal with
  | |- _ \/ _ => (left; pick) || (right; pick)
  | |- exists _, _ => eexists; pick
  | |- _ /\ _ => split; pick
  | |- _ = _ => reflexivity || eassumption
  | |- _ <> _ => eassumption
  end.

Lemma Fetch_errors (hac : httpAccountsClientImpl) (id : string)
    (a : option AccountData) (e : HTTPError) :
  result (Fetch hac id) = Returned (a, Some e) -> a = None /\ Fetch_error e.
Proof.
  unfold Fetch_error. go_unfold. simpl. intros H.
  go_cases; tidy; (split; [reflexivity|]).
  all: try match goal with
           | Hs : resp_StatusCode _ = 200 |- _ => rewrite Hs
           end.
  all: unfold contentType, jsonContentType in *.
  all: pick.
Qed.

Lemma Create_errors (hac : httpAccountsClientImpl) (account : option AccountData)
    (a : option AccountData) (e : HTTPError) :
  result (Create hac account) = Returned (a, Some e) -> a = None /\ Create_error e.
Proof.
  unfold Create_error. go_unfold. simpl. intros H.
  go_cases; tidy; (split; [reflexivity|]); pick.
Qed.

Lemma Delete_errors (hac : httpAccountsClientImpl) (id : string) (version : Z)
    (e : HTTPError) :
  result (Delete hac id version) = Returned (Some e) -> Delete_error e.
Proof.
  unfold Delete_error. go_unfold. simpl. intros H.
  go_cases; tidy; pick.
Qed.

(** X12.  The errors the operations return are of the kinds listed: for [Fetch]
    an invalid identifier, a transport failure, a body-read failure, a
    status other than 200, a Content-Type that is not JSON, a body that does
    not decode, an envelope without data; for [Create] a serialization
    failure and the same without the identifier and Content-Type kinds; for
    [Delete] an invalid identifier, a request that cannot be built, a
    transport failure, a body-read failure, a status other than 204.  With
    an error, [Fetch] and [Create] return no resource. *)
Theorem error_taxonomy :
  (forall (hac : httpAccountsClientImpl) (id : string) (a : option AccountData)
          (e : HTTPError),
      result (Fetch hac id) = Returned (a, Some e) -> a = None /\ Fetch_error e)
  /\ (forall (hac : httpAccountsClientImpl) (account a : option AccountData)
             (e : HTTPError),
         result (Create hac account) = Returned (a, Some e) -> a = None /\ Create_error e)
  /\ (forall (hac : httpAccountsClientImpl) (id : string) (version : Z) (e : HTTPError),
         result (Delete hac id version) = Returned (Some e) -> Delete_error e).
Proof.
  split; [|split].
  - apply Fetch_errors.
  - intros hac account a e. apply Create_errors.
  - apply Delete_errors.
Qed.

Lemma error_taxonomy_witness :
  @None AccountData = None
  /\ Fetch_error (unexpectedStatusCode 200 404 "Get" (Some ""%string)).
Proof.
  apply (proj1 error_taxonomy (Fixture.client_of (Fixture.server 404 ∅ ""))
           Fixture.some_id None (unexpectedStatusCode 200 404 "Get" (Some ""%string))).
  reflexivity.
Defined.




(** ** [init] and the factories *)

(** X14.  [init] leaves the host and the HTTP client alone, keeps every
    primitive that is set and gives the others their defaults, so that the
    client is complete afterwards; running it again changes nothing, and
    the clients it leaves as they are are the complete ones. *)
Theorem init_completes :
  forall (http_NewRequest : NewRequest) (omitempty : string -> bool)
         (hac : httpAccountsClientImpl),
    let hac' := init http_NewRequest omitempty hac in
    complete hac'
    /\ host hac' = host hac /\ client hac' = client hac
    /\ (forall f, readInput hac = Some f -> readInput hac' = Some f)
    /\ (forall f, doHttpGet hac = Some f -> doHttpGet hac' = Some f)
    /\ (forall f, doHttpPost hac = Some f -> doHttpPost hac' = Some f)
    /\ (forall f, createNewRequest hac = Some f -> createNewRequest hac' = Some f)
    /\ (forall f, doRequest hac = Some f -> doRequest hac' = Some f)
    /\ (forall f, serialize hac = Some f -> serialize hac' = Some f)
    /\ init http_NewRequest omitempty hac' = hac'
    /\ (hac' = hac <-> complete hac).
Proof.
  intros nr oe hac hac'. subst hac'. unfold complete, init.
  destruct hac as [h c ri g p mk ex se]. simpl.
  split; [repeat split; discriminate|].
  do 2 (split; [reflexivity|]).
  do 6 (split; [intros f ->; reflexivity|]).
  split; [reflexivity|]. split.
  - intros H. inversion H; subst. repeat split; discriminate.
  - intros (Hri & Hg & Hp & Hmk & Hex & Hse).
    destruct ri, g, p, mk, ex, se; try contradiction; reflexivity.
Qed.

(** X15.  The six test factories return what [MakeClient] returns, the same
    error on the same addresses, and otherwise the same client with the one
    primitive they were given in place of the default. *)
Theorem test_factories_replace_one_primitive :
  forall (network : http_Client) (http_NewRequest : NewRequest)
         (omitempty : string -> bool) (baseUrl : string),
    let made := MakeClient network http_NewRequest omitempty baseUrl in
    (forall f, MakeTestClientWithInputReader network http_NewRequest omitempty baseUrl f
               = replacing (with_readInput f) made)
    /\ (forall f, MakeTestClientWithHttpGetter network http_NewRequest omitempty baseUrl f
                  = replacing (with_doHttpGet f) made)
    /\ (forall f, MakeTestClientWithHttpPoster network http_NewRequest omitempty baseUrl f
                  = replacing (with_doHttpPost f) made)
    /\ (forall f, MakeTestClientWithNewRequestCreator network http_NewRequest omitempty
                    baseUrl f
                  = replacing (with_createNewRequest f) made)
    /\ (forall f, MakeTestClientWithRequestInvoker network http_NewRequest omitempty
                    baseUrl f
                  = replacing (with_doRequest f) made)
    /\ (forall f, MakeTestClientWithSerializer network http_NewRequest omitempty baseUrl f
                  = replacing (with_serialize f) made).
Proof.
  intros network nr oe baseUrl made. subst made.
  unfold MakeClient, MakeTestClientWithInputReader, MakeTestClientWithHttpGetter,
    MakeTestClientWithHttpPoster, MakeTestClientWithNewRequestCreator,
    MakeTestClientWithRequestInvoker, MakeTestClientWithSerializer.
  destruct (validateUrl baseUrl); repeat split.
Qed.

(** ** [Fetch] reads what [json.Marshal] writes *)

(** X16.  Let [d] be an account that survives the wire.  When the GET is answered
    with status 200, a JSON Content-Type and, as body, the bytes
    [json.Marshal] writes for the envelope [{data: d}], [Fetch] returns [d]
    and no error. *)
Theorem fetch_reads_marshalled_resource :
  forall (omitempty : string -> bool) (d : AccountData) (hac : httpAccountsClientImpl)
         (id : string) (get : HttpGet) (read : ReadInputStream) (resp : Response),
    faithful_data omitempty d = true ->
    isValidUUID id = true ->
    doHttpGet hac = Some get ->
    get (fetch_url hac id) = (Some resp, None) ->
    readInput hac = Some read ->
    read (RespBody resp) = (fst (codec.Marshal omitempty {| Data := Some d |}), None) ->
    resp_StatusCode resp = 200 ->
    HasPrefix (Header_Get (Header resp) "Content-Type") "application/json" = true ->
    Fetch hac id
    = ([CallGet (fetch_url hac id); CallReadInput (RespBody resp);
        CloseBody (RespBody resp)],
       Returned (Some d, None)).
Proof.
  intros omitempty d hac id get read resp Hd Hid Hget Hresp Hread Hok Hst Hct.
  pose proof (Unmarshal_Marshal omitempty d Hd) as E.
  remember (fst (codec.Marshal omitempty {| Data := Some d |})) as body.
  go_unfold. rewrite Hid, fetch_url_eq, Hget. simpl. rewrite Hresp. simpl.
  rewrite Hread. simpl. rewrite Hok. simpl.
  rewrite (status_same _ _ Hst). unfold contentType, jsonContentType.
  rewrite Hct. simpl. rewrite E. reflexivity.
Qed.

Lemma fetch_reads_marshalled_resource_witness :
  Fetch (Fixture.client_of (Fixture.server 200 Fixture.json_header Double.sample_body))
        Fixture.some_id
  = ([CallGet (fetch_url (Fixture.client_of
                            (Fixture.server 200 Fixture.json_header Double.sample_body))
                 Fixture.some_id);
      CallReadInput (mkBody Double.sample_body None);
      CloseBody (mkBody Double.sample_body None)],
     Returned (Some sample_account, None)).
Proof.
  pose (net := Fixture.server 200 Fixture.json_header Double.sample_body).
  apply (fetch_reads_marshalled_resource (fun _ => true) sample_account
           (Fixture.client_of net) Fixture.some_id (client_Get net) io_ReadAll
           (mkResponse 200 Fixture.json_header (mkBody Double.sample_body None)));
    reflexivity.
Defined.

(** ** The text of an error *)

Lemma HasPrefix_append (s t : string) : HasPrefix (s +:+ t) s = true.
Proof.
  unfold HasPrefix. induction s as [|c s IH]; simpl.
  - now destruct t.
  - destruct (ascii_dec c c) as [_|n]; [exact IH | now destruct n].
Qed.

(** X17.  [e.Error()] on a nil receiver panics.  Otherwise it returns the
    message of the error when the error has no cause, and the message, the
    three bytes [ : ] and the text of the cause, in this order, when it has
    one.  So the text starts with the message, is as long as its parts
    together, and is the message exactly when there is no cause. *)
Theorem Error_text :
  forall (cause_Error : error -> string),
    HTTPError_Error cause_Error None = ([], Panicked)
    /\ forall e : HTTPError,
        exists s : string,
          HTTPError_Error cause_Error (Some e) = ([], Returned s)
          /\ s = match Cause e with
                 | Some c => (Message e +:+ " : " +:+ cause_Error c)%string
                 | None => Message e
                 end
          /\ HasPrefix s (Message e) = true
          /\ String.length s
             = (String.length (Message e)
                + match Cause e with
                  | Some c => 3 + String.length (cause_Error c)
                  | None => 0
                  end)%nat
          /\ (s = Message e <-> Cause e = None).
Proof.
  intros cause_Error. split; [reflexivity|].
  intros [[c|] m st p]; unfold HTTPError_Error; simpl.
  - eexists. split; [reflexivity|]. split; [reflexivity|].
    split; [apply HasPrefix_append|].
    split; [now rewrite length_append|].
    split; [|discriminate].
    intros H. apply (f_equal String.length) in H.
    rewrite length_append in H. simpl in H. lia.
  - exists m. split; [reflexivity|]. split; [reflexivity|]. split.
    + rewrite <- (append_nil_r m) at 1. apply HasPrefix_append.
    + split; [lia | tauto].
Qed.

(** ** The assertions of the tests *)

Lemma slices_range_decides {T : Type} `{EqDecision T} (a b : list T) (i : nat) :
  length a = length (skipn i b) ->
  slices_range i a b = Returned (bool_decide (a = skipn i b)).
Proof.
  revert i. induction a as [|v a IH]; intros i Hlen; simpl.
  - destruct (skipn i b) eqn:E; [|discriminate Hlen].
    now rewrite bool_decide_eq_true_2.
  - destruct (skipn i b) as [|w r] eqn:E; [discriminate Hlen|].
    assert (Hi : b !! i = Some w).
    { pose proof (lookup_drop b i 0) as L. rewrite Nat.add_0_r in L.
      rewrite <- L, E. reflexivity. }
    assert (Hr : skipn (S i) b = r).
    { pose proof (drop_drop b 1 i) as L. rewrite E in L. simpl in L.
      rewrite Nat.add_1_r in L. now rewrite <- L. }
    rewrite Hi. destruct (decide (v = w)) as [->|n].
    + rewrite bool_decide_eq_true_2 by reflexivity.
      rewrite IH by (rewrite Hr; simpl in Hlen; lia). rewrite Hr.
      f_equal. apply bool_decide_ext. split; congruence.
    + rewrite bool_decide_eq_false_2 by assumption.
      f_equal. symmetry. apply bool_decide_eq_false_2. congruence.
Qed.

Lemma slices_decide {T : Type} `{EqDecision T} (a b : option (list T)) :
  assertPrimitiveSlices a b = Returned (bool_decide (a = b)).
Proof.
  destruct a as [x|], b as [y|]; unfold assertPrimitiveSlices; f_equal; symmetry;
    try (now apply bool_decide_eq_false_2); try (now apply bool_decide_eq_true_2).
  destruct (Nat.eqb_spec (length x) (length y)) as [Hlen|Hlen]; cbn [negb].
  - rewrite slices_range_decides by exact Hlen. change (skipn 0 y) with y.
    f_equal. apply bool_decide_ext. split; congruence.
  - f_equal. apply bool_decide_eq_false_2. congruence.
Qed.

(** X18.  [assertPrimitiveSlices] never indexes out of range and answers
    whether its two slices are equal: both nil, or both not nil with the
    same elements in the same order.  A nil slice and an empty one are not
    equal. *)
Theorem assertPrimitiveSlices_decides :
  forall (T : Type) (eq_dec : EqDecision T) (a b : option (list T)),
    assertPrimitiveSlices a b = Returned (bool_decide (a = b)).
Proof.
  intros T eq_dec a b. apply slices_decide.
Qed.

Lemma reports_when (cond : bool) (msg : string) :
  reports (testing.when cond msg) (if cond then [msg] else []).
Proof. now destruct cond. Qed.

Lemma reports_bind (m : testing.T unit) (k : unit -> testing.T unit) (l l' : list string) :
  reports m l -> reports (k tt) l' -> reports (testing.bind m k) (l ++ l').
Proof. unfold reports. intros -> H. simpl. now rewrite H. Qed.

Lemma reports_differ (what expected actual : string) :
  exists l, reports (differ what expected actual) l /\ (l = [] <-> expected = actual).
Proof.
  unfold differ. eexists. split; [apply reports_when|].
  destruct (decide (expected = actual)) as [E|E].
  - rewrite bool_decide_eq_true_2 by assumption. simpl. tauto.
  - rewrite bool_decide_eq_false_2 by assumption. simpl. split; [discriminate | tauto].
Qed.

Lemma reports_pointers {P : Type} `{EqDecision P} `{Verb P} (actual expected : option P)
    (varName : string) :
  exists l, reports (assertPrimitivePointers actual expected varName) l
            /\ (l = [] <-> actual = expected) /\ (length l <= 1)%nat.
Proof.
  unfold assertPrimitivePointers, reports.
  destruct actual as [a|], expected as [e|]; simpl.
  - destruct (decide (a = e)) as [E|E].
    + rewrite bool_decide_eq_true_2 by assumption. simpl.
      eexists. split; [reflexivity|]. subst. split; [tauto | simpl; lia].
    + rewrite bool_decide_eq_false_2 by assumption. simpl.
      eexists. split; [reflexivity|]. split; [|simpl; lia].
      split; [discriminate | congruence].
  - eexists. split; [reflexivity|]. split; [split; discriminate | simpl; lia].
  - eexists. split; [reflexivity|]. split; [split; discriminate | simpl; lia].
  - eexists. split; [reflexivity|]. split; [tauto | simpl; lia].
Qed.

(** X19.  [assertPrimitivePointers] reports at most one message, and none
    exactly when its two pointers are equal: both nil, or both not nil and
    pointing to equal values. *)
Theorem assertPrimitivePointers_exact :
  forall (P : Type) (eq_dec : EqDecision P) (verb : Verb P) (actual expected : option P)
         (varName : string),
    exists l : list string,
      assertPrimitivePointers actual expected varName = (l, Returned tt)
      /\ (l = [] <-> actual = expected)
      /\ (length l <= 1)%nat.
Proof. intros. apply reports_pointers. Qed.

Lemma reports_slices (actual expected : option (list string)) (msg : string) :
  exists l,
    reports (testing.bind (testing.quiet (assertPrimitiveSlices actual expected))
               (fun same => testing.when (negb same) msg)) l
    /\ (l = [] <-> actual = expected).
Proof.
  rewrite slices_decide. unfold testing.quiet, testing.bind.
  destruct (decide (actual = expected)) as [E|E].
  - rewrite bool_decide_eq_true_2 by assumption. simpl.
    eexists. split; [reflexivity | tauto].
  - rewrite bool_decide_eq_false_2 by assumption. simpl.
    eexists. split; [reflexivity|]. split; [discriminate | tauto].
Qed.

Lemma reports_seq (m : testing.T unit) (k : unit -> testing.T unit) (P Q : Prop) :
  (exists l, reports m l /\ (l = [] <-> P)) ->
  (exists l, reports (k tt) l /\ (l = [] <-> Q)) ->
  exists l, reports (testing.bind m k) l /\ (l = [] <-> P /\ Q).
Proof.
  intros (l & Hm & Hl) (l' & Hk & Hl'). exists (l ++ l').
  split; [now apply reports_bind|].
  split.
  - intros H. apply app_eq_nil in H. tauto.
  - intros [HP HQ]. apply Hl in HP. apply Hl' in HQ. now subst.
Qed.

Lemma reports_pointers_iff {P : Type} `{EqDecision P} `{Verb P} (actual expected : option P)
    (varName : string) :
  exists l, reports (assertPrimitivePointers actual expected varName) l
            /\ (l = [] <-> actual = expected).
Proof.
  destruct (reports_pointers actual expected varName) as (l & Hl & Hiff & _). eauto.
Qed.

Lemma reports_slices_then (actual expected : option (list string)) (msg : string)
    (k : unit -> testing.T unit) (Q : Prop) :
  (exists l, reports (k tt) l /\ (l = [] <-> Q)) ->
  exists l,
    reports (testing.bind (testing.quiet (assertPrimitiveSlices actual expected))
               (fun same => testing.bind (testing.when (negb same) msg) k)) l
    /\ (l = [] <-> actual = expected /\ Q).
Proof.
  intros (l' & Hk & Hl'). rewrite slices_decide. unfold testing.quiet, reports in *.
  destruct (decide (actual = expected)) as [E|E].
  - rewrite bool_decide_eq_true_2 by assumption. simpl. rewrite Hk.
    eexists. split; [reflexivity|]. simpl. tauto.
  - rewrite bool_decide_eq_false_2 by assumption. simpl. rewrite Hk.
    eexists. split; [reflexivity|]. simpl. split; [discriminate | tauto].
Qed.

Ltac assertions :=
  repeat first
    [ apply reports_seq; [first [apply reports_pointers_iff | apply reports_differ]|]
    | apply reports_slices_then
    | apply reports_slices
    | apply reports_pointers_iff
    | apply reports_differ ].

Lemma reports_attributes (actual expected : option AccountAttributes) :
  exists l, reports (assertAttributes actual expected) l /\ (l = [] <-> actual = expected).
Proof.
  destruct actual as [a|], expected as [e|]; unfold assertAttributes.
  2-4: eexists; (split; [reflexivity|]); split; (discriminate || tauto).
  enough (exists l,
             reports (assertAttributes (Some a) (Some e)) l
             /\ (l = [] <->
                 AccountClassification a = AccountClassification e
                 /\ AccountMatchingOptOut a = AccountMatchingOptOut e
                 /\ Country a = Country e
                 /\ JointAccount a = JointAccount e
                 /\ Status a = Status e
                 /\ Switched a = Switched e
                 /\ AccountNumber e = AccountNumber a
                 /\ AlternativeNames a = AlternativeNames e
                 /\ BankID e = BankID a
                 /\ BankIDCode e = BankIDCode a
                 /\ BaseCurrency e = BaseCurrency a
                 /\ Bic e = Bic a
                 /\ Iban e = Iban a
                 /\ CustomerId e = CustomerId a
                 /\ SecondaryIdentification e = SecondaryIdentification a
                 /\ Name a = Name e)) as (l & Hl & Hiff).
  { exists l. split; [exact Hl|]. rewrite Hiff. clear.
    destruct a, e; simpl. split.
    - intros H. decompose [and] H. now subst.
    - intros H. inversion H. repeat split. }
  unfold assertAttributes. assertions.
Qed.

Lemma reports_account (actual expected : option AccountData) :
  exists l, reports (assertAccountData actual expected) l /\ (l = [] <-> actual = expected).
Proof.
  destruct actual as [a|], expected as [e|]; unfold assertAccountData.
  2-4: eexists; (split; [reflexivity|]); split; (discriminate || tauto).
  enough (exists l,
             reports (assertAccountData (Some a) (Some e)) l
             /\ (l = [] <->
                 ID e = ID a
                 /\ OrganisationID e = OrganisationID a
                 /\ Type_ e = Type_ a
                 /\ Version a = Version e
                 /\ Attributes a = Attributes e)) as (l & Hl & Hiff).
  { exists l. split; [exact Hl|]. rewrite Hiff. clear.
    destruct a, e; simpl. split.
    - intros H. decompose [and] H. now subst.
    - intros H. inversion H. repeat split. }
  unfold assertAccountData. assertions. apply reports_attributes.
Qed.

(** X20.  [assertAccountData] (with [assertAttributes]) compares every field of
    the two accounts: it returns without panicking, and reports no message
    exactly when the two accounts are equal, nil pointers and nil slices
    included. *)
Theorem assertAccountData_exact :
  forall actual expected : option AccountData,
    exists l : list string,
      assertAccountData actual expected = (l, Returned tt)
      /\ (l = [] <-> actual = expected).
Proof. intros. apply reports_account. Qed.

(** ** The identifiers [isValidUUID] accepts *)

Lemma is_dash (c : ascii) :
  match c with "-"%char => true | _ => false end = Ascii.eqb c "-".
Proof. destruct c as [[] [] [] [] [] [] [] []]; reflexivity. Qed.

Lemma shaped_length (p s : string) : shaped p s = true -> String.length s = String.length p.
Proof.
  revert s. induction p as [|x p IH]; intros [|c s]; simpl; try discriminate; auto.
  intros H. apply andb_true_iff in H. f_equal. apply IH, H.
Qed.

Ltac chars s n :=
  lazymatch n with
  | O => idtac
  | S ?m => let c := fresh "c" in destruct s as [|c s]; [discriminate|]; chars s m
  end.

Ltac atoms :=
  repeat match goal with
         | |- context [Ascii.eqb ?c "-"] =>
             is_var c; destruct (Ascii.eqb c "-"); simpl; try reflexivity
         | |- context [ishex ?c] =>
             is_var c; destruct (ishex c); simpl; try reflexivity
         end.

Lemma parse36_canonical (s rest : string) :
  String.length s = 36%nat ->
  match uuid.parse36 (s +:+ rest) with inr _ => true | inl _ => false end
  = canonical_uuid s.
Proof.
  intros H. chars s 36%nat. destruct s; [|discriminate]. clear H.
  unfold uuid.parse36, canonical_uuid. simpl.
  rewrite !is_dash. unfold uuid.xtob.
  atoms.
Qed.

Lemma hex_pairs_raw (s : string) :
  String.length s = 32%nat ->
  match uuid.hex_pairs 16 s with Some _ => true | None => false end = raw_hex_uuid s.
Proof.
  intros H. chars s 32%nat. destruct s; [|discriminate]. clear H.
  unfold raw_hex_uuid. simpl. unfold uuid.xtob.
  atoms.
Qed.

Lemma take_drop_string (n : nat) (s : string) : take n s +:+ drop n s = s.
Proof.
  revert s. induction n as [|n IH]; intros [|c s]; simpl; try reflexivity.
  now rewrite IH.
Qed.

Lemma length_take (n : nat) (s : string) :
  (n <= String.length s)%nat -> String.length (take n s) = n.
Proof.
  revert s. induction n as [|n IH]; intros [|c s]; simpl; try reflexivity; try lia.
  intros H. rewrite IH; lia.
Qed.

Lemma length_drop (n : nat) (s : string) :
  String.length (drop n s) = (String.length s - n)%nat.
Proof.
  revert s. induction n as [|n IH]; intros [|c s]; simpl; try reflexivity.
  apply IH.
Qed.

Lemma not_shaped (p s : string) :
  String.length s <> String.length p -> shaped p s = false.
Proof.
  intros H. destruct (shaped p s) eqn:E; [|reflexivity].
  apply shaped_length in E. contradiction.
Qed.

(** [isValidUUID] by the form of the string. *)
Lemma isValidUUID_forms (u : string) : isValidUUID u = passes_uuid_check u.
Proof.
  unfold passes_uuid_check, urn_uuid, wrapped_uuid.
  unfold isValidUUID, uuid.Parse.
  destruct (Nat.eq_dec (String.length u) 36%nat) as [H|H36].
  { rewrite H. cbn [Nat.eqb andb].
    rewrite <- (append_nil_r u) at 1. rewrite parse36_canonical by exact H.
    unfold raw_hex_uuid. rewrite (not_shaped _ u) by (rewrite H; simpl; lia).
    now rewrite !orb_false_r. }
  destruct (Nat.eq_dec (String.length u) 45%nat) as [H|H45].
  { rewrite H. cbn [Nat.eqb andb].
    unfold canonical_uuid at 1, raw_hex_uuid.
    rewrite !(not_shaped _ u) by (rewrite H; simpl; lia).
    rewrite !orb_false_r. cbn [orb].
    destruct (uuid.EqualFold (take 9 u) "urn:uuid:"); cbn [negb andb]; [|reflexivity].
    rewrite <- (append_nil_r (drop 9%nat u)) at 1.
    apply parse36_canonical. rewrite length_drop, H. reflexivity. }
  destruct (Nat.eq_dec (String.length u) 38%nat) as [H|H38].
  { rewrite H. cbn [Nat.eqb andb].
    unfold canonical_uuid at 1, raw_hex_uuid.
    rewrite !(not_shaped _ u) by (rewrite H; simpl; lia).
    rewrite !orb_false_r. cbn [orb].
    rewrite <- (take_drop_string 36%nat (drop 1%nat u)) at 1.
    apply parse36_canonical. rewrite length_take; [reflexivity|].
    rewrite length_drop, H. simpl. lia. }
  destruct (Nat.eq_dec (String.length u) 32%nat) as [H|H32].
  { rewrite H. cbn [Nat.eqb andb].
    unfold canonical_uuid.
    rewrite (not_shaped _ u) by (rewrite H; simpl; lia).
    cbn [orb]. rewrite <- (hex_pairs_raw u H).
    now destruct (uuid.hex_pairs 16 u). }
  unfold canonical_uuid, raw_hex_uuid.
  rewrite !(not_shaped _ u) by (simpl; assumption).
  destruct (Nat.eqb_spec (String.length u) 45%nat) as [E|_]; [contradiction|].
  destruct (Nat.eqb_spec (String.length u) 38%nat) as [E|_]; [contradiction|].
  cbn [andb orb].
  remember (String.length u) as n.
  do 46 (destruct n as [|n]; [try reflexivity; congruence|]).
  reflexivity.
Qed.

(** X21.  [isValidUUID] accepts exactly: the canonical text of a UUID (36
    bytes, hexadecimal digits of either case, dashes after 8, 12, 16 and 20
    digits); that text after the nine bytes [urn:uuid:] in either case; a
    38-byte string whose middle 36 bytes are that text, whatever its first
    and last byte; and 32 hexadecimal digits without dashes.  Every other
    string, the empty one included, is rejected. *)
Theorem isValidUUID_accepts_exactly :
  forall u : string,
    isValidUUID u
    = canonical_uuid u
      || (Nat.eqb (String.length u) 45%nat && uuid.EqualFold (take 9%nat u) "urn:uuid:"
          && canonical_uuid (drop 9%nat u))
      || (Nat.eqb (String.length u) 38%nat && canonical_uuid (take 36%nat (drop 1%nat u)))
      || raw_hex_uuid u.
Proof. intros u. exact (isValidUUID_forms u). Qed.

(** ** The addresses [validateUrl] accepts and rejects *)

Lemma string_forall_app (q : ascii -> bool) (a b : string) :
  string_forall q (a +:+ b) = string_forall q a && string_forall q b.
Proof. induction a as [|c a IH]; simpl; [reflexivity | now rewrite IH, andb_assoc]. Qed.

Lemma string_forall_impl (p q : ascii -> bool) (s : string) :
  (forall c, p c = true -> q c = true) ->
  string_forall p s = true -> string_forall q s = true.
Proof.
  intros H. induction s as [|c s IH]; simpl; [reflexivity|].
  intros E. apply andb_true_iff in E. destruct E as [E1 E2].
  now rewrite (H c E1), IH.
Qed.

Lemma address_byte_facts (c : ascii) :
  address_byte c = true ->
  negb ((code c <? 32) || (code c =? 127)) = true
  /\ Ascii.eqb c "?" = false /\ Ascii.eqb c "@" = false /\ Ascii.eqb c "%" = false
  /\ Ascii.eqb c "*" = false /\ Ascii.eqb c "[" = false.
Proof.
  destruct c as [[] [] [] [] [] [] [] []]; intros H; try discriminate H;
    repeat split; reflexivity.
Qed.

Lemma host_byte_facts (c : ascii) :
  host_byte c = true ->
  Ascii.eqb c ":" = false /\ Ascii.eqb c "/" = false
  /\ url.shouldEscapeHost c = false /\ (code c <? 128) = true.
Proof.
  destruct c as [[] [] [] [] [] [] [] []]; intros H; try discriminate H;
    repeat split; reflexivity.
Qed.

Lemma letter_facts (c : ascii) :
  is_letter c = true ->
  host_byte c = true /\ Ascii.eqb c "*" = false.
Proof.
  destruct c as [[] [] [] [] [] [] [] []]; intros H; try discriminate H;
    repeat split; reflexivity.
Qed.

Lemma digit_facts (c : ascii) :
  is_digit c = true -> host_byte c = true.
Proof.
  destruct c as [[] [] [] [] [] [] [] []]; intros H; try discriminate H; reflexivity.
Qed.

Lemma Count_absent (sep : ascii) (s : string) : absent sep s = true -> Count s sep = O.
Proof.
  induction s as [|c s IH]; simpl; [reflexivity|]. intros H.
  apply andb_true_iff in H. destruct H as [H1 H2].
  apply negb_true_iff in H1. rewrite H1. now apply IH.
Qed.

Lemma Cut_absent (sep : ascii) (s : string) :
  absent sep s = true -> Cut s sep = (s, ""%string, false).
Proof.
  induction s as [|c s IH]; simpl; [reflexivity|]. intros H.
  apply andb_true_iff in H. destruct H as [H1 H2].
  apply negb_true_iff in H1. rewrite H1, (IH H2). reflexivity.
Qed.

Lemma CutLast_absent (sep : ascii) (s : string) :
  absent sep s = true -> CutLast s sep = None.
Proof.
  induction s as [|c s IH]; simpl; [reflexivity|]. intros H.
  apply andb_true_iff in H. destruct H as [H1 H2].
  apply negb_true_iff in H1. rewrite H1, (IH H2). reflexivity.
Qed.

Lemma CutLast_last (sep : ascii) (a b : string) :
  absent sep b = true -> CutLast (a +:+ String sep b) sep = Some (a, b).
Proof.
  intros H. induction a as [|c a IH]; simpl.
  - rewrite (CutLast_absent _ _ H). now rewrite Ascii.eqb_refl.
  - now rewrite IH.
Qed.

Lemma Index_absent (sep : ascii) (s : string) :
  absent sep s = true -> url.Index s (String sep EmptyString) = None.
Proof.
  induction s as [|c s IH]; simpl; [reflexivity|]. intros H.
  apply andb_true_iff in H. destruct H as [H1 H2].
  apply negb_true_iff in H1.
  destruct (ascii_dec sep c) as [->|_].
  - now rewrite Ascii.eqb_refl in H1.
  - now rewrite (IH H2).
Qed.

Lemma absent_of (p : ascii -> bool) (sep : ascii) (s : string) :
  (forall c, p c = true -> Ascii.eqb c sep = false) ->
  string_forall p s = true -> absent sep s = true.
Proof.
  intros H. apply string_forall_impl. intros c Hc. now rewrite (H c Hc).
Qed.

Lemma scheme_end_letters (letters r : string) (i : nat) :
  string_forall is_letter letters = true ->
  (0 < i + String.length letters)%nat ->
  url.scheme_end i (letters +:+ String ":" r) = inr (Some (i + String.length letters)%nat).
Proof.
  revert i. induction letters as [|c l IH]; intros i Hl Hi; simpl in *.
  - destruct i; [lia|]. now rewrite Nat.add_0_r.
  - apply andb_true_iff in Hl. destruct Hl as [Hc Hl]. rewrite Hc.
    rewrite IH by (assumption || lia). do 2 f_equal. lia.
Qed.

Lemma take_length_app (a b : string) : take (String.length a) (a +:+ b) = a.
Proof. induction a as [|c a IH]; simpl; [now destruct b | now rewrite IH]. Qed.


Lemma unescape_host (s : string) :
  string_forall (fun c => host_byte c || Ascii.eqb c ":") s = true ->
  url.unescape url.encodeHost s = inr s.
Proof.
  induction s as [|c s IH]; simpl; [reflexivity|]. intros H.
  apply andb_true_iff in H. destruct H as [Hc Hs].
  rewrite (IH Hs).
  assert (E : Ascii.eqb c "%" = false /\ url.shouldEscapeHost c = false).
  { clear -Hc. destruct c as [[] [] [] [] [] [] [] []]; try discriminate Hc;
      split; reflexivity. }
  destruct E as [-> ->]. now rewrite andb_false_r.
Qed.

Lemma drop_S_length_app (a b : string) (c : ascii) :
  drop (S (String.length a)) (a +:+ String c b) = b.
Proof. induction a as [|x a IH]; simpl; [reflexivity | exact IH]. Qed.

Lemma HasPrefix_absent (sep : ascii) (s : string) :
  absent sep s = true -> HasPrefix s (String sep EmptyString) = false.
Proof.
  unfold HasPrefix. destruct s as [|c s]; simpl; [reflexivity|]. intros H.
  apply andb_true_iff in H. destruct H as [H _]. apply negb_true_iff in H.
  destruct (ascii_dec sep c) as [->|_]; [|reflexivity].
  now rewrite Ascii.eqb_refl in H.
Qed.

Lemma noCTL (s : string) :
  string_forall address_byte s = true -> url.stringContainsCTLByte s = false.
Proof.
  intros H. unfold url.stringContainsCTLByte. apply negb_false_iff.
  revert H. apply string_forall_impl. intros c Hc. apply (address_byte_facts c Hc).
Qed.

Lemma host_is_address (c : ascii) : host_byte c = true -> address_byte c = true.
Proof. intros H. unfold address_byte. now rewrite H. Qed.

Lemma authority_bytes (host : string) (port : option string) :
  string_forall host_byte host = true ->
  string_forall is_digit (default ""%string port) = true ->
  string_forall (fun c => host_byte c || Ascii.eqb c ":") (host +:+ port_text port) = true.
Proof.
  intros Hh Hp. rewrite string_forall_app. apply andb_true_iff. split.
  - revert Hh. apply string_forall_impl. intros c ->. reflexivity.
  - destruct port as [digits|]; [|reflexivity]. simpl in *.
    revert Hp. apply string_forall_impl. intros c Hc.
    now rewrite (digit_facts c Hc).
Qed.

Lemma authority_absent (sep : ascii) (host : string) (port : option string) :
  host_byte sep || Ascii.eqb sep ":" = false ->
  string_forall host_byte host = true ->
  string_forall is_digit (default ""%string port) = true ->
  absent sep (host +:+ port_text port) = true.
Proof.
  intros Hsep Hh Hp. pose proof (authority_bytes host port Hh Hp) as H.
  revert H. apply string_forall_impl. intros c Hc.
  apply negb_true_iff. destruct (ascii_dec c sep) as [->|n].
  - rewrite Hsep in Hc. discriminate Hc.
  - apply Ascii.eqb_neq, n.
Qed.

Lemma parseHost_plain (host : string) (port : option string) :
  string_forall host_byte host = true ->
  string_forall is_digit (default ""%string port) = true ->
  url.parseHost (host +:+ port_text port) = inr (host +:+ port_text port).
Proof.
  intros Hh Hp. unfold url.parseHost.
  rewrite (HasPrefix_absent "[") by (now apply authority_absent).
  destruct port as [digits|]; simpl in *.
  - assert (Hd : absent ":" digits = true).
    { revert Hp. apply absent_of. intros c Hc.
      apply (host_byte_facts c (digit_facts c Hc)). }
    rewrite (CutLast_last ":" host digits Hd). rewrite Hp. simpl.
    apply unescape_host. apply (authority_bytes host (Some digits)); assumption.
  - rewrite append_nil_r.
    assert (Hc : absent ":" host = true).
    { revert Hh. apply absent_of. intros c Hc. apply (host_byte_facts c Hc). }
    rewrite (CutLast_absent _ _ Hc).
    apply unescape_host. revert Hh. apply string_forall_impl. intros c ->. reflexivity.
Qed.

(** X22.  [validateUrl], and so every factory, accepts every address
    [scheme://host] and [scheme://host:port] whose scheme is made of
    letters (at least one), whose host is made of letters, digits, dots and
    hyphens, and whose port is made of digits: [MakeClient] returns a client
    on that address and no error. *)
Theorem plain_addresses_accepted :
  forall (scheme hostname : string) (port : option string),
    plain_address scheme hostname port ->
    let baseUrl := scheme +:+ "://" +:+ hostname +:+ port_text port in
    validateUrl baseUrl = None
    /\ forall (network : http_Client) (http_NewRequest : NewRequest)
              (omitempty : string -> bool),
        exists c : httpAccountsClientImpl,
          MakeClient network http_NewRequest omitempty baseUrl = (Some c, None)
          /\ host c = baseUrl.
Proof.
  intros scheme hostname port (Hne & Hs & Hh & Hp) baseUrl.
  assert (E : validateUrl baseUrl = None).
  { subst baseUrl. unfold validateUrl, url.ParseRequestURI, url.parse.
    pose proof (authority_bytes hostname port Hh Hp) as Ha.
    pose proof (fun sep H => authority_absent sep hostname port H Hh Hp) as Habs.
    pose proof (parseHost_plain hostname port Hh Hp) as Hhost.
    remember (hostname +:+ port_text port) as authority eqn:Hauth. clear Hauth.
    assert (Hraw : string_forall address_byte (scheme +:+ "://" +:+ authority) = true).
    { rewrite string_forall_app. apply andb_true_iff. split.
      - revert Hs. apply string_forall_impl. intros c Hc.
        apply host_is_address, (letter_facts c Hc).
      - change (string_forall address_byte authority = true).
        revert Ha. apply string_forall_impl. intros c Hc. unfold address_byte.
        destruct (host_byte c); [reflexivity|]. simpl in *. now rewrite Hc. }
    rewrite (noCTL _ Hraw).
    assert (F : (scheme +:+ "://" +:+ authority =? "")%string = false
                /\ (scheme +:+ "://" +:+ authority =? "*")%string = false
                /\ (string_map to_lower scheme =? "")%string = false).
    { destruct scheme as [|c sch]; [contradiction|]. simpl in Hs.
      apply andb_true_iff in Hs. destruct Hs as [Hc _].
      destruct (letter_facts c Hc) as [_ Hstar]. simpl. now rewrite Hstar. }
    destruct F as (-> & -> & Hlow). cbn [andb].
    assert (G : url.getScheme (scheme +:+ "://" +:+ authority)
                = inr (scheme, "//" +:+ authority)).
    { unfold url.getScheme.
      change (scheme +:+ "://" +:+ authority)
        with (scheme +:+ String ":" ("//" +:+ authority)).
      rewrite (scheme_end_letters scheme _ 0 Hs)
        by (destruct scheme; [contradiction | simpl; lia]).
      cbn [Nat.add]. now rewrite take_length_app, drop_S_length_app. }
    rewrite G. clear G.
    assert (Hq : absent "?" ("//" +:+ authority) = true).
    { revert Hraw. rewrite string_forall_app. intros H.
      apply andb_true_iff in H. destruct H as [_ H].
      change (string_forall address_byte ("//" +:+ authority) = true)
        in H || (simpl in H; apply andb_true_iff in H; destruct H as [_ H]).
      revert H. apply absent_of. intros c Hc. apply (address_byte_facts c Hc). }
    rewrite (Count_absent _ _ Hq), (Cut_absent _ _ Hq).
    rewrite andb_false_r. rewrite Hlow.
    replace (HasPrefix ("//" +:+ authority) "/") with true
      by (unfold HasPrefix; simpl; now destruct authority).
    replace (HasPrefix ("//" +:+ authority) "//") with true
      by (unfold HasPrefix; simpl; now destruct authority).
    cbn [negb andb orb].
    change (drop 2 ("//" +:+ authority)) with authority.
    rewrite (Index_absent "/") by (now apply Habs).
    unfold url.parseAuthority.
    rewrite (CutLast_absent "@") by (now apply Habs).
    rewrite Hhost. reflexivity. }
  split; [exact E|].
  intros network nr oe. unfold MakeClient. rewrite E.
  eexists. split; reflexivity.
Qed.

Lemma plain_addresses_accepted_witness :
  validateUrl "http://localhost:8080" = None
  /\ forall (network : http_Client) (http_NewRequest : NewRequest)
            (omitempty : string -> bool),
      exists c : httpAccountsClientImpl,
        MakeClient network http_NewRequest omitempty "http://localhost:8080" = (Some c, None)
        /\ host c = "http://localhost:8080"%string.
Proof.
  apply (plain_addresses_accepted "http" "localhost" (Some "8080"%string)).
  repeat split. discriminate.
Defined.

Lemma scheme_end_no_colon (s : string) (i : nat) :
  absent ":" s = true -> url.scheme_end i s = inr None.
Proof.
  revert i. induction s as [|c s IH]; intros i H; simpl; [reflexivity|].
  simpl in H. apply andb_true_iff in H. destruct H as [Hc Hs].
  apply negb_true_iff in Hc. rewrite Hc.
  destruct (is_letter c); [now apply IH|].
  destruct (is_digit c || url.one_of "+-." c); [|reflexivity].
  destruct i; [reflexivity | now apply IH].
Qed.

Lemma HasPrefix_slash (s : string) :
  HasPrefix s "/" = false <-> match s with String "/" _ => False | _ => True end.
Proof.
  unfold HasPrefix. destruct s as [|c s]; simpl; [tauto|].
  destruct c as [[] [] [] [] [] [] [] []]; simpl; try tauto.
  destruct s; simpl; split; (discriminate || tauto).
Qed.

Lemma drop_last_no_slash (s : string) :
  HasPrefix s "/" = false -> HasPrefix (drop_last s) "/" = false.
Proof.
  rewrite !HasPrefix_slash. destruct s as [|c [|d s]]; simpl; auto.
Qed.

Lemma Cut_no_slash (s : string) (sep : ascii) :
  HasPrefix s "/" = false -> HasPrefix (fst (fst (Cut s sep))) "/" = false.
Proof.
  rewrite !HasPrefix_slash. destruct s as [|c s]; simpl; auto.
  destruct (Ascii.eqb c sep); simpl; auto.
  destruct (Cut s sep) as [[b a] found]. simpl. auto.
Qed.

(** The addresses that are rejected for their form alone. *)
Lemma validateUrl_rejects (baseUrl : string) :
  baseUrl = ""%string
  \/ url.stringContainsCTLByte baseUrl = true
  \/ (absent ":" baseUrl = true /\ HasPrefix baseUrl "/" = false
      /\ baseUrl <> "*"%string) ->
  validateUrl baseUrl = Some (errors_New "invalid URL provided").
Proof.
  intros H.
  unfold validateUrl, url.ParseRequestURI, url.parse.
  destruct H as [-> | [-> | (Hcolon & Hslash & Hstar)]]; [reflexivity..|].
  destruct (url.stringContainsCTLByte baseUrl); [reflexivity|].
  destruct (String.eqb_spec baseUrl "") as [_|_]; [reflexivity|]. cbn [andb].
  destruct (String.eqb_spec baseUrl "*") as [?|_]; [contradiction|].
  unfold url.getScheme. rewrite (scheme_end_no_colon _ _ Hcolon).
  cbn [string_map String.eqb negb andb].
  match goal with
  | |- context [if ?c then (drop_last baseUrl, _, _) else _] => destruct c
  end.
  - rewrite (drop_last_no_slash _ Hslash). reflexivity.
  - pose proof (Cut_no_slash baseUrl "?" Hslash) as Hc.
    destruct (Cut baseUrl "?") as [[b a] found]. simpl in Hc. rewrite Hc.
    reflexivity.
Qed.

(** X23.  [validateUrl], and so every factory, rejects the empty address,
    every address that holds an ASCII control byte, and every address
    without a colon that does not start with a slash, the lone [*]
    excepted: a bare host name such as [localhost] is no base address.
    [MakeClient] then returns no client and the error "invalid URL
    provided". *)
Theorem relative_addresses_rejected :
  forall baseUrl : string,
    baseUrl = ""%string
    \/ url.stringContainsCTLByte baseUrl = true
    \/ (absent ":" baseUrl = true /\ HasPrefix baseUrl "/" = false
        /\ baseUrl <> "*"%string) ->
    validateUrl baseUrl = Some (errors_New "invalid URL provided")
    /\ forall (network : http_Client) (http_NewRequest : NewRequest)
              (omitempty : string -> bool),
        MakeClient network http_NewRequest omitempty baseUrl
        = (None, Some (errors_New "invalid URL provided")).
Proof.
  intros baseUrl H. pose proof (validateUrl_rejects baseUrl H) as E.
  split; [exact E|].
  intros network nr oe. unfold MakeClient. now rewrite E.
Qed.

Lemma relative_addresses_rejected_witness :
  validateUrl "localhost" = Some (errors_New "invalid URL provided")
  /\ forall (network : http_Client) (http_NewRequest : NewRequest)
            (omitempty : string -> bool),
      MakeClient network http_NewRequest omitempty "localhost"
      = (None, Some (errors_New "invalid URL provided")).
Proof.
  apply (relative_addresses_rejected "localhost").
  right; right. repeat split. discriminate.
Defined.

(** ** The Content-Type header as [Fetch] reads it *)

(** X24.  [Fetch] decides on the first value stored under [Content-Type].  A
    response with status 200 that has no such header, or an empty list of
    values under it, is treated as having the empty Content-Type and is
    rejected; when there are several values, the first alone is looked at
    and reported. *)
Theorem fetch_content_type_lookup :
  forall (hac : httpAccountsClientImpl) (id : string) (get : HttpGet)
         (read : ReadInputStream) (resp : Response) (data : string),
    isValidUUID id = true ->
    doHttpGet hac = Some get ->
    get (fetch_url hac id) = (Some resp, None) ->
    readInput hac = Some read ->
    read (RespBody resp) = (data, None) ->
    resp_StatusCode resp = 200 ->
    (Header resp !! "Content-Type"%string = None
     \/ Header resp !! "Content-Type"%string = Some [] ->
     result (Fetch hac id) = Returned (None, Some (UnexpectedContentType 200 "" data)))
    /\ (forall (v : string) (more : list string),
           Header resp !! "Content-Type"%string = Some (v :: more) ->
           HasPrefix v "application/json" = false ->
           result (Fetch hac id) = Returned (None, Some (UnexpectedContentType 200 v data))).
Proof.
  intros hac id get read resp data Hid Hget Hresp Hread Hok Hst.
  assert (run : forall cType,
             Header_Get (Header resp) "Content-Type" = cType ->
             HasPrefix cType "application/json" = false ->
             result (Fetch hac id)
             = Returned (None, Some (UnexpectedContentType 200 cType data))).
  { intros cType Hc Hp.
    go_unfold. rewrite Hid, fetch_url_eq, Hget. simpl. rewrite Hresp. simpl.
    rewrite Hread. simpl. rewrite Hok. simpl.
    rewrite (status_same _ _ Hst). unfold contentType, jsonContentType.
    rewrite Hc, Hp. simpl. rewrite Hst. reflexivity. }
  split.
  - intros H. apply run; [|reflexivity].
    unfold Header_Get. now destruct H as [-> | ->].
  - intros v more Hv Hp. apply run; [|exact Hp].
    unfold Header_Get. now rewrite Hv.
Qed.

Lemma fetch_content_type_lookup_witness :
  result (Fetch (Fixture.client_of (Fixture.server 200 ∅ "{}")) Fixture.some_id)
  = Returned (None, Some (UnexpectedContentType 200 "" "{}")).
Proof.
  pose (net := Fixture.server 200 ∅ "{}").
  apply (proj1 (fetch_content_type_lookup (Fixture.client_of net) Fixture.some_id
                  (client_Get net) io_ReadAll (mkResponse 200 ∅ (mkBody "{}" None)) "{}"
                  eq_refl eq_refl eq_refl eq_refl eq_refl eq_refl)).
  left. reflexivity.
Defined.

(** ** Each operation uses its own primitives *)

(** X25.  [Fetch] depends on the host, the GET primitive and the body reader
    only; [Create] on the host, the serializer, the POST primitive and the
    body reader; [Delete] on the host, the request builder, the request
    executor and the body reader.  Replacing any other primitive of the
    client changes neither the result nor the trace. *)
Theorem operations_use_their_own_primitives :
  forall hac hac' : httpAccountsClientImpl,
    host hac = host hac' ->
    readInput hac = readInput hac' ->
    (doHttpGet hac = doHttpGet hac' -> forall id, Fetch hac id = Fetch hac' id)
    /\ (serialize hac = serialize hac' -> doHttpPost hac = doHttpPost hac' ->
        forall account, Create hac account = Create hac' account)
    /\ (createNewRequest hac = createNewRequest hac' -> doRequest hac = doRequest hac' ->
        forall id version, Delete hac id version = Delete hac' id version).
Proof.
  intros hac hac' Hh Hr. unfold Fetch, Create, Delete, readPayload.
  repeat split.
  - intros Hg id. now rewrite Hh, Hr, Hg.
  - intros Hs Hp account. now rewrite Hh, Hr, Hs, Hp.
  - intros Hm Hx id version. now rewrite Hh, Hr, Hm, Hx.
Qed.

Lemma operations_use_their_own_primitives_witness :
  Fetch (Fixture.client_of (Fixture.server 200 ∅ "{}")) Fixture.some_id
  = Fetch (Fixture.broken_serializer_client (Fixture.server 200 ∅ "{}")) Fixture.some_id.
Proof.
  apply (proj1 (operations_use_their_own_primitives
                  (Fixture.client_of (Fixture.server 200 ∅ "{}"))
                  (Fixture.broken_serializer_client (Fixture.server 200 ∅ "{}"))
                  eq_refl eq_refl) eq_refl Fixture.some_id).
Defined.

(** ** Members the structs have no field for *)

Lemma decode_attrs_skip (ms1 ms2 : list (string * json.value)) (k : string)
    (v : json.value) (a : AccountAttributes) :
  field.lookup field.attrs field.attr_name k = None ->
  codec.decode_attrs (ms1 ++ (k, v) :: ms2) a = codec.decode_attrs (ms1 ++ ms2) a.
Proof.
  intros Hk. revert a. induction ms1 as [|[key w] ms1 IH]; intros a; simpl.
  - now rewrite Hk.
  - destruct (field.lookup field.attrs field.attr_name key) as [f|]; [|apply IH].
    destruct (codec.decode_kind _ _ w _); [reflexivity | apply IH].
Qed.

Lemma decode_data_skip (ms1 ms2 : list (string * json.value)) (k : string)
    (v : json.value) (d : AccountData) :
  field.lookup codec.data_fields codec.data_name k = None ->
  codec.decode_data (ms1 ++ (k, v) :: ms2) d = codec.decode_data (ms1 ++ ms2) d.
Proof.
  intros Hk. revert d. induction ms1 as [|[key w] ms1 IH]; intros d; simpl.
  - now rewrite Hk.
  - destruct (field.lookup codec.data_fields codec.data_name key) as [f|]; [|apply IH].
    destruct (codec.decode_data_field f w d); [reflexivity | apply IH].
Qed.

Lemma decode_envelope_skip (ms1 ms2 : list (string * json.value)) (k : string)
    (v : json.value) (e : Envelope) :
  field.lookup ["data"%string] (fun n => n) k = None ->
  codec.decode_envelope (ms1 ++ (k, v) :: ms2) e = codec.decode_envelope (ms1 ++ ms2) e.
Proof.
  intros Hk. revert e. induction ms1 as [|[key w] ms1 IH]; intros e; simpl.
  - now rewrite Hk.
  - destruct (field.lookup ["data"%string] (fun n => n) key) as [f|]; [|apply IH].
    destruct (codec.decode_ptr _ _ _ w _); [reflexivity | apply IH].
Qed.

(** X26.  A member whose key selects no field (neither exactly nor under case
    folding) is skipped, whatever its value: at the top of the document,
    where only [data] is a field, [json.Unmarshal] returns the same with
    and without it; and likewise inside [data] and inside [attributes]. *)
Theorem unknown_members_ignored :
  forall (ms1 ms2 : list (string * json.value)) (k : string) (v : json.value),
    (field.lookup ["data"%string] (fun n => n) k = None ->
     forall data data' : string,
       json.parse data = Some (json.JObject (ms1 ++ ms2)) ->
       json.parse data' = Some (json.JObject (ms1 ++ (k, v) :: ms2)) ->
       codec.Unmarshal data' = codec.Unmarshal data)
    /\ (field.lookup codec.data_fields codec.data_name k = None ->
        forall d, codec.decode_data (ms1 ++ (k, v) :: ms2) d
                  = codec.decode_data (ms1 ++ ms2) d)
    /\ (field.lookup field.attrs field.attr_name k = None ->
        forall a, codec.decode_attrs (ms1 ++ (k, v) :: ms2) a
                  = codec.decode_attrs (ms1 ++ ms2) a).
Proof.
  intros ms1 ms2 k v. split; [|split].
  - intros Hk data data' Hd Hd'. unfold codec.Unmarshal. rewrite Hd, Hd'.
    unfold codec.decode_ptr. now rewrite decode_envelope_skip.
  - intros Hk d. now apply decode_data_skip.
  - intros Hk a. now apply decode_attrs_skip.
Qed.

Lemma unknown_members_ignored_witness :
  codec.Unmarshal Double.links_body = codec.Unmarshal Fixture.null_data_body.
Proof.
  apply (proj1 (unknown_members_ignored [] [("data"%string, json.JNull)] "links"
                  (json.JObject [])) eq_refl Fixture.null_data_body Double.links_body);
    reflexivity.
Defined.

(** * The identifiers and addresses the client accepts *)

(** ** Identifier validation, by the form of the identifier (C2) *)

Lemma uuid_text_passes (s : string) : uuid_text s = true -> passes_uuid_check s = true.
Proof.
  unfold uuid_text, passes_uuid_check. intros H.
  destruct (canonical_uuid s); [reflexivity|].
  destruct (urn_uuid s); [reflexivity|].
  destruct (raw_hex_uuid s); [now rewrite orb_true_r|].
  cbn [orb] in *. rewrite orb_false_r in *.
  unfold braced_uuid in H. unfold wrapped_uuid.
  destruct s as [|c r]; [discriminate H|].
  destruct c as [[] [] [] [] [] [] [] []]; try discriminate H.
  apply andb_true_iff in H. destruct H as [Hc Hd].
  apply String.eqb_eq in Hd.
  change (drop 1 (String "{" r)) with r. rewrite Hc, andb_true_r.
  pose proof (shaped_length _ _ Hc) as Ht.
  pose proof (take_drop_string 36 r) as E. rewrite Hd in E.
  apply (f_equal String.length) in E. rewrite length_append, Ht in E.
  cbn [String.length]. rewrite <- E. reflexivity.
Qed.

(** C2, for the strings the check rejects.  The check of the client passes
    the canonical text of a UUID (36 bytes: hexadecimal digits of either
    case with dashes after 8, 12, 16 and 20 digits), that text after
    [urn:uuid:], 32 hexadecimal digits, and every 38-byte string whose
    middle 36 bytes are the canonical text (the braced text among them).
    For every other string [id], [Fetch id] returns a nil resource with the
    error "id must be a valid uuid", [Delete id version] returns that same
    error, and in both cases the trace is empty: no transport primitive is
    invoked.  For a string that passes, the operation goes on: the first
    step of [Fetch] is the GET, the first step of [Delete] the construction
    of the request.  Every text of a UUID passes. *)
Theorem unaccepted_id_fails_without_network :
  forall (hac : httpAccountsClientImpl) (id : string) (version : Z),
    (passes_uuid_check id = false ->
     Fetch hac id = ([], Returned (None, Some InvalidArgument))
     /\ Delete hac id version = ([], Returned (Some InvalidArgument))
     /\ Message InvalidArgument = "id must be a valid uuid"%string)
    /\ (passes_uuid_check id = true ->
        (forall get : HttpGet,
            doHttpGet hac = Some get ->
            exists t, trace (Fetch hac id) = CallGet (fetch_url hac id) :: t)
        /\ (forall mk : NewRequest,
               createNewRequest hac = Some mk ->
               exists t,
                 trace (Delete hac id version)
                 = CallNewRequest "DELETE" (delete_url hac id version) :: t))
    /\ (uuid_text id = true -> passes_uuid_check id = true).
Proof.
  intros hac id version. rewrite <- (isValidUUID_forms id). split; [|split].
  - intros Hid. unfold Fetch, Delete. rewrite Hid. simpl. repeat split.
  - intros Hid. split.
    + intros get Hget. go_unfold. rewrite Hid, fetch_url_eq, Hget. simpl.
      destruct (get (fetch_url hac id)) as [resp [e|]]; simpl; [eauto|].
      destruct resp as [r|]; simpl;
        match goal with
        | |- context [let (_, _) := ?m in _] => destruct m; simpl; eauto
        | _ => eauto
        end.
    + intros mk Hmk. go_unfold. rewrite Hid, delete_url_eq, Hmk. simpl. unfold MethodDelete.
      destruct (mk "DELETE"%string (delete_url hac id version) None) as [req [e|]]; simpl;
        [eauto|].
      match goal with
      | |- context [let (_, _) := ?m in _] => destruct m as [? []]; simpl; eauto
      end.
  - rewrite (isValidUUID_forms id). apply uuid_text_passes.
Qed.

(** The theorem at the string [blah], which the check rejects. *)
Lemma unaccepted_id_fails_without_network_witness :
  passes_uuid_check "blah" = false
  /\ Fetch (Fixture.client_of (Fixture.server 200 Fixture.json_header "{}")) "blah"
     = ([], Returned (None, Some InvalidArgument))
  /\ Delete (Fixture.client_of (Fixture.server 200 Fixture.json_header "{}")) "blah" 3
     = ([], Returned (Some InvalidArgument))
  /\ Message InvalidArgument = "id must be a valid uuid"%string.
Proof.
  split; [reflexivity|].
  apply (proj1 (unaccepted_id_fails_without_network
                  (Fixture.client_of (Fixture.server 200 Fixture.json_header "{}"))
                  "blah" 3)).
  reflexivity.
Defined.

(** C2 as the specification states it fails.  The canonical text of a
    UUID between the letters [X] and [Y] is no text of a UUID (not the
    canonical text, not the URN, not the braced text, not 32 hexadecimal
    digits).  Yet it passes the check: [Fetch] issues the GET and reports
    what the server answers (here 404), and [Delete] builds and sends its
    request. *)
Lemma wrapped_id_reaches_the_network :
  uuid_text wrapped_id = false
  /\ Fetch (Fixture.client_of (Fixture.server 404 ∅ "")) wrapped_id
     = ([CallGet ("http://localhost:8080/v1/organisation/accounts/" +:+ wrapped_id);
         CallReadInput (mkBody "" None); CloseBody (mkBody "" None)],
        Returned (None, Some (unexpectedStatusCode 200 404 "Get" (Some ""%string))))
  /\ Delete (Fixture.client_of (Fixture.server 204 ∅ "")) wrapped_id 0
     = ([CallNewRequest "DELETE"
           ("http://localhost:8080/v1/organisation/accounts/" +:+ wrapped_id
            +:+ "?version=0");
         CallDo (Some (mkRequest "DELETE"
                         ("http://localhost:8080/v1/organisation/accounts/" +:+ wrapped_id
                          +:+ "?version=0")));
         CloseBody (mkBody "" None)],
        Returned None).
Proof. repeat split; vm_compute; reflexivity. Qed.

(** ** Construction, by the form of the address (C8) *)















